(** * News-intelligence agent: tools and briefing workflow

    A shallow embedding of the four leaf tools ([news-tool.ts],
    [sentiment-tool.ts], [fact-check-tool.ts], [trend-tool.ts]) and of the
    step [performComprehensiveAnalysis] of [news-workflow.ts], followed by
    the properties of the design record that can be stated over them.

    Conventions of the embedding.

    - A JavaScript string is the [string] of its UTF-8 bytes.  Every
      pattern and keyword of the program is ASCII, and no byte of a
      multi-byte UTF-8 sequence is an ASCII byte, so substring search,
      classes such as [[^\n]] and [\d], and case folding of ASCII
      letters give on the bytes the answer they give on UTF-16 code units.
      White space ([\s], [trim]) is recognised on the encoded sequences.
    - A JavaScript number is a binary64 [float].
    - An [async] function is a computation in the monad [M]: it reads and
      extends a [World] (environment, scripted HTTP exchanges, clock and
      random draws) and ends by returning, by throwing, or not at all.
    - [console.log] and friends are not modelled. *)

From Stdlib Require Import String Ascii List ZArith Lia Bool Arith.
From Stdlib Require Import Floats DecimalString.
Import ListNotations.

Set Warnings "-inexact-float,-register-all".
Local Open Scope list_scope.
Local Open Scope string_scope.

(* ================================================================== *)
(** * Strings *)
(* ================================================================== *)

Module Str.

Definition isEmpty (s : string) : bool :=
  match s with EmptyString => true | String _ _ => false end.

Definition code (c : ascii) : nat := nat_of_ascii c.

Definition isUpper (c : ascii) : bool :=
  ((65 <=? code c) && (code c <=? 90))%nat.

Definition isDigit (c : ascii) : bool :=
  ((48 <=? code c) && (code c <=? 57))%nat.

(** ASCII letters are folded; every other byte is kept. *)
Definition lowerChar (c : ascii) : ascii :=
  if isUpper c then ascii_of_nat (code c + 32) else c.

Fixpoint toLowerCase (s : string) : string :=
  match s with
  | EmptyString => EmptyString
  | String c s' => String (lowerChar c) (toLowerCase s')
  end.

(** [startsWith p s]: [p] is a prefix of [s]. *)
Fixpoint startsWith (p s : string) : bool :=
  match p, s with
  | EmptyString, _ => true
  | String a p', String b s' => Ascii.eqb a b && startsWith p' s'
  | String _ _, EmptyString => false
  end.

(** [String.prototype.includes]. *)
Fixpoint includes (s kw : string) : bool :=
  startsWith kw s ||
  match s with
  | EmptyString => false
  | String _ s' => includes s' kw
  end.

(** The encoded forms of the code points that [\s] and [trim] treat as
    white space: TAB, LF, VT, FF, CR, SP, U+00A0, U+1680, U+2000..U+200A,
    U+2028, U+2029, U+202F, U+205F, U+3000, U+FEFF. *)
Definition bytes (l : list nat) : string :=
  string_of_list_ascii (map ascii_of_nat l).

Definition whiteSpace : list string :=
  map bytes
    [ [9]; [10]; [11]; [12]; [13]; [32];
      [194; 160];
      [225; 154; 128];
      [226; 128; 128]; [226; 128; 129]; [226; 128; 130]; [226; 128; 131];
      [226; 128; 132]; [226; 128; 133]; [226; 128; 134]; [226; 128; 135];
      [226; 128; 136]; [226; 128; 137]; [226; 128; 138];
      [226; 128; 168]; [226; 128; 169]; [226; 128; 175];
      [226; 129; 159];
      [227; 128; 128];
      [239; 187; 191] ].

Fixpoint dropPrefix (p s : string) : option string :=
  match p, s with
  | EmptyString, _ => Some s
  | String a p', String b s' =>
      if Ascii.eqb a b then dropPrefix p' s' else None
  | String _ _, EmptyString => None
  end.

Fixpoint dropAny (ps : list string) (s : string) : option string :=
  match ps with
  | [] => None
  | p :: ps' =>
      match dropPrefix p s with
      | Some s' => Some s'
      | None => dropAny ps' s
      end
  end.

Fixpoint trimStartWith (ws : list string) (fuel : nat) (s : string)
  : string :=
  match fuel with
  | O => s
  | S fuel' =>
      match dropAny ws s with
      | Some s' => trimStartWith ws fuel' s'
      | None => s
      end
  end.

Definition rev (s : string) : string :=
  string_of_list_ascii (List.rev (list_ascii_of_string s)).

Definition trimStart (s : string) : string :=
  trimStartWith whiteSpace (String.length s) s.

Definition trimEnd (s : string) : string :=
  rev (trimStartWith (map rev whiteSpace) (String.length s) (rev s)).

Definition trim (s : string) : string := trimEnd (trimStart s).

(** [!s || s.trim().length === 0] on a string [s]. *)
Definition isBlank (s : string) : bool :=
  isEmpty s || (String.length (trim s) =? 0)%nat.

(** [s.split(sep)[0]] for a one-character separator. *)
Fixpoint beforeChar (sep : ascii) (s : string) : string :=
  match s with
  | EmptyString => EmptyString
  | String c s' =>
      if Ascii.eqb c sep then EmptyString else String c (beforeChar sep s')
  end.

Definition dq : string := String (ascii_of_nat 34) EmptyString.
Definition sq : string := String (ascii_of_nat 39) EmptyString.
Definition nl : string := String (ascii_of_nat 10) EmptyString.

Definition ofNat (n : nat) : string :=
  NilEmpty.string_of_uint (Nat.to_uint n).

(** [kw] occurs in [s]. *)
Definition contains (s kw : string) : Prop :=
  exists a b, s = a ++ kw ++ b.

(** Every character of [s] satisfies [p]. *)
Fixpoint all (p : ascii -> bool) (s : string) : bool :=
  match s with
  | EmptyString => true
  | String c s' => p c && all p s'
  end.

(** Containment with the letter case ignored, said without
    [toLowerCase]: [c] reads as the small letter [l] when it is [l] or
    the capital of [l]; [t] spells [word] when it reads as [word] letter
    by letter; [s] mentions [word] when a part of it spells [word]. *)
Definition reads (l c : ascii) : Prop :=
  c = l
  \/ ((97 <= nat_of_ascii l)%nat /\ (nat_of_ascii l <= 122)%nat /\
      (nat_of_ascii c + 32 = nat_of_ascii l)%nat).

Fixpoint spells (word t : string) : Prop :=
  match word, t with
  | EmptyString, EmptyString => True
  | String l word', String c t' => reads l c /\ spells word' t'
  | _, _ => False
  end.

Definition mentions (s word : string) : Prop :=
  exists a t b, s = a ++ t ++ b /\ spells word t.

End Str.

(* ================================================================== *)
(** * Regular expressions

    A backtracking matcher with the priorities of the ECMAScript one:
    alternatives are tried left to right, [Star] is greedy and gives back
    one iteration at a time, an iteration that consumes nothing is
    refused.  The continuation receives the text consumed so far, the
    text that is left, and the captures. *)
(* ================================================================== *)

Module Regex.

Inductive regex : Type :=
| Eps
| Chr (p : ascii -> bool)
| Cat (r1 r2 : regex)
| Alt (r1 r2 : regex)
| Star (r : regex)
| Grp (n : nat) (r : regex).

Definition captures := list (nat * string).

Fixpoint capture (n : nat) (cs : captures) : option string :=
  match cs with
  | [] => None
  | (i, s) :: cs' => if Nat.eqb i n then Some s else capture n cs'
  end.

Section Matcher.
Variable A : Type.

Definition cont := string -> string -> captures -> option A.

Definition orElse (x : option A) (y : unit -> option A) : option A :=
  match x with Some a => Some a | None => y tt end.

Definition iterate
  (step : string -> captures -> cont -> option A)
  : nat -> string -> captures -> cont -> option A :=
  fix loop (fuel : nat) (s : string) (cs : captures) (k : cont)
    {struct fuel} : option A :=
    match fuel with
    | O => k "" s cs
    | S fuel' =>
        orElse
          (step s cs (fun c1 s1 cs1 =>
             if Str.isEmpty c1 then None
             else loop fuel' s1 cs1
                    (fun c2 s2 cs2 => k (c1 ++ c2) s2 cs2)))
          (fun _ => k "" s cs)
    end.

Fixpoint rmatch (r : regex) (s : string) (cs : captures) (k : cont)
  {struct r} : option A :=
  match r with
  | Eps => k "" s cs
  | Chr p =>
      match s with
      | String c s' => if p c then k (String c "") s' cs else None
      | EmptyString => None
      end
  | Cat r1 r2 =>
      rmatch r1 s cs (fun c1 s1 cs1 =>
        rmatch r2 s1 cs1 (fun c2 s2 cs2 => k (c1 ++ c2) s2 cs2))
  | Alt r1 r2 =>
      orElse (rmatch r1 s cs k) (fun _ => rmatch r2 s cs k)
  | Star r' =>
      iterate (rmatch r') (String.length s) s cs k
  | Grp n r' =>
      rmatch r' s cs (fun c s' cs' => k c s' ((n, c) :: cs'))
  end.
End Matcher.

Arguments orElse {A} x y.
Arguments iterate {A} step fuel s cs k.
Arguments rmatch {A} r s cs k.

(** [consuming r]: by its shape, [r] matches no empty text. *)
Fixpoint consuming (r : regex) : bool :=
  match r with
  | Eps => false
  | Chr _ => true
  | Cat r1 r2 => consuming r1 || consuming r2
  | Alt r1 r2 => consuming r1 && consuming r2
  | Star _ => false
  | Grp _ r' => consuming r'
  end.

(** What [exec] reports: the text before the match, the match, its
    captures, and the text after it (where [lastIndex] then points). *)
Record found : Type := Found {
  before : string;
  matched : string;
  groups : captures;
  after : string
}.

Definition matchAt (r : regex) (s : string) : option found :=
  rmatch r s [] (fun c s' cs => Some (Found "" c cs s')).

Definition shift (c : ascii) (m : found) : found :=
  Found (String c (before m)) (matched m) (groups m) (after m).

(** The leftmost match: every start position in turn, the end of the
    text included. *)
Fixpoint search (r : regex) (s : string) : option found :=
  match matchAt r s with
  | Some m => Some m
  | None =>
      match s with
      | EmptyString => None
      | String c s' => option_map (shift c) (search r s')
      end
  end.

(** [m[n]] for a group that took part in the match. *)
Definition group (n : nat) (m : found) : string :=
  match capture n (groups m) with Some s => s | None => "" end.

(** No match starts at a position inside [pre] when [pre] is followed
    by [rest]. *)
Fixpoint noMatchIn (r : regex) (pre rest : string) : bool :=
  match pre with
  | EmptyString => true
  | String _ pre' =>
      match matchAt r (pre ++ rest) with
      | Some _ => false
      | None => noMatchIn r pre' rest
      end
  end.

(** What a successful run owes to its continuation: a call on a split
    of the text, with a first part that is not empty when [r] is
    [consuming]. *)
Definition calls {A} (r : regex) (s : string) (k : cont A) (x : A)
  : Prop :=
  exists c s' cs',
    s = c ++ s' /\ (consuming r = true -> c <> "") /\
    k c s' cs' = Some x.

(** [m] is the leftmost match of [r] in [s]: no match starts before
    it, and the matcher run where it starts gives its text and groups. *)
Definition leftmost (r : regex) (s : string) (m : found) : Prop :=
  s = before m ++ matched m ++ after m /\
  noMatchIn r (before m) (matched m ++ after m) = true /\
  matchAt r (matched m ++ after m)
  = Some (Found "" (matched m) (groups m) (after m)).

(** [r] matches at no position of [s]. *)
Definition nowhere (r : regex) (s : string) : Prop :=
  forall pre rest, s = pre ++ rest -> matchAt r rest = None.

(** ** Pattern syntax *)

Definition ci (c : ascii) : regex :=
  Chr (fun x => Ascii.eqb (Str.lowerChar x) (Str.lowerChar c)).

Definition exactly (c : ascii) : regex := Chr (Ascii.eqb c).

(** A literal under the [i] flag. *)
Fixpoint lit (s : string) : regex :=
  match s with
  | EmptyString => Eps
  | String c EmptyString => ci c
  | String c s' => Cat (ci c) (lit s')
  end.

Fixpoint seq (s : string) : regex :=
  match s with
  | EmptyString => Eps
  | String c EmptyString => exactly c
  | String c s' => Cat (exactly c) (seq s')
  end.

Fixpoint oneOf (rs : list regex) : regex :=
  match rs with
  | [] => Chr (fun _ => false)
  | [r] => r
  | r :: rs' => Alt r (oneOf rs')
  end.

Fixpoint cat (rs : list regex) : regex :=
  match rs with
  | [] => Eps
  | [r] => r
  | r :: rs' => Cat r (cat rs')
  end.

Definition plus (r : regex) : regex := Cat r (Star r).
Definition opt (r : regex) : regex := Alt r Eps.

(** [\s], [\d], [[^\n]], [["']], [[^"']]. *)
Definition space : regex := oneOf (map seq Str.whiteSpace).
Definition digit : regex := Chr Str.isDigit.
Definition notNewline : regex :=
  Chr (fun c => negb (Nat.eqb (Str.code c) 10)).
Definition isQuote (c : ascii) : bool :=
  Nat.eqb (Str.code c) 34 || Nat.eqb (Str.code c) 39.
Definition quote : regex := Chr isQuote.
Definition notQuote : regex := Chr (fun c => negb (isQuote c)).

(** A character that is no quote. *)
Definition unquoted (c : ascii) : bool := negb (isQuote c).

(** ** What the matcher does, read off the text

    These functions are the right-hand sides of the equations proved
    of [rmatch] further down. *)

(** Strip a prefix that equals [p] up to the case of ASCII letters. *)
Fixpoint ciStrip (p s : string) : option (string * string) :=
  match p, s with
  | EmptyString, _ => Some (EmptyString, s)
  | String a p', String b s' =>
      if Ascii.eqb (Str.lowerChar b) (Str.lowerChar a)
      then match ciStrip p' s' with
           | Some (c, r) => Some (String b c, r)
           | None => None
           end
      else None
  | String _ _, EmptyString => None
  end.

(** The first of [ps] that is a prefix of [s], and what follows it. *)
Fixpoint findPrefix (ps : list string) (s : string)
  : option (string * string) :=
  match ps with
  | [] => None
  | p :: ps' =>
      match Str.dropPrefix p s with
      | Some s' => Some (p, s')
      | None => findPrefix ps' s
      end
  end.

Definition overlap (p q : string) : bool :=
  Str.startsWith p q || Str.startsWith q p.

Fixpoint prefixFree (ps : list string) : bool :=
  match ps with
  | [] => true
  | p :: ps' => forallb (fun q => negb (overlap p q)) ps' && prefixFree ps'
  end.

(** [c*] for a class [c]: the longest run first, then one less. *)
Fixpoint backtrack {A} (p : ascii -> bool) (s : string) (cs : captures)
  (k : cont A) : option A :=
  match s with
  | String c s' =>
      if p c
      then orElse
             (backtrack p s' cs (fun c2 s2 cs2 => k (String c c2) s2 cs2))
             (fun _ => k "" s cs)
      else k "" s cs
  | EmptyString => k "" s cs
  end.

Definition headFails (p : ascii -> bool) (s : string) : bool :=
  match s with
  | String c _ => negb (p c)
  | EmptyString => true
  end.

(** ** Loops over a pattern with the [g] flag *)

(** [while ((m = re.exec(s)) !== null) { push }]: the next search starts
    where the last match ended.  [None]: the fuel ran out, which is how
    a loop that never ends shows. *)
Fixpoint execLoop (fuel : nat) (r : regex) (s : string) (acc : list found)
  : option (list found) :=
  match fuel with
  | O => None
  | S fuel' =>
      match search r s with
      | None => Some acc
      | Some m => execLoop fuel' r (after m) (acc ++ [m])%list
      end
  end.

Definition execAll (r : regex) (s : string) : option (list found) :=
  execLoop (S (String.length s)) r s [].

(** The successive matches, as a relation. *)
Inductive successive (r : regex) : string -> list found -> Prop :=
| successive_done s :
    search r s = None -> successive r s []
| successive_next s m ms :
    search r s = Some m -> successive r (after m) ms ->
    successive r s (m :: ms).

End Regex.

(* ================================================================== *)
(** * Numbers and values *)
(* ================================================================== *)

Module Js.

Local Open Scope Z_scope.

Definition digitValue (c : ascii) : Z := Z.of_nat (Str.code c) - 48.

Fixpoint takeDigits (s : string) : string * string :=
  match s with
  | String c s' =>
      if Str.isDigit c
      then let '(d, r) := takeDigits s' in (String c d, r)
      else (EmptyString, s)
  | EmptyString => (EmptyString, EmptyString)
  end.

Fixpoint digitsValue (acc : Z) (s : string) : Z :=
  match s with
  | EmptyString => acc
  | String c s' => digitsValue (10 * acc + digitValue c) s'
  end.

Definition nan : float := (0 / 0)%float.

Fixpoint pow10 (k : nat) : positive :=
  match k with
  | O => 1%positive
  | S k' => (10 * pow10 k')%positive
  end.

(** The binary64 nearest to [n / 10^k], ties to even. *)
Definition decimal (n : Z) (k : nat) : float :=
  match n with
  | Z.pos m =>
      SF2Prim (SFdiv prec emax
                 (S754_finite false m 0)
                 (S754_finite false (pow10 k) 0))
  | _ => 0%float
  end.

(** [parseFloat] on text of the shape [\d+\.?\d*] (digits, then an
    optional fraction); [NaN] when no digit leads. *)
Definition parseFloat (s : string) : float :=
  let '(int, rest) := takeDigits s in
  if Str.isEmpty int then nan
  else
    let frac :=
      match rest with
      | String c rest' =>
          if Ascii.eqb c "." then fst (takeDigits rest') else EmptyString
      | EmptyString => EmptyString
      end in
    decimal (digitsValue 0 (int ++ frac)) (String.length frac).

(** Values as [JSON.parse] and [response.json()] produce them, and
    [undefined]. *)
Inductive value : Type :=
| Undefined
| Null
| Bool (b : bool)
| Num (x : float)
| Text (s : string)
| Arr (items : list value)
| Obj (fields : list (string * value)).

Definition isNaN (x : float) : bool := negb (PrimFloat.eqb x x).

(** [ToBoolean]. *)
Definition truthy (v : value) : bool :=
  match v with
  | Undefined | Null => false
  | Bool b => b
  | Num x => negb (PrimFloat.eqb x 0 || isNaN x)
  | Text s => negb (Str.isEmpty s)
  | Arr _ | Obj _ => true
  end.

Fixpoint lookup (k : string) (fs : list (string * value)) : value :=
  match fs with
  | [] => Undefined
  | (k', v) :: fs' => if String.eqb k' k then v else lookup k fs'
  end.

(** What can be thrown.  The messages of [TypeError] and [SyntaxError]
    are the engine's. *)
Inductive exn : Type :=
| Error (message : string)
| TypeError (message : string)
| SyntaxError (message : string).

(** [error instanceof Error ? error.message : "Unknown error"]: the
    three classes are all [Error]s. *)
Definition message (e : exn) : string :=
  match e with
  | Error m | TypeError m | SyntaxError m => m
  end.

(** [v.k] for a name [k] that no prototype defines ([choices],
    [message], [content], [overallSentiment], [emotions]). *)
Definition get (k : string) (v : value) : exn + value :=
  match v with
  | Undefined =>
      inl (TypeError ("Cannot read properties of undefined (reading '"
                        ++ k ++ "')"))
  | Null =>
      inl (TypeError ("Cannot read properties of null (reading '"
                        ++ k ++ "')"))
  | Obj fs => inr (lookup k fs)
  | _ => inr Undefined
  end.

(** [v[0]] for a [v] that is neither [undefined] nor [null]. *)
Definition first (v : value) : value :=
  match v with
  | Arr (x :: _) => x
  | Text (String c _) => Text (String c "")
  | Obj fs => lookup "0" fs
  | _ => Undefined
  end.

End Js.

(* ================================================================== *)
(** * The world and the monad of effects *)
(* ================================================================== *)

Module Eff.

Import Js.

(** The prompts, by template and interpolated values. *)
Inductive prompt : Type :=
| NewsSystem (language timeRange : string)
| NewsUser (count : float) (topic timeRange language sortBy : string)
| SentimentSystem
| SentimentUser (additionalContext : option string) (text : string)
| FactCheckSystem
| FactCheckUser (claim : string) (additionalContext : option string)
                (sources : list string)
| TrendSystem
| TrendUser (topic timeframe : string) (region : option string).

(** One [fetch] call: a POST of a chat completion. *)
Record request : Type := Request {
  url : string;
  authorization : string;
  model : string;
  system : prompt;
  user : prompt;
  max_tokens : Z;
  temperature : float
}.

(** A [Response]: status, [text()], and [json()] ([None]: the body is
    not JSON and [json()] rejects with the engine's [SyntaxError]). *)
Record response : Type := Response {
  status : Z;
  bodyText : string;
  bodyJson : option value
}.

Definition ok (r : response) : bool :=
  ((200 <=? status r) && (status r <=? 299))%Z.

Inductive exchange : Type :=
| Rejects (reason : string)
| Responds (r : response).

(** The builtins whose results the program only passes on. *)
Record Host : Type := {
  Date_now : nat -> Z;
  getDate : Z -> Z;
  setDate : Z -> Z -> Z;
  getMonth : Z -> Z;
  setMonth : Z -> Z -> Z;
  getFullYear : Z -> Z;
  setFullYear : Z -> Z -> Z;
  toISOString : Z -> string;
  Math_random : nat -> float;
  Math_floor : float -> float;
  Math_round : float -> float;
  Number_toString : float -> string;
  JSON_parse : string -> option value;
  JSON_error : string -> string
}.

Record World : Type := {
  host : Host;
  PERPLEXITY_API_KEY : option string;
  network : list exchange;
  requests : list request;
  clockReads : nat;
  randomDraws : nat
}.

Inductive outcome (A : Type) : Type :=
| Return (a : A)
| Throw (e : exn)
| Diverge.
Arguments Return {A} a.
Arguments Throw {A} e.
Arguments Diverge {A}.

Definition M (A : Type) : Type := World -> outcome A * World.

Definition ret {A} (a : A) : M A := fun w => (Return a, w).

Definition throw {A} (e : exn) : M A := fun w => (Throw e, w).

Definition diverge {A} : M A := fun w => (Diverge, w).

Definition bind {A B} (m : M A) (f : A -> M B) : M B :=
  fun w =>
    match m w with
    | (Return a, w') => f a w'
    | (Throw e, w') => (Throw e, w')
    | (Diverge, w') => (Diverge, w')
    end.

(** [try { body } catch (error) { handler }]. *)
Definition tryCatch {A} (body : M A) (handler : exn -> M A) : M A :=
  fun w =>
    match body w with
    | (Throw e, w') => handler e w'
    | r => r
    end.

Definition lift {A} (x : exn + A) : M A :=
  match x with inl e => throw e | inr a => ret a end.

Definition ask : M Host := fun w => (Return (host w), w).

(** [process.env.PERPLEXITY_API_KEY], [undefined] as [None]. *)
Definition getKey : M (option string) :=
  fun w => (Return (PERPLEXITY_API_KEY w), w).

(** The world after one more reading of the clock, one more random
    draw, one more request. *)
Definition ticked (w : World) : World :=
  {| host := host w;
     PERPLEXITY_API_KEY := PERPLEXITY_API_KEY w;
     network := network w;
     requests := requests w;
     clockReads := S (clockReads w);
     randomDraws := randomDraws w |}.

Definition drawn (w : World) : World :=
  {| host := host w;
     PERPLEXITY_API_KEY := PERPLEXITY_API_KEY w;
     network := network w;
     requests := requests w;
     clockReads := clockReads w;
     randomDraws := S (randomDraws w) |}.

Definition posted (q : request) (w : World) : World :=
  {| host := host w;
     PERPLEXITY_API_KEY := PERPLEXITY_API_KEY w;
     network := tl (network w);
     requests := (requests w ++ [q])%list;
     clockReads := clockReads w;
     randomDraws := randomDraws w |}.

(** [new Date()]. *)
Definition newDate : M Z :=
  fun w => (Return (Date_now (host w) (clockReads w)), ticked w).

(** [Math.random()]. *)
Definition random : M float :=
  fun w => (Return (Math_random (host w) (randomDraws w)), drawn w).

(** [fetch(url, init)]: the request goes out, and the next scripted
    exchange answers it; with none left the network is down. *)
Definition fetch (q : request) : M response :=
  fun w =>
    match network w with
    | [] => (Throw (TypeError "fetch failed"), posted q w)
    | Rejects reason :: _ => (Throw (TypeError reason), posted q w)
    | Responds r :: _ => (Return r, posted q w)
    end.

(** [response.json()]: the parsed body, or the [SyntaxError] of the
    engine, whose message [JSON_error] is the engine's own. *)
Definition json (r : response) : M value :=
  fun w =>
    match bodyJson r with
    | Some v => (Return v, w)
    | None => (Throw (SyntaxError (JSON_error (host w) (bodyText r))), w)
    end.

Declare Scope eff_scope.
Delimit Scope eff_scope with eff.
Notation "x <- m ;; k" := (bind m (fun x => k))
  (at level 61, m at next level, right associativity) : eff_scope.
Notation "m ;;; k" := (bind m (fun _ => k))
  (at level 61, right associativity) : eff_scope.

(** A call that throws, and one that returns, in every world. *)
Definition raises {A B} (f : A -> M B) : Prop :=
  forall a w, exists e w', f a w = (Throw e, w').

Definition returns {A B} (f : A -> M B) : Prop :=
  forall a w, exists b w', f a w = (Return b, w').

(** A call that comes back, with a result or an exception. *)
Definition halts {A B} (f : A -> M B) : Prop :=
  forall a w, fst (f a w) <> Diverge.

(** The calls [f a] for the [a] of [l] all returned, one after the
    other from [w] to [w'], with the results [bs]. *)
Inductive allReturn {A B} (f : A -> M B)
  : list A -> World -> list B -> World -> Prop :=
| allReturn_nil w : allReturn f [] w [] w
| allReturn_cons a l w b w1 bs w2 :
    f a w = (Return b, w1) -> allReturn f l w1 bs w2 ->
    allReturn f (a :: l) w (b :: bs) w2.

(** The calls [f a] for the [a] of [l], one after the other. *)
Fixpoint forEach {A B} (f : A -> M B) (l : list A) : M (list B) :=
  match l with
  | [] => ret []
  | a :: l' =>
      bind (f a) (fun b => bind (forEach f l') (fun bs => ret (b :: bs)))
  end.

(** The promise of a started [async] call: fulfilled, rejected, or
    pending for good when the call does not come back. *)
Inductive promise (A : Type) : Type :=
| Fulfilled (a : A)
| Rejected (e : exn)
| Pending.
Arguments Fulfilled {A} a.
Arguments Rejected {A} e.
Arguments Pending {A}.

(** Starting a call never throws and never waits. *)
Definition started {A} (m : M A) : M (promise A) :=
  fun w =>
    match m w with
    | (Return a, w') => (Return (Fulfilled a), w')
    | (Throw e, w') => (Return (Rejected e), w')
    | (Diverge, w') => (Return Pending, w')
    end.

Fixpoint firstRejected {A} (ps : list (promise A)) : option exn :=
  match ps with
  | [] => None
  | Rejected e :: _ => Some e
  | _ :: ps' => firstRejected ps'
  end.

Fixpoint allFulfilled {A} (ps : list (promise A)) : option (list A) :=
  match ps with
  | [] => Some []
  | Fulfilled a :: ps' =>
      match allFulfilled ps' with
      | Some l => Some (a :: l)
      | None => None
      end
  | _ :: _ => None
  end.

(** [await Promise.all(ms)] over calls that were all started by the
    [map] before it: it rejects as soon as one of them rejects, also
    while another is pending; it fulfils when all have; otherwise it
    stays pending.  The calls are run one after the other here (the
    program starts them together and their exchanges may interleave),
    and of several rejections the one of the earliest call is taken. *)
Definition promiseAll {A} (ms : list (M A)) : M (list A) :=
  bind (forEach started ms)
    (fun ps =>
       match firstRejected ps with
       | Some e => throw e
       | None =>
           match allFulfilled ps with
           | Some l => ret l
           | None => diverge
           end
       end).

End Eff.

Import Js Eff.
Local Open Scope eff_scope.

(* ================================================================== *)
(** * The completion call

    The four tools share, word for word up to the label of one error
    message and the name of one variable, the block that checks the
    credential, posts the request, classifies the status, and digs the
    text out of [data.choices[0].message.content]. *)
(* ================================================================== *)

Module Completion.

Definition endpoint : string :=
  "https://api.perplexity.ai/chat/completions".

(** [if (!process.env.PERPLEXITY_API_KEY) throw ...]. *)
Definition requireKey : M string :=
  key <- getKey ;;
  match key with
  | Some k =>
      if Str.isEmpty k
      then throw (Error "PERPLEXITY_API_KEY environment variable is not set")
      else ret k
  | None =>
      throw (Error "PERPLEXITY_API_KEY environment variable is not set")
  end.

Definition showStatus (z : Z) : string :=
  NilZero.string_of_int (Z.to_int z).

(** [if (!response.ok) { ... throw ... }]. *)
Definition checkStatus (label : string) (r : response) : M unit :=
  if ok r then ret tt
  else
    let errorText := bodyText r in
    if (status r =? 401)%Z then
      throw (Error "Invalid Perplexity API key. Please check your PERPLEXITY_API_KEY environment variable.")
    else if (status r =? 429)%Z then
      throw (Error "Rate limit exceeded. Please wait a moment and try again.")
    else if (500 <=? status r)%Z then
      throw (Error "Perplexity API server error. Please try again later.")
    else
      throw (Error (label ++ ": " ++ showStatus (status r) ++ " - "
                      ++ errorText)).

Definition invalidFormat : exn :=
  Error "Invalid response format from Perplexity API".

Definition emptyResponse : exn :=
  Error "Empty response from Perplexity API".

(** [if (!data.choices || !data.choices[0] || !data.choices[0].message)
    throw ...], then [data.choices[0].message]. *)
Definition readMessage (data : value) : exn + value :=
  match get "choices" data with
  | inl e => inl e
  | inr choices =>
      if negb (truthy choices) then inl invalidFormat
      else if negb (truthy (first choices)) then inl invalidFormat
      else
        match get "message" (first choices) with
        | inl e => inl e
        | inr message =>
            if negb (truthy message) then inl invalidFormat
            else inr message
        end
  end.

(** [if (!x || x.trim().length === 0) throw ...] for the variable
    named [name]. *)
Definition nonBlank (name : string) (x : value) : exn + string :=
  if negb (truthy x) then inl emptyResponse
  else
    match x with
    | Text s =>
        if (String.length (Str.trim s) =? 0)%nat then inl emptyResponse
        else inr s
    | _ => inl (TypeError (name ++ ".trim is not a function"))
    end.

Definition readContent (name : string) (data : value) : exn + string :=
  match readMessage data with
  | inl e => inl e
  | inr message =>
      match get "content" message with
      | inl e => inl e
      | inr x => nonBlank name x
      end
  end.

Definition complete (label name : string) (q : string -> request)
  : M string :=
  key <- requireKey ;;
  response <- fetch (q key) ;;
  checkStatus label response ;;;
  data <- json response ;;
  lift (readContent name data).

Definition bearer (key : string) : string := "Bearer " ++ key.

(** ** Worlds in which the call succeeds *)

(** The credential as the test [!process.env.PERPLEXITY_API_KEY] sees
    it: unset and empty are the same. *)
Definition credential (w : World) : option string :=
  match PERPLEXITY_API_KEY w with
  | Some k => if Str.isEmpty k then None else Some k
  | None => None
  end.

(** The next exchange is a 2xx response whose
    [choices[0].message.content] is the text [text], not blank. *)
Definition answers (name : string) (w : World) (text : string) : Prop :=
  exists r data rest,
    network w = Responds r :: rest /\ ok r = true /\
    bodyJson r = Some data /\ readContent name data = inr text.

Definition keyError : exn :=
  Error "PERPLEXITY_API_KEY environment variable is not set".

(** What one call may do to the traffic: nothing, or one request to the
    completion endpoint that carries the environment's key. *)
Definition atMostOnePost (w w' : World) : Prop :=
  (requests w' = requests w /\ network w' = network w)
  \/ (exists key q,
        PERPLEXITY_API_KEY w = Some key /\ key <> "" /\
        requests w' = (requests w ++ [q])%list /\
        network w' = tl (network w) /\
        url q = "https://api.perplexity.ai/chat/completions" /\
        authorization q = "Bearer " ++ key).

End Completion.

(* ================================================================== *)
(** * news-tool.ts *)
(* ================================================================== *)

Module NewsTool.

Inductive SortBy : Type := relevancy | popularity | publishedAt.
Inductive TimeRange : Type := today | week | month | all.

Definition showSortBy (x : SortBy) : string :=
  match x with
  | relevancy => "relevancy"
  | popularity => "popularity"
  | publishedAt => "publishedAt"
  end.

Definition showTimeRange (x : TimeRange) : string :=
  match x with
  | today => "today" | week => "week" | month => "month" | all => "all"
  end.

Module Input.
Record t : Type := Build {
  topic : string;
  count : option float;
  language : option string;
  sortBy : option SortBy;
  timeRange : option TimeRange
}.
End Input.

Module Output.
Record t : Type := Build {
  topic : string;
  summary : string;
  timestamp : string;
  articleCount : float;
  sources : list string;
  language : string
}.
End Output.

Definition orDefault {A} (x : option A) (d : A) : A :=
  match x with Some a => a | None => d end.

(** The [switch (timeRange)] that moves [fromDate] back. *)
Definition moveBack (h : Host) (timeRange : TimeRange) (now fromDate : Z)
  : Z :=
  match timeRange with
  | today => setDate h fromDate (getDate h now - 1)
  | week => setDate h fromDate (getDate h now - 7)
  | month => setMonth h fromDate (getMonth h now - 1)
  | all => setFullYear h fromDate (getFullYear h now - 1)
  end.

(** [d.toISOString().split("T")[0]]. *)
Definition isoDay (h : Host) (d : Z) : string :=
  Str.beforeChar "T" (toISOString h d).

Definition fallbackSummary
  (topic fromDay nowDay language reason : string) : string :=
  "Unable to fetch news for " ++ Str.dq ++ topic ++ Str.dq
  ++ " at this time. 

🔍 SEARCH OVERVIEW
• Total articles found: 0
• Date range: " ++ fromDay ++ " to " ++ nowDay ++ "
• Language: " ++ language ++ "
• Key themes identified: Unable to analyze
• Geographic coverage: Unable to determine

📋 ARTICLE SUMMARIES
───────────────────────────────────────
No articles could be retrieved due to: " ++ reason ++ "

📊 TREND ANALYSIS
• Overall sentiment: Unable to determine
• Emerging patterns: No data available
• Geographic focus: Unable to determine
• Timeline: Unable to analyze
• Contradictions: No data available

🎯 KEY TAKEAWAYS
• Most important development: Unable to determine
• What to watch: Monitor for future developments
• Reliability assessment: Low confidence due to data unavailability
• Related topics: Unable to determine

⚠️ CONTEXT & VERIFICATION
• Background context: Unable to provide context
• Unverified claims: No claims to verify
• Source diversity: No sources available

Please try again later or check your API configuration.".

Definition newsRequest
  (topic : string) (count : float) (language : string)
  (sortBy : SortBy) (timeRange : TimeRange) (key : string) : request :=
  {| url := Completion.endpoint;
     authorization := Completion.bearer key;
     model := "sonar-pro";
     system := NewsSystem language (showTimeRange timeRange);
     user := NewsUser count topic (showTimeRange timeRange) language
               (showSortBy sortBy);
     max_tokens := 3000;
     temperature := 0.3 |}.

Definition execute (context : Input.t) : M Output.t :=
  let topic := Input.topic context in
  let count := orDefault (Input.count context) 5%float in
  let language := orDefault (Input.language context) "en" in
  let sortBy := orDefault (Input.sortBy context) publishedAt in
  let timeRange := orDefault (Input.timeRange context) week in
  h <- ask ;;
  now <- newDate ;;
  fromDate0 <- newDate ;;
  let fromDate := moveBack h timeRange now fromDate0 in
  tryCatch
    (summary <- Completion.complete "Perplexity API error" "summary"
                  (newsRequest topic count language sortBy timeRange) ;;
     stamp <- newDate ;;
     ret {| Output.topic := topic;
            Output.summary := summary;
            Output.timestamp := toISOString h stamp;
            Output.articleCount := count;
            Output.sources := ["Perplexity AI Analysis"];
            Output.language := language |})
    (fun error =>
       stamp <- newDate ;;
       ret {| Output.topic := topic;
              Output.summary :=
                fallbackSummary topic (isoDay h fromDate) (isoDay h now)
                  language (message error);
              Output.timestamp := toISOString h stamp;
              Output.articleCount := 0%float;
              Output.sources := ["Error - No sources available"];
              Output.language := language |}).

End NewsTool.

(* ================================================================== *)
(** * sentiment-tool.ts *)
(* ================================================================== *)

Module SentimentTool.

Module Input.
Record t : Type := Build {
  text : string;
  context : option string
}.
End Input.

(** The tool returns whatever [JSON.parse] gave, so its result is a
    [value].  [outputSchema] declares this shape for it. *)
Module Output.
(** The [emotions] object, by its own properties in the order in
    which [Object.entries] lists them.  [outputSchema] declares the six
    numbers joy, anger, fear, sadness, surprise and trust; the tool
    returns what [JSON.parse] gave, so the keys and their order are the
    object's own.  An object has each key once. *)
Definition Emotions : Type := list (string * float).

(** [emotions.key] where a number is wanted: the property's value, and
    [NaN] for the [undefined] of a key the object has not. *)
Definition property (key : string) (e : Emotions) : float :=
  match find (fun kv => String.eqb (fst kv) key) e with
  | Some kv => snd kv
  | None => nan
  end.

Definition fear (e : Emotions) : float := property "fear" e.
Definition anger (e : Emotions) : float := property "anger" e.
Record KeyPhrase : Type := BuildKeyPhrase {
  phrase : string;
  sentiment : string;
  importance : float
}.
Record t : Type := Build {
  overallSentiment : string;
  sentimentScore : float;
  emotions : Emotions;
  subjectivity : float;
  confidence : float;
  keyPhrases : list KeyPhrase;
  summary : string
}.
End Output.

(** The object substituted when [JSON.parse] throws. *)
Definition parseFallback : value :=
  Obj [ ("overallSentiment", Text "neutral");
        ("sentimentScore", Num 0);
        ("emotions",
          Obj [ ("joy", Num 0.5); ("anger", Num 0.1); ("fear", Num 0.1);
                ("sadness", Num 0.1); ("surprise", Num 0.1);
                ("trust", Num 0.5) ]);
        ("subjectivity", Num 0.5);
        ("confidence", Num 0.7);
        ("keyPhrases", Arr []);
        ("summary",
          Text "Sentiment analysis completed with fallback values due to parsing error.") ].

(** The object returned from the outer [catch]. *)
Definition fallbackResult (error : exn) : value :=
  Obj [ ("overallSentiment", Text "neutral");
        ("sentimentScore", Num 0);
        ("emotions",
          Obj [ ("joy", Num 0); ("anger", Num 0); ("fear", Num 0);
                ("sadness", Num 0); ("surprise", Num 0);
                ("trust", Num 0) ]);
        ("subjectivity", Num 0.5);
        ("confidence", Num 0);
        ("keyPhrases", Arr []);
        ("summary",
          Text ("Sentiment analysis failed: " ++ message error
                  ++ ". Using neutral fallback values.")) ].

Definition sentimentRequest
  (text : string) (additionalContext : option string) (key : string)
  : request :=
  {| url := Completion.endpoint;
     authorization := Completion.bearer key;
     model := "sonar";
     system := SentimentSystem;
     user := SentimentUser additionalContext text;
     max_tokens := 1000;
     temperature := 0.2 |}.

(** [try { result = JSON.parse(content) } catch { result = {...} }]. *)
Definition parse (h : Host) (content : string) : value :=
  match JSON_parse h content with
  | Some v => v
  | None => parseFallback
  end.

(** [if (!result.overallSentiment || !result.emotions) throw ...]. *)
Definition validate (result : value) : exn + value :=
  match get "overallSentiment" result with
  | inl e => inl e
  | inr overall =>
      if negb (truthy overall)
      then inl (Error "Invalid sentiment analysis result structure")
      else
        match get "emotions" result with
        | inl e => inl e
        | inr emotions =>
            if negb (truthy emotions)
            then inl (Error "Invalid sentiment analysis result structure")
            else inr result
        end
  end.

Definition execute (context : Input.t) : M value :=
  let text := Input.text context in
  let additionalContext := Input.context context in
  tryCatch
    ((if Str.isBlank text
      then throw (Error "Text input is empty or invalid")
      else ret tt) ;;;
     h <- ask ;;
     content <- Completion.complete "Sentiment analysis API error"
                  "content" (sentimentRequest text additionalContext) ;;
     lift (validate (parse h content)))
    (fun error => ret (fallbackResult error)).

End SentimentTool.

(* ================================================================== *)
(** * fact-check-tool.ts *)
(* ================================================================== *)

Module FactCheckTool.

Import Regex.

Module Input.
Record t : Type := Build {
  claim : string;
  sources : option (list string);
  context : option string
}.
End Input.

Module Output.
Record Evidence : Type := BuildEvidence {
  source : string;
  supporting : bool;
  quote : string;
  credibility : float
}.
Record t : Type := Build {
  claim : string;
  verdict : string;
  confidence : float;
  evidence : list Evidence;
  explanation : string;
  relatedClaims : list string;
  checkDate : string
}.
End Output.

Definition verdicts : list string :=
  ["true"; "mostly_true"; "mixed"; "mostly_false"; "false"; "unverifiable"].

(** [/verdict:\s*(true|mostly_true|mixed|mostly_false|false|unverifiable)/i] *)
Definition verdictPattern : regex :=
  cat [lit "verdict:"; Star space; Grp 1 (oneOf (map lit verdicts))].

(** [/confidence:\s*( \d+ \.? \d* )/i] *)
Definition confidencePattern : regex :=
  cat [lit "confidence:"; Star space;
       Grp 1 (cat [plus digit; opt (exactly "."); Star digit])].

(** [/source:\s*([^\n]+)\s*-\s*([^\n]+)/gi] *)
Definition sourcePattern : regex :=
  cat [lit "source:"; Star space; Grp 1 (plus notNewline);
       Star space; exactly "-"; Star space; Grp 2 (plus notNewline)].

(** [/related claim[s]?:\s*([^\n]+)/gi] *)
Definition relatedPattern : regex :=
  cat [lit "related claim"; opt (ci "s"); lit ":"; Star space;
       Grp 1 (plus notNewline)].

Definition extractVerdict (analysisText : string) : string :=
  match search verdictPattern analysisText with
  | Some verdictMatch => Str.toLowerCase (group 1 verdictMatch)
  | None => "unverifiable"
  end.

Definition extractConfidence (analysisText : string) : float :=
  match search confidencePattern analysisText with
  | Some confidenceMatch =>
      (parseFloat (group 1 confidenceMatch) / 100)%float
  | None => 0.5%float
  end.

(** The object pushed for one match of [sourcePattern]. *)
Definition evidenceOf (m : found) : Output.Evidence :=
  {| Output.source := Str.trim (group 1 m);
     Output.supporting :=
       Str.includes (Str.toLowerCase (group 2 m)) "support"
       || Str.includes (Str.toLowerCase (group 2 m)) "confirm";
     Output.quote := Str.trim (group 2 m);
     Output.credibility := 0.8 |}.

Definition relatedOf (m : found) : string := Str.trim (group 1 m).

(** The text after a number goes on with a digit, or with a dot and a
    digit: the number matched by [confidencePattern] would be longer. *)
Definition extendsNumber (s : string) : bool :=
  match s with
  | String c rest =>
      Str.isDigit c
      || (Ascii.eqb "." c && negb (headFails Str.isDigit rest))
  | EmptyString => false
  end.

(** A [while (exec)] loop that pushes [item m] for each match. *)
Definition collect {A} (r : regex) (item : found -> A) (s : string)
  : M (list A) :=
  match execAll r s with
  | Some ms => ret (map item ms)
  | None => diverge
  end.

Definition factCheckRequest
  (claim : string) (additionalContext : option string)
  (sources : list string) (key : string) : request :=
  {| url := Completion.endpoint;
     authorization := Completion.bearer key;
     model := "sonar-pro";
     system := FactCheckSystem;
     user := FactCheckUser claim additionalContext sources;
     max_tokens := 2000;
     temperature := 0.1 |}.

Definition fallbackResult (claim : string) (error : exn) (stamp : string)
  : Output.t :=
  {| Output.claim := claim;
     Output.verdict := "unverifiable";
     Output.confidence := 0;
     Output.evidence := [];
     Output.explanation :=
       "Fact-checking failed: " ++ message error
       ++ ". Unable to verify this claim at this time.";
     Output.relatedClaims := [];
     Output.checkDate := stamp |}.

Definition execute (context : Input.t) : M Output.t :=
  let claim := Input.claim context in
  let sources := NewsTool.orDefault (Input.sources context) [] in
  let additionalContext := Input.context context in
  h <- ask ;;
  tryCatch
    ((if Str.isBlank claim
      then throw (Error "Claim input is empty or invalid")
      else ret tt) ;;;
     analysisText <- Completion.complete "Fact-check API error"
                       "analysisText"
                       (factCheckRequest claim additionalContext sources) ;;
     let verdict := extractVerdict analysisText in
     let confidence := extractConfidence analysisText in
     evidence <- collect sourcePattern evidenceOf analysisText ;;
     relatedClaims <- collect relatedPattern relatedOf analysisText ;;
     stamp <- newDate ;;
     ret {| Output.claim := claim;
            Output.verdict := verdict;
            Output.confidence := confidence;
            Output.evidence := firstn 5 evidence;
            Output.explanation := analysisText;
            Output.relatedClaims := firstn 3 relatedClaims;
            Output.checkDate := toISOString h stamp |})
    (fun error =>
       stamp <- newDate ;;
       ret (fallbackResult claim error (toISOString h stamp))).

End FactCheckTool.

(* ================================================================== *)
(** * trend-tool.ts *)
(* ================================================================== *)

Module TrendTool.

Inductive Timeframe : Type := day | week | month | quarter | year.

Definition showTimeframe (x : Timeframe) : string :=
  match x with
  | day => "day" | week => "week" | month => "month"
  | quarter => "quarter" | year => "year"
  end.

Module Input.
Record t : Type := Build {
  topic : string;
  timeframe : option Timeframe;
  region : option string
}.
End Input.

Module Output.
Record Prediction : Type := BuildPrediction {
  scenario : string;
  probability : float;
  p_timeframe : string;
  impact : string
}.
Record Related : Type := BuildRelated {
  r_topic : string;
  correlation : float;
  relationship : string
}.
Record Point : Type := BuildPoint {
  date : string;
  intensity : float;
  keyEvent : option string
}.
Record t : Type := Build {
  topic : string;
  timeframe : string;
  trendDirection : string;
  momentum : float;
  keyDrivers : list string;
  predictions : list Prediction;
  relatedTopics : list Related;
  timeline : list Point;
  analysis : string
}.
End Output.

(** The chain of conditionals on [analysisText.toLowerCase()]. *)
Definition trendDirectionOf (analysisText : string) : string :=
  if Str.includes (Str.toLowerCase analysisText) "rising" then "rising"
  else if Str.includes (Str.toLowerCase analysisText) "declining"
  then "declining"
  else if Str.includes (Str.toLowerCase analysisText) "volatile"
  then "volatile"
  else "stable".

(** One turn of [for (let i = 6; i >= 0; i--)]. *)
Definition point (h : Host) (now : Z) (i : Z) : M Output.Point :=
  let date := setDate h now (getDate h now - i) in
  x <- random ;;
  ret {| Output.date := NewsTool.isoDay h date;
         Output.intensity := (x * 100)%float;
         Output.keyEvent :=
           if (i =? 3)%Z then Some "Major development" else None |}.

Definition trendRequest
  (topic : string) (timeframe : Timeframe) (region : option string)
  (key : string) : request :=
  {| url := Completion.endpoint;
     authorization := Completion.bearer key;
     model := "sonar-pro";
     system := TrendSystem;
     user := TrendUser topic (showTimeframe timeframe) region;
     max_tokens := 2500;
     temperature := 0.3 |}.

Definition predictions : list Output.Prediction :=
  [ {| Output.scenario := "Continued growth in public interest";
       Output.probability := 0.75;
       Output.p_timeframe := "Next 2 weeks";
       Output.impact := "high" |};
    {| Output.scenario := "Stabilization of current trends";
       Output.probability := 0.6;
       Output.p_timeframe := "Next month";
       Output.impact := "medium" |};
    {| Output.scenario := "Potential policy response";
       Output.probability := 0.4;
       Output.p_timeframe := "Next quarter";
       Output.impact := "high" |} ].

Definition relatedTopics : list Output.Related :=
  [ {| Output.r_topic := "Economic impact";
       Output.correlation := 0.8;
       Output.relationship := "Direct correlation with market trends" |};
    {| Output.r_topic := "Policy developments";
       Output.correlation := 0.6;
       Output.relationship := "Influences regulatory environment" |};
    {| Output.r_topic := "Public opinion";
       Output.correlation := 0.7;
       Output.relationship := "Drives media coverage" |} ].

Definition fallbackResult (topic timeframe : string) (error : exn)
  : Output.t :=
  {| Output.topic := topic;
     Output.timeframe := timeframe;
     Output.trendDirection := "stable";
     Output.momentum := 0;
     Output.keyDrivers := [];
     Output.predictions := [];
     Output.relatedTopics := [];
     Output.timeline := [];
     Output.analysis :=
       "Trend analysis failed: " ++ message error
       ++ ". Unable to analyze trends for " ++ Str.dq ++ topic ++ Str.dq
       ++ " at this time." |}.

Definition execute (context : Input.t) : M Output.t :=
  let topic := Input.topic context in
  let timeframe := NewsTool.orDefault (Input.timeframe context) week in
  let region := Input.region context in
  tryCatch
    ((if Str.isBlank topic
      then throw (Error "Topic input is empty or invalid")
      else ret tt) ;;;
     h <- ask ;;
     analysisText <- Completion.complete "Trend analysis API error"
                       "analysisText"
                       (trendRequest topic timeframe region) ;;
     now <- newDate ;;
     timeline <- forEach (point h now) [6; 5; 4; 3; 2; 1; 0]%Z ;;
     let trendDirection := trendDirectionOf analysisText in
     x <- random ;;
     ret {| Output.topic := topic;
            Output.timeframe := showTimeframe timeframe;
            Output.trendDirection := trendDirection;
            Output.momentum := (Math_floor h (x * 60) + 20)%float;
            Output.keyDrivers :=
              firstn 3 [ "Public interest surge";
                         "Media coverage increase";
                         "Policy changes";
                         "Market dynamics" ];
            Output.predictions := predictions;
            Output.relatedTopics := relatedTopics;
            Output.timeline := timeline;
            Output.analysis := analysisText |})
    (fun error =>
       ret (fallbackResult topic (showTimeframe timeframe) error)).

End TrendTool.

(* ================================================================== *)
(** * news-workflow.ts *)
(* ================================================================== *)

Module Workflow.

Import Regex.

Inductive Depth : Type := basic | standard | deep.

Module Input.
Record t : Type := Build {
  topic : string;
  depth : Depth;
  language : string;
  region : option string
}.
End Input.

Module Output.
Record ExecutiveSummary : Type := BuildExecutiveSummary {
  keyFindings : list string;
  recommendedActions : list string;
  riskLevel : string
}.
Record NewsAnalysis : Type := BuildNewsAnalysis {
  summary : string;
  sourceCount : float;
  geographicScope : list string;
  timelineSummary : string
}.
Record SentimentAnalysis : Type := BuildSentimentAnalysis {
  overallSentiment : string;
  publicMood : string;
  emotionalDrivers : list string;
  sentimentShift : string
}.
Record FactChecking : Type := BuildFactChecking {
  verifiedClaims : list string;
  disputedClaims : list string;
  misinformationRisk : string
}.
Record TrendAnalysis : Type := BuildTrendAnalysis {
  currentTrend : string;
  momentum : float;
  predictions : list string;
  relatedTrends : list string
}.
Record Recommendation : Type := BuildRecommendation {
  action : string;
  priority : string;
  rationale : string
}.
Record Metadata : Type := BuildMetadata {
  analysisDate : string;
  confidence : float;
  dataQuality : string
}.
Record t : Type := Build {
  topic : string;
  executiveSummary : ExecutiveSummary;
  newsAnalysis : NewsAnalysis;
  sentimentAnalysis : SentimentAnalysis;
  factChecking : FactChecking;
  trendAnalysis : TrendAnalysis;
  strategicRecommendations : list Recommendation;
  metadata : Metadata
}.
End Output.

(** The four imported tools, by their [execute]. *)
Record Tools : Type := {
  newsTool : NewsTool.Input.t -> M NewsTool.Output.t;
  sentimentTool : SentimentTool.Input.t -> M SentimentTool.Output.t;
  factCheckTool : FactCheckTool.Input.t -> M FactCheckTool.Output.t;
  trendTool : TrendTool.Input.t -> M TrendTool.Output.t
}.

Definition Gathered : Type :=
  (NewsTool.Output.t * SentimentTool.Output.t
   * list FactCheckTool.Output.t * TrendTool.Output.t)%type.

(** [try { x = await call } catch (error) { throw new Error(label + message) }] *)
Definition step {A} (label : string) (call : M A) : M A :=
  tryCatch call
    (fun error => throw (Error (label ++ ": " ++ message error))).

(** The pattern of [summary.match]: a quote, one or more characters
    that are not quotes, a quote; flag [g]. *)
Definition claimPattern : regex :=
  cat [quote; Grp 1 (plus notQuote); quote].

(** [s.match(re) || []] for [re] with flag [g]: the texts of the
    successive matches.  For a pattern that cannot match the empty text
    these are the matches of the [exec] loop. *)
Definition matchAll (r : regex) (s : string) : M (list string) :=
  match execAll r s with
  | Some ms => ret (map matched ms)
  | None => diverge
  end.

(** [claim.replace(/[quotes]/g, empty)]. *)
Fixpoint stripQuotes (s : string) : string :=
  match s with
  | EmptyString => EmptyString
  | String c s' =>
      if isQuote c then stripQuotes s' else String c (stripQuotes s')
  end.

Definition riskLevelOf (e : SentimentTool.Output.Emotions) : string :=
  if (0.6 <? SentimentTool.Output.fear e)%float then "high"
  else if (0.5 <? SentimentTool.Output.anger e)%float then "medium"
  else "low".

Definition isVerified (r : FactCheckTool.Output.t) : bool :=
  String.eqb (FactCheckTool.Output.verdict r) "true"
  || String.eqb (FactCheckTool.Output.verdict r) "mostly_true".

Definition isDisputed (r : FactCheckTool.Output.t) : bool :=
  String.eqb (FactCheckTool.Output.verdict r) "false"
  || String.eqb (FactCheckTool.Output.verdict r) "mostly_false".

Definition isFalse (r : FactCheckTool.Output.t) : bool :=
  String.eqb (FactCheckTool.Output.verdict r) "false".

(** [r?.claim || "Unknown claim"]. *)
Definition claimOf (r : FactCheckTool.Output.t) : string :=
  if Str.isEmpty (FactCheckTool.Output.claim r) then "Unknown claim"
  else FactCheckTool.Output.claim r.

Definition dataQualityOf (sources : list string) : string :=
  if (5 <? List.length sources)%nat then "excellent"
  else if (2 <? List.length sources)%nat then "good"
  else "fair".

(** [region ? [region] : ["Global"]]. *)
Definition scopeOf (region : option string) : list string :=
  match region with
  | Some r => if Str.isEmpty r then ["Global"] else [r]
  | None => ["Global"]
  end.

(** Step 5: the object [result]. *)
Definition structure (h : Host) (topic : string) (region : option string)
  (newsResult : NewsTool.Output.t)
  (sentimentResult : SentimentTool.Output.t)
  (factCheckResults : list FactCheckTool.Output.t)
  (trendResult : TrendTool.Output.t)
  (stamp : Z) : Output.t :=
  {| Output.topic := topic;
     Output.executiveSummary :=
       {| Output.keyFindings :=
            [ "Primary sentiment: "
                ++ SentimentTool.Output.overallSentiment sentimentResult;
              "Trend direction: "
                ++ TrendTool.Output.trendDirection trendResult;
              "Source diversity: "
                ++ Str.ofNat
                     (List.length (NewsTool.Output.sources newsResult))
                ++ " sources" ];
          Output.recommendedActions :=
            [ "Monitor developing situation";
              "Prepare stakeholder communications";
              "Review risk mitigation strategies" ];
          Output.riskLevel :=
            riskLevelOf (SentimentTool.Output.emotions sentimentResult) |};
     Output.newsAnalysis :=
       {| Output.summary := NewsTool.Output.summary newsResult;
          Output.sourceCount := NewsTool.Output.articleCount newsResult;
          Output.geographicScope := scopeOf region;
          Output.timelineSummary := "Coverage spans recent developments" |};
     Output.sentimentAnalysis :=
       {| Output.overallSentiment :=
            SentimentTool.Output.overallSentiment sentimentResult;
          Output.publicMood :=
            Number_toString h
              (Math_round h
                 (SentimentTool.Output.sentimentScore sentimentResult
                  * 100)%float)
            ++ "% positive";
          Output.emotionalDrivers :=
            map fst
              (filter (fun kv => (0.5 <? snd kv)%float)
                 (SentimentTool.Output.emotions sentimentResult));
          Output.sentimentShift := "Analyzing temporal changes" |};
     Output.factChecking :=
       {| Output.verifiedClaims :=
            map claimOf (filter isVerified factCheckResults);
          Output.disputedClaims :=
            map claimOf (filter isDisputed factCheckResults);
          Output.misinformationRisk :=
            if existsb isFalse factCheckResults then "high" else "low" |};
     Output.trendAnalysis :=
       {| Output.currentTrend :=
            TrendTool.Output.trendDirection trendResult;
          Output.momentum := TrendTool.Output.momentum trendResult;
          Output.predictions :=
            map TrendTool.Output.scenario
              (TrendTool.Output.predictions trendResult);
          Output.relatedTrends :=
            map TrendTool.Output.r_topic
              (TrendTool.Output.relatedTopics trendResult) |};
     Output.strategicRecommendations :=
       [ {| Output.action := "Implement monitoring dashboard";
            Output.priority := "immediate";
            Output.rationale := "Early detection of sentiment shifts" |};
         {| Output.action := "Develop response scenarios";
            Output.priority := "short-term";
            Output.rationale := "Prepare for predicted developments" |};
         {| Output.action := "Engage stakeholder communication";
            Output.priority := "immediate";
            Output.rationale := "Address current sentiment and concerns" |} ];
     Output.metadata :=
       {| Output.analysisDate := toISOString h stamp;
          Output.confidence := 0.85;
          Output.dataQuality :=
            dataQualityOf (NewsTool.Output.sources newsResult) |} |}.

Definition assemble (h : Host) (i : Input.t) (r : Gathered) (stamp : Z)
  : Output.t :=
  let '(newsResult, sentimentResult, factCheckResults, trendResult) := r in
  structure h (Input.topic i) (Input.region i)
    newsResult sentimentResult factCheckResults trendResult stamp.

(** The object returned from the outer [catch];
    [inputData?.topic || "unknown"] is its topic. *)
Definition fallbackTopic (inputData : option Input.t) : string :=
  match inputData with
  | Some i => if Str.isEmpty (Input.topic i) then "unknown" else Input.topic i
  | None => "unknown"
  end.

Definition fallback (inputData : option Input.t) (stamp : string)
  : Output.t :=
  {| Output.topic := fallbackTopic inputData;
     Output.executiveSummary :=
       {| Output.keyFindings := ["Analysis failed due to technical issues"];
          Output.recommendedActions :=
            ["Retry the analysis"; "Check system configuration"];
          Output.riskLevel := "medium" |};
     Output.newsAnalysis :=
       {| Output.summary := "Unable to fetch news due to technical issues";
          Output.sourceCount := 0;
          Output.geographicScope := ["Unknown"];
          Output.timelineSummary := "Analysis failed" |};
     Output.sentimentAnalysis :=
       {| Output.overallSentiment := "neutral";
          Output.publicMood := "Unable to determine";
          Output.emotionalDrivers := [];
          Output.sentimentShift := "Analysis failed" |};
     Output.factChecking :=
       {| Output.verifiedClaims := [];
          Output.disputedClaims := [];
          Output.misinformationRisk := "low" |};
     Output.trendAnalysis :=
       {| Output.currentTrend := "stable";
          Output.momentum := 0;
          Output.predictions := [];
          Output.relatedTrends := [] |};
     Output.strategicRecommendations :=
       [ {| Output.action := "Retry analysis";
            Output.priority := "immediate";
            Output.rationale := "Technical issues prevented completion" |} ];
     Output.metadata :=
       {| Output.analysisDate := stamp;
          Output.confidence := 0;
          Output.dataQuality := "limited" |} |}.

Definition isDeep (depth : Depth) : bool :=
  match depth with deep => true | _ => false end.

(** The [context] objects of the four calls. *)
Definition newsContext (i : Input.t) : NewsTool.Input.t :=
  {| NewsTool.Input.topic := Input.topic i;
     NewsTool.Input.count :=
       Some (if isDeep (Input.depth i) then 10 else 5)%float;
     NewsTool.Input.language := Some (Input.language i);
     NewsTool.Input.sortBy := Some NewsTool.publishedAt;
     NewsTool.Input.timeRange :=
       Some (if isDeep (Input.depth i)
             then NewsTool.month else NewsTool.week) |}.

Definition sentimentContext (i : Input.t) (newsResult : NewsTool.Output.t)
  : SentimentTool.Input.t :=
  {| SentimentTool.Input.text := NewsTool.Output.summary newsResult;
     SentimentTool.Input.context :=
       Some ("News about " ++ Input.topic i) |}.

Definition factCheckContext (topic claim : string)
  : FactCheckTool.Input.t :=
  {| FactCheckTool.Input.claim := stripQuotes claim;
     FactCheckTool.Input.sources := None;
     FactCheckTool.Input.context := Some topic |}.

Definition trendContext (i : Input.t) : TrendTool.Input.t :=
  {| TrendTool.Input.topic := Input.topic i;
     TrendTool.Input.timeframe :=
       Some (if isDeep (Input.depth i)
             then TrendTool.month else TrendTool.week);
     TrendTool.Input.region := Input.region i |}.

(** Step 3, with its own [try] and [catch]. *)
Definition checkClaims (tools : Tools) (topic summary : string)
  : M (list FactCheckTool.Output.t) :=
  tryCatch
    (claims <- matchAll claimPattern summary ;;
     if (0 <? List.length claims)%nat then
       promiseAll
         (map (fun claim => factCheckTool tools (factCheckContext topic claim))
              (firstn 3 claims))
     else ret [])
    (fun _ => ret []).

(** The calls of steps 1 to 4, in their order. *)
Definition gather (tools : Tools) (i : Input.t) : M Gathered :=
  newsResult <-
    step "News fetch failed" (newsTool tools (newsContext i)) ;;
  sentimentResult <-
    step "Sentiment analysis failed"
      (sentimentTool tools (sentimentContext i newsResult)) ;;
  factCheckResults <-
    checkClaims tools (Input.topic i) (NewsTool.Output.summary newsResult) ;;
  trendResult <-
    step "Trend analysis failed" (trendTool tools (trendContext i)) ;;
  ret (newsResult, sentimentResult, factCheckResults, trendResult).

(** The body of the outer [try]. *)
Definition analyse (tools : Tools) (inputData : option Input.t)
  : M Output.t :=
  match inputData with
  | None => throw (Error "Input data required")
  | Some i =>
      h <- ask ;;
      r <- gather tools i ;;
      stamp <- newDate ;;
      ret (assemble h i r stamp)
  end.

Definition execute (tools : Tools) (inputData : option Input.t)
  : M Output.t :=
  tryCatch (analyse tools inputData)
    (fun _ =>
       h <- ask ;;
       stamp <- newDate ;;
       ret (fallback inputData (toISOString h stamp))).

End Workflow.

(* ================================================================== *)
(** * Test doubles

    A host, worlds with scripted exchanges, and stand-ins for the tools,
    on which the statements below are run. *)
(* ================================================================== *)

Module Sample.

(** A host with a frozen calendar.  Its [JSON.parse] knows the three
    literals and rejects every other text, which is what the engine's
    does on the texts it is given here. *)
Definition mockHost : Host :=
  {| Date_now := fun n => (Z.of_nat n + 1736942400000)%Z;
     getDate := fun _ => 15%Z;
     setDate := fun d _ => d;
     getMonth := fun _ => 0%Z;
     setMonth := fun d _ => d;
     getFullYear := fun _ => 2025%Z;
     setFullYear := fun d _ => d;
     toISOString := fun _ => "2025-01-15T12:00:00.000Z";
     Math_random := fun _ => 0.5%float;
     Math_floor := fun x => x;
     Math_round := fun x => x;
     Number_toString := fun _ => "0";
     JSON_parse := fun s =>
       if String.eqb s "null" then Some Null
       else if String.eqb s "true" then Some (Bool true)
       else if String.eqb s "false" then Some (Bool false)
       else None;
     JSON_error := fun _ => "Unexpected end of JSON input" |}.

Definition world (key : option string) (net : list exchange) : World :=
  {| host := mockHost;
     PERPLEXITY_API_KEY := key;
     network := net;
     requests := [];
     clockReads := 0;
     randomDraws := 0 |}.

(** A 200 response whose [choices[0].message.content] is [content]. *)
Definition completion (content : string) : exchange :=
  Responds
    {| status := 200;
       bodyText := "";
       bodyJson :=
         Some (Obj [ ("choices",
                      Arr [ Obj [ ("message",
                                   Obj [ ("role", Text "assistant");
                                         ("content", Text content) ]) ] ]) ])
    |}.

Definition key : option string := Some "pplx-test".

Definition newsContext (topic : string) : NewsTool.Input.t :=
  {| NewsTool.Input.topic := topic;
     NewsTool.Input.count := None;
     NewsTool.Input.language := None;
     NewsTool.Input.sortBy := None;
     NewsTool.Input.timeRange := None |}.

Definition sentimentContext (text : string) : SentimentTool.Input.t :=
  {| SentimentTool.Input.text := text;
     SentimentTool.Input.context := None |}.

Definition factCheckContext (claim : string) : FactCheckTool.Input.t :=
  {| FactCheckTool.Input.claim := claim;
     FactCheckTool.Input.sources := None;
     FactCheckTool.Input.context := None |}.

Definition trendContext (topic : string) : TrendTool.Input.t :=
  {| TrendTool.Input.topic := topic;
     TrendTool.Input.timeframe := None;
     TrendTool.Input.region := None |}.

(** Results for the stand-ins of the workflow's tools. *)
Definition newsResult : NewsTool.Output.t :=
  {| NewsTool.Output.topic := "rates";
     NewsTool.Output.summary :=
       "The bank said 'rates will hold' on Monday.";
     NewsTool.Output.timestamp := "2025-01-15T12:00:00.000Z";
     NewsTool.Output.articleCount := 5;
     NewsTool.Output.sources := ["Perplexity AI Analysis"];
     NewsTool.Output.language := "en" |}.

Definition sentimentResult : SentimentTool.Output.t :=
  {| SentimentTool.Output.overallSentiment := "negative";
     SentimentTool.Output.sentimentScore := (-0.4)%float;
     SentimentTool.Output.emotions :=
       [ ("joy", 0.1%float); ("anger", 0.55%float); ("fear", 0.3%float);
         ("sadness", 0.2%float); ("surprise", 0.1%float);
         ("trust", 0.2%float) ];
     SentimentTool.Output.subjectivity := 0.5;
     SentimentTool.Output.confidence := 0.8;
     SentimentTool.Output.keyPhrases := [];
     SentimentTool.Output.summary := "Mostly worried." |}.

Definition trendResult : TrendTool.Output.t :=
  {| TrendTool.Output.topic := "rates";
     TrendTool.Output.timeframe := "week";
     TrendTool.Output.trendDirection := "rising";
     TrendTool.Output.momentum := 50;
     TrendTool.Output.keyDrivers := ["Public interest surge"];
     TrendTool.Output.predictions := TrendTool.predictions;
     TrendTool.Output.relatedTopics := TrendTool.relatedTopics;
     TrendTool.Output.timeline := [];
     TrendTool.Output.analysis := "Interest is rising." |}.

Definition factCheckResult (claim : string) : FactCheckTool.Output.t :=
  {| FactCheckTool.Output.claim := claim;
     FactCheckTool.Output.verdict := "false";
     FactCheckTool.Output.confidence := 0.9;
     FactCheckTool.Output.evidence := [];
     FactCheckTool.Output.explanation := "Verdict: false";
     FactCheckTool.Output.relatedClaims := [];
     FactCheckTool.Output.checkDate := "2025-01-15T12:00:00.000Z" |}.

Definition always {A B} (b : B) : A -> M B := fun _ => ret b.
Definition failing {A B} (reason : string) : A -> M B :=
  fun _ => throw (Error reason).

(** All four stand-ins succeed. *)
Definition tools : Workflow.Tools :=
  {| Workflow.newsTool := always newsResult;
     Workflow.sentimentTool := always sentimentResult;
     Workflow.factCheckTool :=
       fun c => ret (factCheckResult (FactCheckTool.Input.claim c));
     Workflow.trendTool := always trendResult |}.

(** The news stand-in throws. *)
Definition newsDown : Workflow.Tools :=
  {| Workflow.newsTool := failing "upstream down";
     Workflow.sentimentTool := always sentimentResult;
     Workflow.factCheckTool :=
       fun c => ret (factCheckResult (FactCheckTool.Input.claim c));
     Workflow.trendTool := always trendResult |}.

(** The fact-check stand-in throws. *)
Definition factCheckDown : Workflow.Tools :=
  {| Workflow.newsTool := always newsResult;
     Workflow.sentimentTool := always sentimentResult;
     Workflow.factCheckTool := failing "checker down";
     Workflow.trendTool := always trendResult |}.

(** The program's own news tool with stand-ins for the others. *)
Definition realNews : Workflow.Tools :=
  {| Workflow.newsTool := NewsTool.execute;
     Workflow.sentimentTool := always sentimentResult;
     Workflow.factCheckTool :=
       fun c => ret (factCheckResult (FactCheckTool.Input.claim c));
     Workflow.trendTool := always trendResult |}.

Definition input (topic : string) : Workflow.Input.t :=
  {| Workflow.Input.topic := topic;
     Workflow.Input.depth := Workflow.standard;
     Workflow.Input.language := "en";
     Workflow.Input.region := None |}.

(** Response texts. *)
Definition verdictText : string :=
"Analysis of the claim.
Verdict: mostly_false
Confidence: 72
Source: Reuters - confirms the claim".

Definition twoVerdicts : string :=
"Verdict: true
Verdict: mostly_false
Confidence: 72".

Definition twoSources : string :=
"Source: Reuters - confirms the claim
Source: AP - denies involvement".

(** A refusal of the service: too many requests. *)
Definition rateLimited : exchange :=
  Responds {| status := 429; bodyText := "slow down"; bodyJson := None |}.

(** A success response that carries no choice. *)
Definition noChoices : exchange :=
  Responds {| status := 200; bodyText := "";
              bodyJson := Some (Obj [("error", Text "overloaded")]) |}.

(** A fact-check text with four related-claim lines. *)
Definition relatedText : string :=
  "Verdict: mixed
Related claim: Rates fell in 2020
Related claims:   Inflation peaked in 2022  
related claim: a
RELATED CLAIM: b".

(** Tools of which the sentiment tool throws. *)
Definition sentimentDown : Workflow.Tools :=
  {| Workflow.newsTool := always newsResult;
     Workflow.sentimentTool := failing "scorer down";
     Workflow.factCheckTool :=
       fun c => ret (factCheckResult (FactCheckTool.Input.claim c));
     Workflow.trendTool := always trendResult |}.

(** A sentiment result whose emotions come in an order of their own,
    with a key the schema does not declare and without four it does. *)
Definition hopeful : SentimentTool.Output.t :=
  {| SentimentTool.Output.overallSentiment := "positive";
     SentimentTool.Output.sentimentScore := 0.4%float;
     SentimentTool.Output.emotions :=
       [ ("trust", 0.9%float); ("joy", 0.2%float); ("hope", 0.8%float);
         ("fear", 0.7%float) ];
     SentimentTool.Output.subjectivity := 0.5;
     SentimentTool.Output.confidence := 0.8;
     SentimentTool.Output.keyPhrases := [];
     SentimentTool.Output.summary := "Mostly hopeful." |}.

(** The fact-check stand-in throws and the sentiment is [hopeful]. *)
Definition hopefulFactCheckDown : Workflow.Tools :=
  {| Workflow.newsTool := always newsResult;
     Workflow.sentimentTool := always hopeful;
     Workflow.factCheckTool := failing "checker down";
     Workflow.trendTool := always trendResult |}.

(** All four stand-ins succeed and the sentiment is [hopeful]. *)
Definition hopefulTools : Workflow.Tools :=
  {| Workflow.newsTool := always newsResult;
     Workflow.sentimentTool := always hopeful;
     Workflow.factCheckTool :=
       fun c => ret (factCheckResult (FactCheckTool.Input.claim c));
     Workflow.trendTool := always trendResult |}.

(** Evidence lines in capitals and in mixed case. *)
Definition loudSources : string :=
"SOURCE: Reuters - CONFIRMS the claim
source: AP - Strongly Supported by the record
Source: BBC - denies involvement".

(** A digest with four quoted passages. *)
Definition fourQuotes : string :=
  "He said 'one', then " ++ Str.dq ++ "two" ++ Str.dq
  ++ ", then 'three' and 'four'.".

End Sample.

(* ================================================================== *)
(** * Facts about strings *)
(* ================================================================== *)

Module StrFacts.
Import Str.



Lemma append_nil_r (s : string) : s ++ "" = s.
Proof. induction s as [|c s IH]; simpl; [reflexivity | now rewrite IH]. Qed.

Lemma append_assoc (a b c : string) : (a ++ b) ++ c = a ++ (b ++ c).
Proof. induction a as [|x a IH]; simpl; [reflexivity | now rewrite IH]. Qed.

Lemma length_append (a b : string) :
  String.length (a ++ b) = (String.length a + String.length b)%nat.
Proof. induction a as [|x a IH]; simpl; [reflexivity | now rewrite IH]. Qed.

Lemma isEmpty_true (s : string) : isEmpty s = true <-> s = "".
Proof. destruct s; simpl; split; congruence. Qed.

Lemma startsWith_iff (p s : string) :
  startsWith p s = true <-> exists b, s = p ++ b.
Proof.
  revert s; induction p as [|a p IH]; intros s; simpl.
  - split; [intros _; now exists s | reflexivity].
  - destruct s as [|b s].
    + split; [discriminate | intros [x Hx]; discriminate].
    + rewrite andb_true_iff, Ascii.eqb_eq, IH. split.
      * intros [-> [x ->]]. now exists x.
      * intros [x Hx]. injection Hx as -> ->. split; [reflexivity | now exists x].
Qed.

Lemma includes_iff (s kw : string) :
  includes s kw = true <-> contains s kw.
Proof.
  unfold contains. induction s as [|c s IH].
  - simpl. rewrite orb_false_r, startsWith_iff. split.
    + intros [b Hb]. exists "", b. exact Hb.
    + intros [a [b H]]. destruct a; simpl in H; [now exists b | discriminate].
  - cbn [includes]. rewrite orb_true_iff, IH, startsWith_iff. split.
    + intros [[b Hb] | [a [b Hab]]].
      * exists "", b. exact Hb.
      * exists (String c a), b. simpl. now rewrite Hab.
    + intros [a [b H]]. destruct a as [|x a]; simpl in H.
      * left. now exists b.
      * right. injection H as _ H. now exists a, b.
Qed.

Lemma includes_false_iff (s kw : string) :
  includes s kw = false <-> ~ contains s kw.
Proof.
  rewrite <- includes_iff. destruct (includes s kw); split; congruence.
Qed.

Lemma toLowerCase_append (a b : string) :
  toLowerCase (a ++ b) = toLowerCase a ++ toLowerCase b.
Proof. induction a as [|x a IH]; simpl; [reflexivity | now rewrite IH]. Qed.

Lemma contains_append_l (a s kw : string) :
  contains s kw -> contains (a ++ s) kw.
Proof.
  intros [x [y ->]]. exists (a ++ x), y. now rewrite append_assoc.
Qed.

Lemma contains_append_r (s b kw : string) :
  contains s kw -> contains (s ++ b) kw.
Proof.
  intros [x [y ->]]. exists x, (y ++ b). now rewrite !append_assoc.
Qed.

Lemma contains_refl (kw : string) : contains kw kw.
Proof. exists "", "". simpl. now rewrite append_nil_r. Qed.

(** ** Letter case: [toLowerCase] against [mentions] *)

Lemma toLowerCase_split (s x y : string) :
  toLowerCase s = x ++ y ->
  exists s1 s2, s = s1 ++ s2 /\ toLowerCase s1 = x /\ toLowerCase s2 = y.
Proof.
  revert s. induction x as [|c x IH]; intros s H.
  - exists "", s. auto.
  - destruct s as [|d s]; [discriminate|]. simpl in H.
    injection H as Hc H. destruct (IH s H) as (s1 & s2 & -> & <- & <-).
    exists (String d s1), s2. simpl. now rewrite Hc.
Qed.

Lemma lowerChar_reads (l c : ascii) : lowerChar c = l -> reads l c.
Proof.
  unfold lowerChar, isUpper, code, reads. intros H.
  destruct ((65 <=? nat_of_ascii c) && (nat_of_ascii c <=? 90))%nat eqn:U.
  - apply andb_true_iff in U. destruct U as [U1 U2].
    apply Nat.leb_le in U1, U2. right. subst l.
    rewrite nat_ascii_embedding by lia. lia.
  - now left.
Qed.

Lemma reads_lowerChar (l c : ascii) :
  isUpper l = false -> reads l c -> lowerChar c = l.
Proof.
  unfold lowerChar, reads. intros U [->|(L1 & L2 & E)].
  - now rewrite U.
  - unfold isUpper, code.
    replace ((65 <=? nat_of_ascii c) && (nat_of_ascii c <=? 90))%nat
      with true
      by (symmetry; apply andb_true_iff; split; apply Nat.leb_le; lia).
    rewrite E. apply ascii_nat_embedding.
Qed.

Lemma spells_iff (word t : string) :
  all (fun l => negb (isUpper l)) word = true ->
  spells word t <-> toLowerCase t = word.
Proof.
  revert t. induction word as [|l word IH]; intros t A.
  - destruct t; simpl; split; try tauto; discriminate.
  - simpl in A. apply andb_true_iff in A. destruct A as [U A].
    apply negb_true_iff in U. destruct t as [|c t]; simpl.
    + split; [tauto | discriminate].
    + rewrite (IH t A). split.
      * intros [R <-]. now rewrite (reads_lowerChar l c U R).
      * intros H. injection H as H1 H2. split; [|exact H2].
        now apply lowerChar_reads.
Qed.

(** For a word in small letters, what [toLowerCase] and [includes]
    compute is containment with the letter case ignored. *)
Lemma mentions_iff (s word : string) :
  all (fun l => negb (isUpper l)) word = true ->
  mentions s word <-> contains (toLowerCase s) word.
Proof.
  intros A. unfold mentions, contains. split.
  - intros (a & t & b & -> & S). apply (spells_iff word t A) in S.
    exists (toLowerCase a), (toLowerCase b).
    now rewrite !toLowerCase_append, S.
  - intros (x & y & H).
    destruct (toLowerCase_split _ _ _ H) as (a & r & -> & _ & H2).
    destruct (toLowerCase_split _ _ _ H2) as (t & b & -> & H3 & _).
    exists a, t, b. split; [reflexivity|]. now apply spells_iff.
Qed.
End StrFacts.


(* ================================================================== *)
(** * Facts about the matcher *)
(* ================================================================== *)

Module RegexFacts.
Import Str StrFacts Regex.


Lemma append_empty (a b : string) : a ++ b = "" -> a = "" /\ b = "".
Proof. destruct a; simpl; [intros ->; auto | discriminate]. Qed.

Section Sound.
Variable A : Type.

Lemma iterate_sound (r : regex) :
  (forall s cs k x, rmatch r s cs k = Some x -> calls (A:=A) r s k x) ->
  forall fuel s cs k x,
    iterate (rmatch r) fuel s cs k = Some x -> calls (A:=A) (Star r) s k x.
Proof.
  intros IH fuel. induction fuel as [|fuel IHf]; intros s cs k x H.
  - simpl in H. exists "", s, cs. simpl. repeat split; [discriminate | exact H].
  - simpl in H. unfold orElse in H.
    destruct (rmatch r s cs _) as [y|] eqn:E.
    + injection H as ->. apply IH in E.
      destruct E as (c1 & s1 & cs1 & -> & _ & E).
      destruct (isEmpty c1); [discriminate|].
      apply IHf in E. destruct E as (c2 & s2 & cs2 & -> & _ & E).
      exists (c1 ++ c2), s2, cs2. rewrite append_assoc.
      repeat split; [discriminate | exact E].
    + exists "", s, cs. simpl. repeat split; [discriminate | exact H].
Qed.

Lemma rmatch_sound (r : regex) :
  forall s cs k x, rmatch r s cs k = Some x -> calls (A:=A) r s k x.
Proof.
  induction r as [|p|r1 IH1 r2 IH2|r1 IH1 r2 IH2|r IH|n r IH];
    intros s cs k x H; simpl in H.
  - exists "", s, cs. simpl. repeat split; [discriminate | exact H].
  - destruct s as [|c s]; [discriminate|].
    destruct (p c); [|discriminate].
    exists (String c ""), s, cs. simpl. repeat split; [discriminate | exact H].
  - apply IH1 in H. destruct H as (c1 & s1 & cs1 & -> & N1 & H).
    apply IH2 in H. destruct H as (c2 & s2 & cs2 & -> & N2 & H).
    exists (c1 ++ c2), s2, cs2. rewrite append_assoc.
    repeat split; [|exact H].
    simpl. rewrite orb_true_iff. intros [C|C] E; apply append_empty in E;
      destruct E; [now apply N1 | now apply N2].
  - unfold orElse in H. destruct (rmatch r1 s cs k) as [y|] eqn:E.
    + injection H as ->. apply IH1 in E.
      destruct E as (c & s' & cs' & -> & N & E).
      exists c, s', cs'. repeat split; [|exact E].
      simpl. rewrite andb_true_iff. intros [C _]. now apply N.
    + apply IH2 in H. destruct H as (c & s' & cs' & -> & N & H).
      exists c, s', cs'. repeat split; [|exact H].
      simpl. rewrite andb_true_iff. intros [_ C]. now apply N.
  - eapply iterate_sound; eassumption.
  - apply IH in H. destruct H as (c & s' & cs' & -> & N & H).
    exists c, s', ((n, c) :: cs'). repeat split; assumption.
Qed.
End Sound.

Lemma matchAt_sound (r : regex) (s : string) (m : found) :
  matchAt r s = Some m ->
  before m = "" /\ s = matched m ++ after m /\
  (consuming r = true -> matched m <> "").
Proof.
  intros H. apply rmatch_sound in H.
  destruct H as (c & s' & cs' & -> & N & H). injection H as <-. simpl. auto.
Qed.

Lemma search_sound (r : regex) (s : string) (m : found) :
  search r s = Some m ->
  s = before m ++ matched m ++ after m /\
  (consuming r = true -> matched m <> "") /\
  noMatchIn r (before m) (matched m ++ after m) = true /\
  matchAt r (matched m ++ after m)
    = Some (Found "" (matched m) (groups m) (after m)).
Proof.
  revert m. induction s as [|c s IH]; intros m H; simpl in H.
  - destruct (matchAt r "") as [m0|] eqn:E; [|discriminate].
    injection H as ->. pose proof (matchAt_sound _ _ _ E) as (B & S & N).
    destruct m as [b mt g a]; simpl in *. subst b. rewrite <- S.
    repeat split; auto.
  - destruct (matchAt r (String c s)) as [m0|] eqn:E.
    + injection H as ->. pose proof (matchAt_sound _ _ _ E) as (B & S & N).
      destruct m as [b mt g a]; simpl in *. subst b. rewrite <- S.
      repeat split; auto.
    + destruct (search r s) as [m1|] eqn:E1; [|discriminate].
      injection H as <-. destruct (IH _ eq_refl) as (S & N & L & M).
      simpl. rewrite <- S, E. repeat split; auto.
Qed.

Lemma search_none (r : regex) (s : string) :
  search r s = None ->
  forall pre rest, s = pre ++ rest -> matchAt r rest = None.
Proof.
  induction s as [|c s IH]; intros H pre rest E; simpl in H.
  - destruct (matchAt r "") eqn:M; [discriminate|].
    symmetry in E. apply append_empty in E. destruct E as [_ ->]. exact M.
  - destruct (matchAt r (String c s)) eqn:M; [discriminate|].
    destruct (search r s) eqn:S; [discriminate|].
    destruct pre as [|x pre]; simpl in E.
    + now subst rest.
    + injection E as _ E. now apply (IH eq_refl pre).
Qed.

Lemma search_first (r : regex) (pre rest : string) (m : found) :
  noMatchIn r pre rest = true ->
  matchAt r rest = Some m ->
  search r (pre ++ rest)
    = Some (Found pre (matched m) (groups m) (after m)).
Proof.
  intros N M. induction pre as [|c pre IH].
  - simpl. destruct rest; simpl; rewrite M;
      pose proof (matchAt_sound _ _ _ M) as (B & _);
      destruct m; simpl in *; now subst.
  - cbn [noMatchIn] in N.
    change (String c pre ++ rest) with (String c (pre ++ rest)) in N |- *.
    cbn [search].
    destruct (matchAt r (String c (pre ++ rest))); [discriminate|].
    rewrite (IH N). reflexivity.
Qed.

Lemma search_shorter (r : regex) (s : string) (m : found) :
  consuming r = true -> search r s = Some m ->
  (String.length (after m) < String.length s)%nat.
Proof.
  intros C H. apply search_sound in H. destruct H as (S & N & _).
  rewrite S, !length_append. specialize (N C).
  destruct (matched m); [congruence | simpl; lia].
Qed.

Lemma execLoop_total (r : regex) :
  consuming r = true ->
  forall fuel s acc,
    (String.length s < fuel)%nat ->
    exists ms,
      execLoop fuel r s acc = Some (acc ++ ms)%list /\ successive r s ms.
Proof.
  intros C fuel. induction fuel as [|fuel IH]; intros s acc L; [lia|].
  simpl. destruct (search r s) as [m|] eqn:E.
  - pose proof (search_shorter _ _ _ C E) as Lm.
    destruct (IH (after m) (acc ++ [m])%list ltac:(lia)) as (ms & -> & S).
    exists (m :: ms). rewrite <- app_assoc. split; [reflexivity|].
    now apply successive_next.
  - exists []. rewrite app_nil_r. split; [reflexivity | now constructor].
Qed.

Lemma execAll_total (r : regex) (s : string) :
  consuming r = true ->
  exists ms, execAll r s = Some ms /\ successive r s ms.
Proof.
  intros C. destruct (execLoop_total r C (S (String.length s)) s [])
    as (ms & E & S); [lia|]. exists ms. split; assumption.
Qed.

Lemma successive_unique (r : regex) (s : string) (ms1 ms2 : list found) :
  successive r s ms1 -> successive r s ms2 -> ms1 = ms2.
Proof.
  intros H1. revert ms2. induction H1 as [s E|s m ms E _ IH]; intros ms2 H2.
  - inversion H2; congruence.
  - inversion H2 as [? E2|? m2 ms' E2 S2]; subst; [congruence|].
    rewrite E in E2. injection E2 as <-. f_equal. now apply IH.
Qed.


Section Eval.
Variable A : Type.
Implicit Types (k : cont A) (cs : captures) (s : string).

Lemma rmatch_lit_eq (p : string) : forall s cs k,
  rmatch (lit p) s cs k
  = match ciStrip p s with
    | Some (c, s') => k c s' cs
    | None => None
    end.
Proof.
  induction p as [|a p IH]; intros s cs k; [reflexivity|].
  destruct p as [|a' p].
  - destruct s as [|b s]; [reflexivity|]. cbn.
    destruct (Ascii.eqb (lowerChar b) (lowerChar a)); reflexivity.
  - change (lit (String a (String a' p)))
      with (Cat (ci a) (lit (String a' p))).
    remember (String a' p) as q eqn:Q. clear Q.
    cbn [rmatch]. destruct s as [|b s]; [reflexivity|].
    cbn [ci rmatch ciStrip].
    destruct (Ascii.eqb (lowerChar b) (lowerChar a)); [|reflexivity].
    rewrite IH. destruct (ciStrip q s) as [[c r]|]; reflexivity.
Qed.

Lemma rmatch_seq_eq (p : string) : forall s cs k,
  rmatch (seq p) s cs k
  = match dropPrefix p s with
    | Some s' => k p s' cs
    | None => None
    end.
Proof.
  induction p as [|a p IH]; intros s cs k; [reflexivity|].
  destruct p as [|a' p].
  - destruct s as [|b s]; [reflexivity|]. cbn.
    destruct (Ascii.eqb a b) eqn:E; [|reflexivity].
    apply Ascii.eqb_eq in E. subst b. reflexivity.
  - change (seq (String a (String a' p)))
      with (Cat (exactly a) (seq (String a' p))).
    remember (String a' p) as q eqn:Q. clear Q.
    cbn [rmatch]. destruct s as [|b s]; [reflexivity|].
    cbn [exactly rmatch dropPrefix].
    destruct (Ascii.eqb a b) eqn:E; [|reflexivity].
    apply Ascii.eqb_eq in E. subst b.
    rewrite IH. destruct (dropPrefix q s); reflexivity.
Qed.

Lemma dropPrefix_some (p s s' : string) :
  dropPrefix p s = Some s' -> s = p ++ s'.
Proof.
  revert s. induction p as [|a p IH]; intros s H; simpl in H.
  - now injection H as ->.
  - destruct s as [|b s]; [discriminate|].
    destruct (Ascii.eqb a b) eqn:E; [|discriminate].
    apply Ascii.eqb_eq in E. subst b. simpl. f_equal. now apply IH.
Qed.

Lemma prefixes_overlap (p q a b : string) :
  p ++ a = q ++ b -> overlap p q = true.
Proof.
  unfold overlap. revert q. induction p as [|x p IH]; intros q H.
  - reflexivity.
  - destruct q as [|y q].
    + reflexivity.
    + simpl in H. injection H as <- H. simpl.
      rewrite Ascii.eqb_refl. simpl. now apply IH.
Qed.

Lemma findPrefix_none_of (ps : list string) (p s s' : string) :
  forallb (fun q => negb (overlap p q)) ps = true ->
  dropPrefix p s = Some s' -> findPrefix ps s = None.
Proof.
  intros F D. apply dropPrefix_some in D.
  induction ps as [|q ps IH]; [reflexivity|].
  simpl in F. apply andb_true_iff in F. destruct F as [N F].
  simpl. destruct (dropPrefix q s) as [t|] eqn:E.
  - apply dropPrefix_some in E. rewrite D in E.
    apply prefixes_overlap in E. rewrite E in N. discriminate.
  - now apply IH.
Qed.

Lemma rmatch_oneOf_none (ps : list string) : forall s cs k,
  findPrefix ps s = None -> rmatch (oneOf (map seq ps)) s cs k = None.
Proof.
  induction ps as [|p ps IH]; intros s cs k H.
  - cbn. now destruct s.
  - simpl in H. destruct (dropPrefix p s) eqn:D; [discriminate|].
    destruct ps as [|q ps].
    + cbn [map oneOf]. now rewrite rmatch_seq_eq, D.
    + change (oneOf (map seq (p :: q :: ps)))
        with (Alt (seq p) (oneOf (map seq (q :: ps)))).
      cbn [rmatch]. rewrite rmatch_seq_eq, D. unfold orElse.
      now apply IH.
Qed.

(** Over encodings none of which begins another, the alternation
    takes the one that is there. *)
Lemma rmatch_oneOf_seq (ps : list string) :
  prefixFree ps = true ->
  forall s cs k,
    rmatch (oneOf (map seq ps)) s cs k
    = match findPrefix ps s with
      | Some (p, s') => k p s' cs
      | None => None
      end.
Proof.
  induction ps as [|p ps IH]; intros F s cs k.
  - cbn. now destruct s.
  - simpl in F. apply andb_true_iff in F. destruct F as [N F].
    destruct ps as [|q ps].
    + cbn [map oneOf findPrefix]. rewrite rmatch_seq_eq.
      destruct (dropPrefix p s); reflexivity.
    + change (oneOf (map seq (p :: q :: ps)))
        with (Alt (seq p) (oneOf (map seq (q :: ps)))).
      cbn [rmatch]. rewrite rmatch_seq_eq. cbn [findPrefix].
      destruct (dropPrefix p s) as [s'|] eqn:D.
      * unfold orElse. destruct (k p s' cs); [reflexivity|].
        apply rmatch_oneOf_none.
        eapply findPrefix_none_of; eassumption.
      * unfold orElse. now apply IH.
Qed.

Lemma whiteSpace_prefixFree : prefixFree whiteSpace = true.
Proof. vm_compute. reflexivity. Qed.

Lemma rmatch_space (s : string) cs k :
  rmatch space s cs k
  = match findPrefix whiteSpace s with
    | Some (p, s') => k p s' cs
    | None => None
    end.
Proof. apply rmatch_oneOf_seq. exact whiteSpace_prefixFree. Qed.

Lemma iterate_stop (step : string -> captures -> cont A -> option A)
  (n : nat) s cs k :
  (forall k', step s cs k' = None) ->
  iterate step n s cs k = k "" s cs.
Proof. intros H. destruct n; cbn; [reflexivity|]. now rewrite H. Qed.

(** [\s*] before a character that is no white space. *)
Lemma star_space_stop s cs k :
  findPrefix whiteSpace s = None ->
  rmatch (Star space) s cs k = k "" s cs.
Proof.
  intros H. cbn [rmatch]. apply iterate_stop.
  intros k'. now rewrite rmatch_space, H.
Qed.

(** [\s*] on one ASCII space before such a character. *)
Lemma star_space_one s cs k :
  findPrefix whiteSpace s = None ->
  rmatch (Star space) (String " " s) cs k
  = orElse (k " " s cs) (fun _ => k "" (String " " s) cs).
Proof.
  intros H. cbn [rmatch String.length iterate].
  rewrite rmatch_space.
  change (findPrefix whiteSpace (String " " s)) with (Some (" ", s)).
  cbn [isEmpty]. rewrite iterate_stop; [reflexivity|].
  intros k'. now rewrite rmatch_space, H.
Qed.

Lemma iterate_class (p : ascii -> bool) : forall s n cs k,
  (String.length s <= n)%nat ->
  iterate (rmatch (Chr p)) n s cs k = backtrack p s cs k.
Proof.
  induction s as [|c s IH]; intros n cs k L.
  - destruct n; reflexivity.
  - destruct n as [|n]; [simpl in L; lia|].
    cbn [iterate rmatch backtrack]. destruct (p c); [|reflexivity].
    cbn [isEmpty]. rewrite IH by (simpl in L; lia). reflexivity.
Qed.

Lemma rmatch_star_class (p : ascii -> bool) s cs k :
  rmatch (Star (Chr p)) s cs k = backtrack p s cs k.
Proof. cbn [rmatch]. now apply iterate_class. Qed.

Lemma backtrack_stop (p : ascii -> bool) s cs k :
  headFails p s = true -> backtrack p s cs k = k "" s cs.
Proof.
  destruct s as [|c s]; [reflexivity|]. cbn. now destruct (p c).
Qed.
End Eval.


Lemma rmatch_Cat {A} (r1 r2 : regex) s cs (k : cont A) :
  rmatch (Cat r1 r2) s cs k
  = rmatch r1 s cs (fun c1 s1 cs1 =>
      rmatch r2 s1 cs1 (fun c2 s2 cs2 => k (c1 ++ c2) s2 cs2)).
Proof. reflexivity. Qed.

Lemma rmatch_Alt {A} (r1 r2 : regex) s cs (k : cont A) :
  rmatch (Alt r1 r2) s cs k
  = orElse (rmatch r1 s cs k) (fun _ => rmatch r2 s cs k).
Proof. reflexivity. Qed.

Lemma rmatch_Grp {A} n (r : regex) s cs (k : cont A) :
  rmatch (Grp n r) s cs k
  = rmatch r s cs (fun c s' cs' => k c s' ((n, c) :: cs')).
Proof. reflexivity. Qed.

Lemma rmatch_Chr {A} p c s cs (k : cont A) :
  rmatch (Chr p) (String c s) cs k
  = if p c then k (String c "") s cs else None.
Proof. reflexivity. Qed.

Lemma rmatch_Eps {A} s cs (k : cont A) : rmatch Eps s cs k = k "" s cs.
Proof. reflexivity. Qed.
End RegexFacts.


Module SearchFacts.
Import Str StrFacts Regex RegexFacts.

Lemma search_leftmost (r : regex) (s : string) (m : found) :
  search r s = Some m <-> leftmost r s m.
Proof.
  split.
  - intros H. apply search_sound in H. destruct H as (S & _ & N & M).
    repeat split; assumption.
  - intros (S & N & M). rewrite S.
    rewrite (search_first r _ _ _ N M). now destruct m.
Qed.

Lemma search_nowhere (r : regex) (s : string) :
  search r s = None <-> nowhere r s.
Proof.
  split; [intros H; exact (search_none r s H)|].
  induction s as [|c s IH]; intros H; cbn [search].
  - now rewrite (H "" "" eq_refl).
  - rewrite (H "" (String c s) eq_refl). rewrite IH; [reflexivity|].
    intros pre rest E. apply (H (String c pre) rest). simpl. now rewrite E.
Qed.

Lemma successive_execAll (r : regex) (s : string) (ms : list found) :
  consuming r = true -> successive r s ms -> execAll r s = Some ms.
Proof.
  intros C S. destruct (execAll_total r s C) as (ms' & E & S').
  now rewrite (successive_unique r s ms ms' S S').
Qed.

Lemma contains_trans (s a kw : string) :
  contains s a -> contains a kw -> contains s kw.
Proof.
  intros (x & y & ->) H. apply contains_append_l, contains_append_r, H.
Qed.

Lemma firstn_incl {A} (n : nat) (l : list A) (x : A) :
  In x (firstn n l) -> In x l.
Proof.
  revert l. induction n as [|n IH]; intros [|a l] H; simpl in H;
    try contradiction.
  destruct H as [->|H]; [now left | right; now apply IH].
Qed.
End SearchFacts.

(* ================================================================== *)
(** * Facts about the patterns of the fact-check tool *)
(* ================================================================== *)

Module PatternFacts.
Import Str StrFacts Regex RegexFacts FactCheckTool.


Ltac strip :=
  repeat match goal with
  | |- context [ciStrip ?p ?s] =>
      let v := eval vm_compute in (ciStrip p s) in change (ciStrip p s) with v
  end; cbv beta iota.

Lemma verdict_mostly_false_here (post : string) :
  matchAt verdictPattern ("Verdict: mostly_false" ++ post)
  = Some (Found "" "Verdict: mostly_false" [(1, "mostly_false")] post).
Proof.
  unfold matchAt, verdictPattern. cbn [cat verdicts map oneOf].
  rewrite rmatch_Cat, rmatch_lit_eq. strip.
  rewrite rmatch_Cat.
  change (" mostly_false" ++ post) with (String " " ("mostly_false" ++ post)).
  rewrite star_space_one by reflexivity.
  rewrite rmatch_Grp. rewrite !rmatch_Alt, !rmatch_lit_eq. strip.
  reflexivity.
Qed.

Lemma confidence_72_here (post : string) :
  extendsNumber post = false ->
  exists m,
    matchAt confidencePattern ("Confidence: 72" ++ post) = Some m /\
    before m = "" /\
    Js.parseFloat (group 1 m) = 72%float.
Proof.
  intros E. unfold matchAt, confidencePattern.
  cbn [cat]. unfold Regex.plus, opt, digit.
  rewrite rmatch_Cat, rmatch_lit_eq. strip.
  rewrite rmatch_Cat.
  change (" 72" ++ post) with (String " " (String "7" (String "2" post))).
  rewrite star_space_one by reflexivity.
  rewrite rmatch_Grp, rmatch_Cat, rmatch_Cat, rmatch_Chr.
  change (isDigit "7") with true. cbv beta iota.
  rewrite rmatch_star_class. cbn [backtrack].
  change (isDigit "2") with true. cbv beta iota.
  destruct post as [|c rest].
  - cbn -[Js.parseFloat]. eexists. split; [reflexivity|]. split; [reflexivity|].
    vm_compute. reflexivity.
  - cbn [extendsNumber] in E. apply orb_false_iff in E. destruct E as [D E].
    cbn [backtrack]. rewrite D.
    rewrite rmatch_Cat, rmatch_Alt. unfold exactly at 1. rewrite rmatch_Chr.
    destruct (Ascii.eqb "." c) eqn:P.
    + apply Ascii.eqb_eq in P. subst c. simpl in E.
      apply negb_false_iff in E.
      rewrite rmatch_star_class, backtrack_stop by exact E.
      cbn -[Js.parseFloat]. eexists. split; [reflexivity|]. split; [reflexivity|].
      vm_compute. reflexivity.
    + rewrite rmatch_Eps.
      assert (H : headFails isDigit (String c rest) = true)
        by (cbn; now rewrite D).
      rewrite rmatch_star_class, backtrack_stop by exact H.
      cbn -[Js.parseFloat]. eexists. split; [reflexivity|]. split; [reflexivity|].
      vm_compute. reflexivity.
Qed.


Lemma ciStrip_lower (p : string) : forall s c r,
  ciStrip p s = Some (c, r) ->
  toLowerCase c = toLowerCase p /\ s = c ++ r.
Proof.
  induction p as [|a p IH]; intros s c r H; simpl in H.
  - injection H as <- <-. split; reflexivity.
  - destruct s as [|b s]; [discriminate|].
    destruct (Ascii.eqb (lowerChar b) (lowerChar a)) eqn:E; [|discriminate].
    destruct (ciStrip p s) as [[c' r']|] eqn:S; [|discriminate].
    injection H as <- <-. apply Ascii.eqb_eq in E.
    destruct (IH _ _ _ S) as [L ->]. simpl. now rewrite E, L.
Qed.

Lemma verdict_group (s : string) (m : found) :
  matchAt verdictPattern s = Some m ->
  In (toLowerCase (group 1 m)) verdicts.
Proof.
  unfold matchAt, verdictPattern. cbn [cat verdicts map oneOf].
  rewrite rmatch_Cat. intros H.
  apply rmatch_sound in H. destruct H as (c1 & s1 & cs1 & _ & _ & H).
  rewrite rmatch_Cat in H.
  apply rmatch_sound in H. destruct H as (c2 & s2 & cs2 & _ & _ & H).
  rewrite rmatch_Grp, !rmatch_Alt, !rmatch_lit_eq in H.
  unfold orElse in H.
  repeat match type of H with
  | match (match ciStrip ?v ?t with _ => _ end) with _ => _ end = _ =>
      let S := fresh "S" in
      destruct (ciStrip v t) as [[c r]|] eqn:S;
      [ injection H as <-; apply ciStrip_lower in S; destruct S as [S _];
        unfold group; cbn; rewrite S; cbn; tauto | ]
  | match ciStrip ?v ?t with _ => _ end = _ =>
      let S := fresh "S" in
      destruct (ciStrip v t) as [[c r]|] eqn:S;
      [ injection H as <-; apply ciStrip_lower in S; destruct S as [S _];
        unfold group; cbn; rewrite S; cbn; tauto | ]
  end.
  discriminate.
Qed.

Lemma extractVerdict_in (text : string) :
  In (extractVerdict text) verdicts.
Proof.
  unfold extractVerdict. destruct (search verdictPattern text) as [m|] eqn:E.
  - apply search_sound in E. destruct E as (_ & _ & _ & E).
    apply verdict_group in E. exact E.
  - cbn. tauto.
Qed.
End PatternFacts.


(* ================================================================== *)
(** * Facts about the completion call and the tools *)
(* ================================================================== *)

Module CompletionFacts.
Import Completion.


Lemma requireKey_some (w : World) (key : string) :
  credential w = Some key -> requireKey w = (Return key, w).
Proof.
  unfold credential, requireKey, bind, getKey.
  destruct (PERPLEXITY_API_KEY w) as [k|]; [|discriminate].
  destruct (Str.isEmpty k); [discriminate|]. now intros [= ->].
Qed.

Lemma requireKey_none (w : World) :
  credential w = None -> requireKey w = (Throw keyError, w).
Proof.
  unfold credential, requireKey, bind, getKey.
  destruct (PERPLEXITY_API_KEY w) as [k|]; [|reflexivity].
  destruct (Str.isEmpty k); [reflexivity | discriminate].
Qed.

Lemma complete_none (label name : string) (q : string -> request)
  (w : World) :
  credential w = None -> complete label name q w = (Throw keyError, w).
Proof.
  intros H. unfold complete, bind. now rewrite (requireKey_none _ H).
Qed.

Lemma checkStatus_ok (label : string) (r : response) (w : World) :
  ok r = true -> checkStatus label r w = (Return tt, w).
Proof. intros H. unfold checkStatus. now rewrite H. Qed.

Lemma checkStatus_cases (label : string) (r : response) (w : World) :
  exists o, checkStatus label r w = (o, w) /\ o <> Diverge.
Proof.
  unfold checkStatus.
  destruct (ok r); [eexists; split; [reflexivity | discriminate]|].
  destruct (status r =? 401)%Z; [eexists; split; [reflexivity | discriminate]|].
  destruct (status r =? 429)%Z; [eexists; split; [reflexivity | discriminate]|].
  destruct (500 <=? status r)%Z; eexists; (split; [reflexivity | discriminate]).
Qed.

Lemma complete_answers (label name : string) (q : string -> request)
  (w : World) (key text : string) :
  credential w = Some key -> answers name w text ->
  complete label name q w = (Return text, posted (q key) w).
Proof.
  intros K (r & data & rest & N & O & J & C).
  unfold complete, bind. rewrite (requireKey_some _ _ K).
  unfold fetch. rewrite N. rewrite (checkStatus_ok _ _ _ O).
  unfold json. rewrite J. unfold ret. rewrite C. reflexivity.
Qed.

(** Whatever the network does, a call with a credential posts one
    request and comes back. *)
Lemma complete_some (label name : string) (q : string -> request)
  (w : World) (key : string) :
  credential w = Some key ->
  exists o, complete label name q w = (o, posted (q key) w) /\ o <> Diverge.
Proof.
  intros K. unfold complete, bind. rewrite (requireKey_some _ _ K).
  unfold fetch. destruct (network w) as [|[reason|r] rest].
  - eexists; split; [reflexivity | discriminate].
  - eexists; split; [reflexivity | discriminate].
  - destruct (checkStatus_cases label r (posted (q key) w)) as (o & -> & D).
    destruct o as [[]|e|]; [| eexists; split; [reflexivity | discriminate] | congruence].
    unfold json. destruct (bodyJson r) as [v|].
    + unfold ret. destruct (readContent name v);
        eexists; (split; [reflexivity | discriminate]).
    + eexists; split; [reflexivity | discriminate].
Qed.

Lemma answers_not_blank (name : string) (w : World) (text : string) :
  answers name w text -> Str.isBlank text = false.
Proof.
  intros (r & data & rest & _ & _ & _ & C).
  unfold readContent in C. destruct (readMessage data); [discriminate|].
  destruct (get "content" v) as [|x]; [discriminate|].
  unfold nonBlank in C. destruct (truthy x) eqn:T; [|discriminate].
  simpl in C. destruct x; try discriminate.
  destruct (String.length (Str.trim s) =? 0)%nat eqn:L; [discriminate|].
  injection C as <-. unfold Str.isBlank. rewrite L.
  simpl in T. now destruct (Str.isEmpty s).
Qed.
End CompletionFacts.


Module ToolFacts.
Import Completion CompletionFacts RegexFacts.


(** ** news-tool.ts *)

Lemma news_noKey (context : NewsTool.Input.t) (w : World) :
  credential w = None ->
  exists r,
    NewsTool.execute context w = (Return r, ticked (ticked (ticked w))) /\
    NewsTool.Output.sources r = ["Error - No sources available"] /\
    NewsTool.Output.articleCount r = 0%float /\
    exists fromDay nowDay language,
      NewsTool.Output.summary r
      = NewsTool.fallbackSummary (NewsTool.Input.topic context)
          fromDay nowDay language (message keyError).
Proof.
  intros K. unfold NewsTool.execute, bind, tryCatch, ask, newDate.
  rewrite complete_none by exact K.
  eexists. split; [reflexivity|]. cbn. repeat split. eauto.
Qed.

Lemma news_some (context : NewsTool.Input.t) (w : World) (key : string) :
  credential w = Some key ->
  exists r w',
    NewsTool.execute context w = (Return r, w') /\
    List.length (NewsTool.Output.sources r) = 1%nat /\
    requests w'
    = (requests w
       ++ [NewsTool.newsRequest (NewsTool.Input.topic context)
             (NewsTool.orDefault (NewsTool.Input.count context) 5%float)
             (NewsTool.orDefault (NewsTool.Input.language context) "en")
             (NewsTool.orDefault (NewsTool.Input.sortBy context)
                NewsTool.publishedAt)
             (NewsTool.orDefault (NewsTool.Input.timeRange context)
                NewsTool.week)
             key])%list.
Proof.
  intros K. unfold NewsTool.execute, bind, tryCatch, ask, newDate.
  match goal with
  | |- context [complete ?l ?n ?q ?w0] =>
      destruct (complete_some l n q w0 key K) as (o & -> & D)
  end.
  destruct o as [summary|e|]; [| |congruence];
    (do 2 eexists; split; [reflexivity|]; cbn; split; reflexivity).
Qed.

Lemma news_returns (context : NewsTool.Input.t) (w : World) :
  exists r w',
    NewsTool.execute context w = (Return r, w') /\
    List.length (NewsTool.Output.sources r) = 1%nat.
Proof.
  destruct (credential w) as [key|] eqn:K.
  - destruct (news_some context w key K) as (r & w' & E & L & _). eauto.
  - destruct (news_noKey context w K) as (r & E & S & _).
    exists r. eexists. split; [exact E|]. now rewrite S.
Qed.


(** ** sentiment-tool.ts *)

Lemma sentiment_blank (context : SentimentTool.Input.t) (w : World) :
  Str.isBlank (SentimentTool.Input.text context) = true ->
  SentimentTool.execute context w
  = (Return (SentimentTool.fallbackResult
               (Error "Text input is empty or invalid")), w).
Proof.
  intros B. unfold SentimentTool.execute, tryCatch, bind. now rewrite B.
Qed.

Lemma sentiment_noKey (context : SentimentTool.Input.t) (w : World) :
  Str.isBlank (SentimentTool.Input.text context) = false ->
  credential w = None ->
  SentimentTool.execute context w
  = (Return (SentimentTool.fallbackResult keyError), w).
Proof.
  intros B K. unfold SentimentTool.execute, tryCatch, bind, ask.
  rewrite B. cbn. now rewrite complete_none by exact K.
Qed.

Lemma sentiment_answers (context : SentimentTool.Input.t) (w : World)
  (key content : string) :
  Str.isBlank (SentimentTool.Input.text context) = false ->
  credential w = Some key ->
  answers "content" w content ->
  SentimentTool.execute context w
  = (match SentimentTool.validate
             (SentimentTool.parse (host w) content) with
     | inr v => Return v
     | inl e => Return (SentimentTool.fallbackResult e)
     end,
     posted (SentimentTool.sentimentRequest
               (SentimentTool.Input.text context)
               (SentimentTool.Input.context context) key) w).
Proof.
  intros B K A. unfold SentimentTool.execute, tryCatch, bind, ask.
  rewrite B. cbn. rewrite (complete_answers _ _ _ _ _ _ K A).
  unfold lift. destruct (SentimentTool.validate _); reflexivity.
Qed.

(** ** fact-check-tool.ts *)

Lemma factCheck_blank (context : FactCheckTool.Input.t) (w : World) :
  Str.isBlank (FactCheckTool.Input.claim context) = true ->
  FactCheckTool.execute context w
  = (Return (FactCheckTool.fallbackResult
               (FactCheckTool.Input.claim context)
               (Error "Claim input is empty or invalid")
               (toISOString (host w) (Date_now (host w) (clockReads w)))),
     ticked w).
Proof.
  intros B. unfold FactCheckTool.execute, tryCatch, bind, ask.
  now rewrite B.
Qed.

Lemma factCheck_noKey (context : FactCheckTool.Input.t) (w : World) :
  Str.isBlank (FactCheckTool.Input.claim context) = false ->
  credential w = None ->
  FactCheckTool.execute context w
  = (Return (FactCheckTool.fallbackResult
               (FactCheckTool.Input.claim context) keyError
               (toISOString (host w) (Date_now (host w) (clockReads w)))),
     ticked w).
Proof.
  intros B K. unfold FactCheckTool.execute, tryCatch, bind, ask.
  rewrite B. cbn. now rewrite complete_none by exact K.
Qed.

Lemma sourcePattern_consuming :
  Regex.consuming FactCheckTool.sourcePattern = true.
Proof. reflexivity. Qed.

Lemma relatedPattern_consuming :
  Regex.consuming FactCheckTool.relatedPattern = true.
Proof. reflexivity. Qed.

Lemma collect_total {A} (r : Regex.regex) (item : Regex.found -> A)
  (s : string) (w : World) :
  Regex.consuming r = true ->
  exists ms,
    Regex.successive r s ms /\
    FactCheckTool.collect r item s w = (Return (map item ms), w).
Proof.
  intros C. destruct (execAll_total r s C) as (ms & E & S).
  exists ms. split; [exact S|]. unfold FactCheckTool.collect. now rewrite E.
Qed.

Lemma factCheck_answers (context : FactCheckTool.Input.t) (w : World)
  (key text : string) :
  Str.isBlank (FactCheckTool.Input.claim context) = false ->
  credential w = Some key ->
  answers "analysisText" w text ->
  exists sources related stamp w',
    Regex.successive FactCheckTool.sourcePattern text sources /\
    Regex.successive FactCheckTool.relatedPattern text related /\
    requests w'
    = (requests w
       ++ [FactCheckTool.factCheckRequest
             (FactCheckTool.Input.claim context)
             (FactCheckTool.Input.context context)
             (NewsTool.orDefault (FactCheckTool.Input.sources context) [])
             key])%list /\
    FactCheckTool.execute context w
    = (Return
         {| FactCheckTool.Output.claim := FactCheckTool.Input.claim context;
            FactCheckTool.Output.verdict :=
              FactCheckTool.extractVerdict text;
            FactCheckTool.Output.confidence :=
              FactCheckTool.extractConfidence text;
            FactCheckTool.Output.evidence :=
              firstn 5 (map FactCheckTool.evidenceOf sources);
            FactCheckTool.Output.explanation := text;
            FactCheckTool.Output.relatedClaims :=
              firstn 3 (map FactCheckTool.relatedOf related);
            FactCheckTool.Output.checkDate := stamp |}, w').
Proof.
  intros B K A. unfold FactCheckTool.execute, tryCatch, bind, ask.
  rewrite B.
  cbn -[FactCheckTool.sourcePattern FactCheckTool.relatedPattern
        FactCheckTool.extractVerdict FactCheckTool.extractConfidence].
  rewrite (complete_answers _ _ _ _ _ _ K A).
  match goal with
  | |- context [FactCheckTool.collect FactCheckTool.sourcePattern ?f ?s ?w0] =>
      destruct (collect_total FactCheckTool.sourcePattern f s w0
                  sourcePattern_consuming) as (ms1 & S1 & ->)
  end.
  match goal with
  | |- context [FactCheckTool.collect FactCheckTool.relatedPattern ?f ?s ?w0] =>
      destruct (collect_total FactCheckTool.relatedPattern f s w0
                  relatedPattern_consuming) as (ms2 & S2 & ->)
  end.
  exists ms1, ms2. do 2 eexists.
  split; [exact S1|]. split; [exact S2|]. split; [|reflexivity]. reflexivity.
Qed.

(** ** trend-tool.ts *)

Lemma trend_blank (context : TrendTool.Input.t) (w : World) :
  Str.isBlank (TrendTool.Input.topic context) = true ->
  TrendTool.execute context w
  = (Return (TrendTool.fallbackResult (TrendTool.Input.topic context)
               (TrendTool.showTimeframe
                  (NewsTool.orDefault (TrendTool.Input.timeframe context)
                     TrendTool.week))
               (Error "Topic input is empty or invalid")), w).
Proof.
  intros B. unfold TrendTool.execute, tryCatch, bind. now rewrite B.
Qed.

Lemma trend_noKey (context : TrendTool.Input.t) (w : World) :
  Str.isBlank (TrendTool.Input.topic context) = false ->
  credential w = None ->
  TrendTool.execute context w
  = (Return (TrendTool.fallbackResult (TrendTool.Input.topic context)
               (TrendTool.showTimeframe
                  (NewsTool.orDefault (TrendTool.Input.timeframe context)
                     TrendTool.week))
               keyError), w).
Proof.
  intros B K. unfold TrendTool.execute, tryCatch, bind, ask.
  rewrite B. cbn. now rewrite complete_none by exact K.
Qed.

Lemma trend_answers (context : TrendTool.Input.t) (w : World)
  (key text : string) :
  Str.isBlank (TrendTool.Input.topic context) = false ->
  credential w = Some key ->
  answers "analysisText" w text ->
  exists r w',
    TrendTool.execute context w = (Return r, w') /\
    TrendTool.Output.trendDirection r = TrendTool.trendDirectionOf text /\
    TrendTool.Output.analysis r = text /\
    List.length (TrendTool.Output.timeline r) = 7%nat.
Proof.
  intros B K A. unfold TrendTool.execute, tryCatch, bind, ask.
  rewrite B. cbn -[TrendTool.trendDirectionOf].
  rewrite (complete_answers _ _ _ _ _ _ K A).
  cbn -[TrendTool.trendDirectionOf]. do 2 eexists.
  split; [reflexivity|]. cbn -[TrendTool.trendDirectionOf]. repeat split.
Qed.
End ToolFacts.


Module FallbackFacts.
Import Str StrFacts SearchFacts.

Lemma keyError_names_key :
  contains (message Completion.keyError) "PERPLEXITY_API_KEY".
Proof. exists "", " environment variable is not set". reflexivity. Qed.

(** The news fallback digest quotes the reason it is given. *)
Lemma fallbackSummary_quotes (topic fromDay nowDay language reason : string) :
  contains
    (NewsTool.fallbackSummary topic fromDay nowDay language reason) reason.
Proof.
  unfold NewsTool.fallbackSummary.
  do 11 apply contains_append_l. apply contains_append_r, contains_refl.
Qed.
End FallbackFacts.

(* ================================================================== *)
(** * Facts about the workflow *)
(* ================================================================== *)

Module EffFacts.

Lemma bind_return {A B} (m : M A) (f : A -> M B) (w w' : World) (b : B) :
  bind m f w = (Return b, w') ->
  exists a w1, m w = (Return a, w1) /\ f a w1 = (Return b, w').
Proof.
  unfold bind. destruct (m w) as [[a|e|] w1]; try discriminate. eauto.
Qed.

(** The started calls all come to a promise, whatever they do. *)
Lemma forEach_started {A B} (f : A -> M B) (l : list A) (w : World) :
  exists ps w',
    forEach started (map f l) w = (Return ps, w') /\
    List.length ps = List.length l.
Proof.
  revert w. induction l as [|a l IH]; intros w.
  - exists [], w. split; reflexivity.
  - cbn [map forEach]. unfold bind at 1. unfold started at 1.
    destruct (f a w) as [[b|e|] w1];
      destruct (IH w1) as (ps & w2 & E & L); unfold bind; rewrite E;
      do 2 eexists; (split; [reflexivity | simpl; now rewrite L]).
Qed.

Lemma promiseAll_raises {A B} (f : A -> M B) (a : A) (l : list A)
  (w : World) :
  raises f ->
  exists e w', promiseAll (map f (a :: l)) w = (Throw e, w').
Proof.
  intros R. destruct (R a w) as (e & w1 & E).
  destruct (forEach_started f l w1) as (ps & w2 & E2 & _).
  exists e, w2. unfold promiseAll. cbn [map forEach]. unfold bind at 1.
  unfold bind at 1. unfold started at 1. rewrite E.
  unfold bind at 1. rewrite E2. reflexivity.
Qed.
End EffFacts.


Module WorkflowFacts.
Import Workflow EffFacts RegexFacts.


Lemma claimPattern_consuming : Regex.consuming claimPattern = true.
Proof. reflexivity. Qed.

Lemma matchAll_claims (s : string) (w : World) :
  exists ms,
    Regex.successive claimPattern s ms /\
    matchAll claimPattern s w = (Return (map Regex.matched ms), w).
Proof.
  destruct (execAll_total claimPattern s claimPattern_consuming)
    as (ms & E & S).
  exists ms. split; [exact S|]. unfold matchAll. now rewrite E.
Qed.

(** With a fact-check tool that always throws, step 3 ends with no
    result, whether or not the digest quotes anything. *)
Lemma checkClaims_raises (tools : Tools) (topic summary : string)
  (w : World) :
  raises (factCheckTool tools) ->
  exists w', checkClaims tools topic summary w = (Return [], w').
Proof.
  intros R. unfold checkClaims, tryCatch, bind.
  destruct (matchAll_claims summary w) as (ms & _ & ->).
  destruct (firstn 3 (map Regex.matched ms)) as [|c cs] eqn:F.
  - destruct (map Regex.matched ms) as [|x xs]; [|discriminate].
    simpl. exists w. reflexivity.
  - assert (L : (0 <? List.length (map Regex.matched ms))%nat = true).
    { destruct (map Regex.matched ms); [discriminate | reflexivity]. }
    rewrite L.
    assert (R' : raises (fun claim => factCheckTool tools
                                        (factCheckContext topic claim))).
    { intros a w0. apply R. }
    change (map (fun claim => factCheckTool tools
                           (factCheckContext topic claim)) (c :: cs))
      with (map (fun claim => factCheckTool tools
                           (factCheckContext topic claim)) (c :: cs)).
    destruct (promiseAll_raises _ c cs w R') as (e & w' & ->).
    exists w'. reflexivity.
Qed.

Lemma step_return {A} (label : string) (call : M A) (w w' : World) (a : A) :
  call w = (Return a, w') -> step label call w = (Return a, w').
Proof. intros H. unfold step, tryCatch. now rewrite H. Qed.

Lemma step_return_inv {A} (label : string) (call : M A) (w w' : World)
  (a : A) :
  step label call w = (Return a, w') -> call w = (Return a, w').
Proof.
  unfold step, tryCatch, throw.
  destruct (call w) as [[x|e|] w1]; intros H; try discriminate; exact H.
Qed.

Lemma step_throw {A} (label : string) (call : M A) (w w' : World) (e : exn) :
  call w = (Throw e, w') ->
  step label call w = (Throw (Error (label ++ ": " ++ message e)), w').
Proof. intros H. unfold step, tryCatch. now rewrite H. Qed.

(** What a returning [gather] went through. *)
Lemma gather_return (tools : Tools) (i : Input.t) (w w' : World)
  (r : Gathered) :
  gather tools i w = (Return r, w') ->
  exists n s f t w1 w2 w3,
    r = (n, s, f, t) /\
    newsTool tools (newsContext i) w = (Return n, w1) /\
    sentimentTool tools (sentimentContext i n) w1 = (Return s, w2) /\
    checkClaims tools (Input.topic i) (NewsTool.Output.summary n) w2
      = (Return f, w3) /\
    trendTool tools (trendContext i) w3 = (Return t, w').
Proof.
  unfold gather. intros H.
  apply bind_return in H. destruct H as (n & w1 & H1 & H).
  apply bind_return in H. destruct H as (s & w2 & H2 & H).
  apply bind_return in H. destruct H as (f & w3 & H3 & H).
  apply bind_return in H. destruct H as (t & w4 & H4 & H).
  injection H as <- <-.
  apply step_return_inv in H1, H2, H4.
  exists n, s, f, t, w1, w2, w3. auto.
Qed.

Lemma analyse_return (tools : Tools) (i : Input.t) (w w' : World)
  (out : Output.t) :
  analyse tools (Some i) w = (Return out, w') ->
  exists r w1,
    gather tools i w = (Return r, w1) /\
    out = assemble (host w) i r (Date_now (host w1) (clockReads w1)) /\
    w' = ticked w1.
Proof.
  unfold analyse, bind, ask.
  destruct (gather tools i w) as [[r|e|] w1]; try discriminate.
  unfold newDate, ret. intros H. injection H as <- <-. exists r, w1.
  split; [reflexivity|]. split; reflexivity.
Qed.

Lemma execute_return (tools : Tools) (inputData : option Input.t)
  (w w' : World) (out : Output.t) :
  analyse tools inputData w = (Return out, w') ->
  execute tools inputData w = (Return out, w').
Proof. intros H. unfold execute, tryCatch. now rewrite H. Qed.

Lemma execute_throw (tools : Tools) (inputData : option Input.t)
  (w w' : World) (e : exn) :
  analyse tools inputData w = (Throw e, w') ->
  execute tools inputData w
  = (Return (fallback inputData
               (toISOString (host w') (Date_now (host w') (clockReads w')))),
     ticked w').
Proof. intros H. unfold execute, tryCatch. now rewrite H. Qed.
End WorkflowFacts.

(* ================================================================== *)
(** * The properties of the design record *)
(* ================================================================== *)

Import Str StrFacts Regex RegexFacts SearchFacts.

(** C1, as the news tool has it.  The news tool does not look at its
    topic before it calls out: with the credential set and the topic
    empty it posts its completion request, where the claim wants a
    rejection or the fallback record with no request at all. *)
Theorem news_empty_topic_posts
  (context : NewsTool.Input.t) (w : World) (key : string) :
  NewsTool.Input.topic context = "" ->
  Completion.credential w = Some key ->
  exists r w',
    NewsTool.execute context w = (Return r, w') /\
    requests w'
    = (requests w
       ++ [NewsTool.newsRequest ""
             (NewsTool.orDefault (NewsTool.Input.count context) 5%float)
             (NewsTool.orDefault (NewsTool.Input.language context) "en")
             (NewsTool.orDefault (NewsTool.Input.sortBy context)
                NewsTool.publishedAt)
             (NewsTool.orDefault (NewsTool.Input.timeRange context)
                NewsTool.week)
             key])%list.
Proof.
  intros T K.
  destruct (ToolFacts.news_some context w key K) as (r & w' & E & _ & Q).
  exists r, w'. split; [exact E|]. rewrite Q, T. reflexivity.
Qed.

Lemma news_empty_topic_posts_witness :
  NewsTool.Input.topic (Sample.newsContext "") = "" /\
  Completion.credential
    (Sample.world Sample.key [Sample.completion "Digest."])
  = Some "pplx-test" /\
  exists r w',
    NewsTool.execute (Sample.newsContext "")
      (Sample.world Sample.key [Sample.completion "Digest."])
    = (Return r, w') /\
    requests w'
    = [NewsTool.newsRequest "" 5%float "en" NewsTool.publishedAt
         NewsTool.week "pplx-test"].
Proof.
  split; [reflexivity|]. split; [reflexivity|].
  exact (news_empty_topic_posts (Sample.newsContext "")
           (Sample.world Sample.key [Sample.completion "Digest."])
           "pplx-test" eq_refl eq_refl).
Defined.

(** The three tools written after it do look: an empty (or blank) text,
    claim or topic gives their fallback record and leaves the world as
    it was, credential or not. *)
Lemma siblings_reject_blank (w : World) :
  (forall context,
      Str.isBlank (SentimentTool.Input.text context) = true ->
      SentimentTool.execute context w
      = (Return (SentimentTool.fallbackResult
                   (Error "Text input is empty or invalid")), w)) /\
  (forall context,
      Str.isBlank (FactCheckTool.Input.claim context) = true ->
      exists r w',
        FactCheckTool.execute context w = (Return r, w') /\
        FactCheckTool.Output.verdict r = "unverifiable" /\
        FactCheckTool.Output.explanation r
        = "Fact-checking failed: Claim input is empty or invalid. Unable to verify this claim at this time." /\
        requests w' = requests w /\ network w' = network w) /\
  (forall context,
      Str.isBlank (TrendTool.Input.topic context) = true ->
      exists r,
        TrendTool.execute context w = (Return r, w) /\
        TrendTool.Output.trendDirection r = "stable" /\
        TrendTool.Output.analysis r
        = "Trend analysis failed: Topic input is empty or invalid. Unable to analyze trends for "
          ++ Str.dq ++ TrendTool.Input.topic context ++ Str.dq
          ++ " at this time.").
Proof.
  split; [|split].
  - intros context B. now apply ToolFacts.sentiment_blank.
  - intros context B. rewrite (ToolFacts.factCheck_blank context w B).
    do 2 eexists. split; [reflexivity|]. cbn. auto.
  - intros context B. rewrite (ToolFacts.trend_blank context w B).
    eexists. split; [reflexivity|]. cbn. auto.
Qed.

(** C2, as the catch has it.  When the news step throws, the workflow
    returns the fallback briefing and does not throw.  The topic of that
    record is the input's topic when there is an input and its topic is
    not the empty string, and "unknown" otherwise; confidence is 0, data
    quality "limited", risk level "medium", and the other sections hold
    their fixed defaults. *)
Theorem workflow_news_raises
  (tools : Workflow.Tools) (inputData : option Workflow.Input.t) (w : World) :
  raises (Workflow.newsTool tools) ->
  exists out w',
    Workflow.execute tools inputData w = (Return out, w') /\
    Workflow.Output.topic out
    = match inputData with
      | Some i =>
          if Str.isEmpty (Workflow.Input.topic i) then "unknown"
          else Workflow.Input.topic i
      | None => "unknown"
      end /\
    Workflow.Output.executiveSummary out
    = {| Workflow.Output.keyFindings :=
           ["Analysis failed due to technical issues"];
         Workflow.Output.recommendedActions :=
           ["Retry the analysis"; "Check system configuration"];
         Workflow.Output.riskLevel := "medium" |} /\
    Workflow.Output.newsAnalysis out
    = {| Workflow.Output.summary :=
           "Unable to fetch news due to technical issues";
         Workflow.Output.sourceCount := 0;
         Workflow.Output.geographicScope := ["Unknown"];
         Workflow.Output.timelineSummary := "Analysis failed" |} /\
    Workflow.Output.sentimentAnalysis out
    = {| Workflow.Output.overallSentiment := "neutral";
         Workflow.Output.publicMood := "Unable to determine";
         Workflow.Output.emotionalDrivers := [];
         Workflow.Output.sentimentShift := "Analysis failed" |} /\
    Workflow.Output.factChecking out
    = {| Workflow.Output.verifiedClaims := [];
         Workflow.Output.disputedClaims := [];
         Workflow.Output.misinformationRisk := "low" |} /\
    Workflow.Output.trendAnalysis out
    = {| Workflow.Output.currentTrend := "stable";
         Workflow.Output.momentum := 0;
         Workflow.Output.predictions := [];
         Workflow.Output.relatedTrends := [] |} /\
    Workflow.Output.strategicRecommendations out
    = [ {| Workflow.Output.action := "Retry analysis";
           Workflow.Output.priority := "immediate";
           Workflow.Output.rationale :=
             "Technical issues prevented completion" |} ] /\
    Workflow.Output.confidence (Workflow.Output.metadata out) = 0%float /\
    Workflow.Output.dataQuality (Workflow.Output.metadata out) = "limited".
Proof.
  intros R.
  assert (T : exists e w1, Workflow.analyse tools inputData w = (Throw e, w1)).
  { destruct inputData as [i|].
    - destruct (R (Workflow.newsContext i) w) as (e & w1 & E).
      unfold Workflow.analyse, Workflow.gather, bind, ask.
      rewrite (WorkflowFacts.step_throw _ _ _ _ _ E).
      do 2 eexists. reflexivity.
    - do 2 eexists. reflexivity. }
  destruct T as (e & w1 & T).
  rewrite (WorkflowFacts.execute_throw _ _ _ _ _ T).
  do 2 eexists. split; [reflexivity|]. cbn. repeat split.
Qed.

Lemma workflow_news_raises_witness :
  raises (Workflow.newsTool Sample.newsDown) /\
  exists out w',
    Workflow.execute Sample.newsDown (Some (Sample.input "rates"))
      (Sample.world Sample.key [])
    = (Return out, w') /\
    Workflow.Output.topic out = "rates" /\
    Workflow.Output.confidence (Workflow.Output.metadata out) = 0%float /\
    Workflow.Output.dataQuality (Workflow.Output.metadata out) = "limited".
Proof.
  assert (R : raises (Workflow.newsTool Sample.newsDown)).
  { intros a w. do 2 eexists. reflexivity. }
  split; [exact R|].
  destruct (workflow_news_raises Sample.newsDown (Some (Sample.input "rates"))
              (Sample.world Sample.key []) R)
    as (out & w' & E & T & _ & _ & _ & _ & _ & _ & C & Q).
  exists out, w'. auto.
Defined.

(** C2 as it is worded fails for an input whose topic is the empty
    string: the input is there, its topic is not echoed. *)
Lemma workflow_empty_topic_unknown :
  raises (Workflow.newsTool Sample.newsDown) /\
  exists out w',
    Workflow.execute Sample.newsDown (Some (Sample.input ""))
      (Sample.world Sample.key [])
    = (Return out, w') /\
    Workflow.Output.topic out = "unknown" /\
    Workflow.Output.topic out <> Workflow.Input.topic (Sample.input "").
Proof.
  split.
  - intros a w. do 2 eexists. reflexivity.
  - do 2 eexists. split; [reflexivity|]. split; [reflexivity | discriminate].
Qed.

(** C3.  If the fact-check tool throws at every call while the news,
    sentiment and trend tools return, the workflow returns a briefing
    whose news, sentiment and trend sections are built from what those
    three returned, and whose lists of verified and of disputed claims
    are empty.  The emotional drivers are the keys of the emotions
    object the sentiment tool returned whose value exceeds 0.5, in that
    object's own order; the public mood is the rounded hundredfold of
    its score. *)
Theorem workflow_factcheck_isolated
  (tools : Workflow.Tools) (i : Workflow.Input.t) (w : World) :
  returns (Workflow.newsTool tools) ->
  returns (Workflow.sentimentTool tools) ->
  returns (Workflow.trendTool tools) ->
  raises (Workflow.factCheckTool tools) ->
  exists n s t w1 w2 w3 out w',
    Workflow.newsTool tools (Workflow.newsContext i) w = (Return n, w1) /\
    Workflow.sentimentTool tools (Workflow.sentimentContext i n) w1
    = (Return s, w2) /\
    Workflow.trendTool tools (Workflow.trendContext i) w3 = (Return t, w') /\
    Workflow.execute tools (Some i) w = (Return out, ticked w') /\
    Workflow.Output.topic out = Workflow.Input.topic i /\
    Workflow.Output.summary (Workflow.Output.newsAnalysis out)
    = NewsTool.Output.summary n /\
    Workflow.Output.sourceCount (Workflow.Output.newsAnalysis out)
    = NewsTool.Output.articleCount n /\
    Workflow.Output.overallSentiment (Workflow.Output.sentimentAnalysis out)
    = SentimentTool.Output.overallSentiment s /\
    Workflow.Output.publicMood (Workflow.Output.sentimentAnalysis out)
    = Number_toString (host w)
        (Math_round (host w)
           (SentimentTool.Output.sentimentScore s * 100)%float)
      ++ "% positive" /\
    Workflow.Output.emotionalDrivers (Workflow.Output.sentimentAnalysis out)
    = map fst (filter (fun kv => (0.5 <? snd kv)%float)
                 (SentimentTool.Output.emotions s)) /\
    Workflow.Output.currentTrend (Workflow.Output.trendAnalysis out)
    = TrendTool.Output.trendDirection t /\
    Workflow.Output.momentum (Workflow.Output.trendAnalysis out)
    = TrendTool.Output.momentum t /\
    Workflow.Output.predictions (Workflow.Output.trendAnalysis out)
    = map TrendTool.Output.scenario (TrendTool.Output.predictions t) /\
    Workflow.Output.relatedTrends (Workflow.Output.trendAnalysis out)
    = map TrendTool.Output.r_topic (TrendTool.Output.relatedTopics t) /\
    Workflow.Output.verifiedClaims (Workflow.Output.factChecking out) = [] /\
    Workflow.Output.disputedClaims (Workflow.Output.factChecking out) = [] /\
    Workflow.Output.confidence (Workflow.Output.metadata out) = 0.85%float.
Proof.
  intros RN RS RT RF.
  destruct (RN (Workflow.newsContext i) w) as (n & w1 & EN).
  destruct (RS (Workflow.sentimentContext i n) w1) as (s & w2 & ES).
  destruct (WorkflowFacts.checkClaims_raises tools (Workflow.Input.topic i)
              (NewsTool.Output.summary n) w2 RF) as (w3 & EF).
  destruct (RT (Workflow.trendContext i) w3) as (t & w4 & ET).
  exists n, s, t, w1, w2, w3.
  assert (G : Workflow.gather tools i w = (Return (n, s, [], t), w4)).
  { unfold Workflow.gather, bind.
    rewrite (WorkflowFacts.step_return _ _ _ _ _ EN).
    rewrite (WorkflowFacts.step_return _ _ _ _ _ ES).
    rewrite EF.
    rewrite (WorkflowFacts.step_return _ _ _ _ _ ET). reflexivity. }
  assert (A : Workflow.analyse tools (Some i) w
              = (Return (Workflow.assemble (host w) i (n, s, [], t)
                           (Date_now (host w4) (clockReads w4))), ticked w4)).
  { unfold Workflow.analyse, bind, ask. rewrite G. reflexivity. }
  do 2 eexists. split; [exact EN|]. split; [exact ES|]. split; [exact ET|].
  split; [exact (WorkflowFacts.execute_return _ _ _ _ _ A)|].
  cbn. repeat split.
Qed.

Lemma workflow_factcheck_isolated_witness :
  returns (Workflow.newsTool Sample.hopefulFactCheckDown) /\
  returns (Workflow.sentimentTool Sample.hopefulFactCheckDown) /\
  returns (Workflow.trendTool Sample.hopefulFactCheckDown) /\
  raises (Workflow.factCheckTool Sample.hopefulFactCheckDown) /\
  exists out w',
    Workflow.execute Sample.hopefulFactCheckDown
      (Some (Sample.input "rates")) (Sample.world Sample.key [])
    = (Return out, w') /\
    Workflow.Output.summary (Workflow.Output.newsAnalysis out)
    = "The bank said 'rates will hold' on Monday." /\
    Workflow.Output.overallSentiment (Workflow.Output.sentimentAnalysis out)
    = "positive" /\
    Workflow.Output.emotionalDrivers (Workflow.Output.sentimentAnalysis out)
    = ["trust"; "hope"; "fear"] /\
    Workflow.Output.currentTrend (Workflow.Output.trendAnalysis out)
    = "rising" /\
    Workflow.Output.verifiedClaims (Workflow.Output.factChecking out) = [] /\
    Workflow.Output.disputedClaims (Workflow.Output.factChecking out) = [].
Proof.
  assert (RN : returns (Workflow.newsTool Sample.hopefulFactCheckDown))
    by (intros a w; do 2 eexists; reflexivity).
  assert (RS : returns (Workflow.sentimentTool Sample.hopefulFactCheckDown))
    by (intros a w; do 2 eexists; reflexivity).
  assert (RT : returns (Workflow.trendTool Sample.hopefulFactCheckDown))
    by (intros a w; do 2 eexists; reflexivity).
  assert (RF : raises (Workflow.factCheckTool Sample.hopefulFactCheckDown))
    by (intros a w; do 2 eexists; reflexivity).
  repeat (split; [assumption|]).
  destruct (workflow_factcheck_isolated Sample.hopefulFactCheckDown
              (Sample.input "rates") (Sample.world Sample.key [])
              RN RS RT RF)
    as (n & s & t & w1 & w2 & w3 & out & w' & EN & ES & ET & E & _ & S & _
        & O & _ & D & C & _ & _ & _ & V & F & _).
  exists out, (ticked w'). split; [exact E|].
  injection EN as <- _. injection ES as <- _. injection ET as <- _.
  rewrite S, O, D, C, V, F. repeat split.
Defined.



(** C10.  With the program's own news tool, a run that completes without
    the outer catch reports the data quality "fair": the news tool's
    result has one source on each of its two paths, short of the
    breakpoints for "good" and "excellent". *)
Theorem workflow_dataQuality_fair
  (tools : Workflow.Tools) (i : Workflow.Input.t) (w w' : World)
  (out : Workflow.Output.t) :
  Workflow.newsTool tools = NewsTool.execute ->
  Workflow.analyse tools (Some i) w = (Return out, w') ->
  (exists n w1,
      NewsTool.execute (Workflow.newsContext i) w = (Return n, w1) /\
      List.length (NewsTool.Output.sources n) = 1%nat) /\
  Workflow.execute tools (Some i) w = (Return out, w') /\
  Workflow.Output.dataQuality (Workflow.Output.metadata out) = "fair".
Proof.
  intros N A.
  destruct (WorkflowFacts.analyse_return _ _ _ _ _ A) as (r & w1 & G & O & W).
  destruct (WorkflowFacts.gather_return _ _ _ _ _ G)
    as (n & s & f & t & wa & wb & wc & -> & EN & _).
  rewrite N in EN.
  destruct (ToolFacts.news_returns (Workflow.newsContext i) w)
    as (n' & w1' & EN' & L).
  rewrite EN in EN'. injection EN' as <- <-.
  split; [exists n, wa; split; assumption|].
  split; [exact (WorkflowFacts.execute_return _ _ _ _ _ A)|].
  subst out. cbn. unfold Workflow.dataQualityOf. rewrite L. reflexivity.
Qed.

Lemma workflow_dataQuality_fair_witness :
  Workflow.newsTool Sample.realNews = NewsTool.execute /\
  exists out w',
    Workflow.analyse Sample.realNews (Some (Sample.input "rates"))
      (Sample.world Sample.key [Sample.completion "Rates held."])
    = (Return out, w') /\
    Workflow.Output.dataQuality (Workflow.Output.metadata out) = "fair".
Proof.
  split; [reflexivity|].
  destruct (Workflow.analyse Sample.realNews (Some (Sample.input "rates"))
              (Sample.world Sample.key [Sample.completion "Rates held."]))
    as [o w'] eqn:A.
  assert (O : exists out, o = Return out).
  { vm_compute in A. injection A as <- _. eexists. reflexivity. }
  destruct O as (out & ->).
  exists out, w'. split; [reflexivity|].
  exact (proj2 (proj2 (workflow_dataQuality_fair Sample.realNews
                         (Sample.input "rates") _ _ _ eq_refl A))).
Defined.

(** C4, with its example made exact.  On a successful response text,
    the verdict is the lower-cased value of the leftmost match of the
    verdict pattern, or "unverifiable" when the pattern matches nowhere,
    and is always one of the six values; the confidence is the number
    of the leftmost match of the confidence pattern divided by 100, or
    0.5 when it matches nowhere.  A text whose leftmost verdict match is
    [Verdict: mostly_false] gives "mostly_false"; a text whose leftmost
    confidence match is [Confidence: 72], the number going no further,
    gives 0.72. *)
Theorem factCheck_verdict_confidence
  (context : FactCheckTool.Input.t) (w : World) (key text : string) :
  Str.isBlank (FactCheckTool.Input.claim context) = false ->
  Completion.credential w = Some key ->
  Completion.answers "analysisText" w text ->
  exists r w',
    FactCheckTool.execute context w = (Return r, w') /\
    (forall m, leftmost FactCheckTool.verdictPattern text m ->
       FactCheckTool.Output.verdict r = Str.toLowerCase (group 1 m)) /\
    (nowhere FactCheckTool.verdictPattern text ->
       FactCheckTool.Output.verdict r = "unverifiable") /\
    In (FactCheckTool.Output.verdict r) FactCheckTool.verdicts /\
    (forall m, leftmost FactCheckTool.confidencePattern text m ->
       FactCheckTool.Output.confidence r
       = (parseFloat (group 1 m) / 100)%float) /\
    (nowhere FactCheckTool.confidencePattern text ->
       FactCheckTool.Output.confidence r = 0.5%float) /\
    (forall pre post,
       text = pre ++ "Verdict: mostly_false" ++ post ->
       noMatchIn FactCheckTool.verdictPattern pre
         ("Verdict: mostly_false" ++ post) = true ->
       FactCheckTool.Output.verdict r = "mostly_false") /\
    (forall pre post,
       text = pre ++ "Confidence: 72" ++ post ->
       noMatchIn FactCheckTool.confidencePattern pre
         ("Confidence: 72" ++ post) = true ->
       FactCheckTool.extendsNumber post = false ->
       FactCheckTool.Output.confidence r = 0.72%float).
Proof.
  intros B K A.
  destruct (ToolFacts.factCheck_answers context w key text B K A)
    as (ss & rs & stamp & w' & _ & _ & _ & E).
  do 2 eexists. split; [exact E|].
  cbn [FactCheckTool.Output.verdict FactCheckTool.Output.confidence].
  split; [|split; [|split; [|split; [|split; [|split]]]]].
  - intros m L. apply search_leftmost in L.
    unfold FactCheckTool.extractVerdict. now rewrite L.
  - intros N. apply search_nowhere in N.
    unfold FactCheckTool.extractVerdict. now rewrite N.
  - apply PatternFacts.extractVerdict_in.
  - intros m L. apply search_leftmost in L.
    unfold FactCheckTool.extractConfidence. now rewrite L.
  - intros N. apply search_nowhere in N.
    unfold FactCheckTool.extractConfidence. now rewrite N.
  - intros pre post -> N. unfold FactCheckTool.extractVerdict.
    rewrite (search_first _ _ _ _ N
               (PatternFacts.verdict_mostly_false_here post)).
    reflexivity.
  - intros pre post -> N X. unfold FactCheckTool.extractConfidence.
    destruct (PatternFacts.confidence_72_here post X) as (m & M & _ & P).
    rewrite (search_first _ _ _ _ N M).
    change (group 1 (Found pre (matched m) (groups m) (after m)))
      with (group 1 m).
    rewrite P. reflexivity.
Qed.



Lemma factCheck_verdict_confidence_witness :
  exists r w',
    FactCheckTool.execute (Sample.factCheckContext "rates will hold")
      (Sample.world Sample.key [Sample.completion Sample.verdictText])
    = (Return r, w') /\
    FactCheckTool.Output.verdict r = "mostly_false" /\
    FactCheckTool.Output.confidence r = 0.72%float.
Proof.
  assert (A : Completion.answers "analysisText"
                (Sample.world Sample.key [Sample.completion Sample.verdictText])
                Sample.verdictText).
  { do 3 eexists. repeat split. }
  destruct (factCheck_verdict_confidence
              (Sample.factCheckContext "rates will hold")
              (Sample.world Sample.key [Sample.completion Sample.verdictText])
              "pplx-test" Sample.verdictText eq_refl eq_refl A)
    as (r & w' & E & _ & _ & _ & _ & _ & V & C).
  exists r, w'. split; [exact E|]. split.
  - apply (V ("Analysis of the claim." ++ Str.nl)
             (Str.nl ++ "Confidence: 72" ++ Str.nl
              ++ "Source: Reuters - confirms the claim")).
    + reflexivity.
    + vm_compute. reflexivity.
  - apply (C ("Analysis of the claim." ++ Str.nl
              ++ "Verdict: mostly_false" ++ Str.nl)
             (Str.nl ++ "Source: Reuters - confirms the claim")).
    + reflexivity.
    + vm_compute. reflexivity.
    + reflexivity.
Defined.



(** C4 as it is worded fails on a text that contains both phrases after
    an earlier verdict: the first match wins. *)
Lemma factCheck_first_verdict_wins :
  Str.includes Sample.twoVerdicts "Verdict: mostly_false" = true /\
  Str.includes Sample.twoVerdicts "Confidence: 72" = true /\
  exists r w',
    FactCheckTool.execute (Sample.factCheckContext "rates will hold")
      (Sample.world Sample.key [Sample.completion Sample.twoVerdicts])
    = (Return r, w') /\
    FactCheckTool.Output.verdict r = "true" /\
    FactCheckTool.Output.verdict r <> "mostly_false".
Proof.
  split; [reflexivity|]. split; [reflexivity|].
  do 2 eexists. split; [vm_compute; reflexivity|].
  split; [reflexivity | discriminate].
Qed.

(** C5.  On a successful response text, the evidence is made of the
    successive matches of the source pattern, one item a match and in
    their order, cut after the fifth: the item of a match has the
    trimmed first group as its source and the trimmed second group as
    its quote, is supporting exactly when the second group mentions
    "support" or "confirm", in small letters, in capitals or in both,
    and has credibility 0.8.  The text of the two lines
    [Source: Reuters - confirms the claim] and
    [Source: AP - denies involvement] gives a supporting item and then a
    non-supporting one; with [CONFIRMS] and [Supported] in the second
    part, and with the label in capitals or small letters, the items are
    supporting all the same and the quote keeps its letters. *)
Theorem factCheck_evidence
  (context : FactCheckTool.Input.t) (w : World) (key text : string) :
  Str.isBlank (FactCheckTool.Input.claim context) = false ->
  Completion.credential w = Some key ->
  Completion.answers "analysisText" w text ->
  exists r w' ms,
    FactCheckTool.execute context w = (Return r, w') /\
    successive FactCheckTool.sourcePattern text ms /\
    FactCheckTool.Output.evidence r
    = firstn 5 (map FactCheckTool.evidenceOf ms) /\
    (List.length (FactCheckTool.Output.evidence r) <= 5)%nat /\
    List.length (FactCheckTool.Output.evidence r)
    = Nat.min 5 (List.length ms) /\
    (forall i m,
       (i < 5)%nat -> nth_error ms i = Some m ->
       exists e,
         nth_error (FactCheckTool.Output.evidence r) i = Some e /\
         FactCheckTool.Output.source e = Str.trim (group 1 m) /\
         FactCheckTool.Output.quote e = Str.trim (group 2 m) /\
         FactCheckTool.Output.credibility e = 0.8%float /\
         (FactCheckTool.Output.supporting e = true
          <-> Str.mentions (group 2 m) "support"
              \/ Str.mentions (group 2 m) "confirm")) /\
    Forall (fun e => FactCheckTool.Output.credibility e = 0.8%float)
      (FactCheckTool.Output.evidence r) /\
    (text = Sample.twoSources ->
     FactCheckTool.Output.evidence r
     = [ {| FactCheckTool.Output.source := "Reuters";
            FactCheckTool.Output.supporting := true;
            FactCheckTool.Output.quote := "confirms the claim";
            FactCheckTool.Output.credibility := 0.8 |};
         {| FactCheckTool.Output.source := "AP";
            FactCheckTool.Output.supporting := false;
            FactCheckTool.Output.quote := "denies involvement";
            FactCheckTool.Output.credibility := 0.8 |} ]) /\
    (text = Sample.loudSources ->
     FactCheckTool.Output.evidence r
     = [ {| FactCheckTool.Output.source := "Reuters";
            FactCheckTool.Output.supporting := true;
            FactCheckTool.Output.quote := "CONFIRMS the claim";
            FactCheckTool.Output.credibility := 0.8 |};
         {| FactCheckTool.Output.source := "AP";
            FactCheckTool.Output.supporting := true;
            FactCheckTool.Output.quote := "Strongly Supported by the record";
            FactCheckTool.Output.credibility := 0.8 |};
         {| FactCheckTool.Output.source := "BBC";
            FactCheckTool.Output.supporting := false;
            FactCheckTool.Output.quote := "denies involvement";
            FactCheckTool.Output.credibility := 0.8 |} ]).
Proof.
  intros B K A.
  destruct (ToolFacts.factCheck_answers context w key text B K A)
    as (ms & rs & stamp & w' & S & _ & _ & E).
  eexists. exists w', ms. split; [exact E|]. split; [exact S|].
  cbn [FactCheckTool.Output.evidence].
  split; [reflexivity|]. split; [|split; [|split; [|split; [|split]]]].
  - rewrite length_firstn. lia.
  - now rewrite length_firstn, length_map.
  - intros i m I N. exists (FactCheckTool.evidenceOf m). split.
    + rewrite nth_error_firstn.
      destruct (i <? 5)%nat eqn:L; [|apply Nat.ltb_ge in L; lia].
      now rewrite nth_error_map, N.
    + cbn. repeat split.
      * intros H. apply orb_true_iff in H.
        destruct H as [H|H]; apply includes_iff in H;
          [left | right]; apply mentions_iff; auto.
      * intros [H|H]; apply mentions_iff in H; try reflexivity;
          apply includes_iff in H; rewrite H;
          [reflexivity | apply orb_true_r].
  - apply Forall_forall. intros e I. apply firstn_incl in I.
    apply in_map_iff in I. destruct I as (m & <- & _). reflexivity.
  - intros ->.
    pose proof (successive_execAll _ _ _
                  ToolFacts.sourcePattern_consuming S) as X.
    vm_compute in X. injection X as <-. vm_compute. reflexivity.
  - intros ->.
    pose proof (successive_execAll _ _ _
                  ToolFacts.sourcePattern_consuming S) as X.
    vm_compute in X. injection X as <-. vm_compute. reflexivity.
Qed.

Lemma factCheck_evidence_witness :
  (exists r w',
     FactCheckTool.execute (Sample.factCheckContext "rates will hold")
       (Sample.world Sample.key [Sample.completion Sample.twoSources])
     = (Return r, w') /\
     map FactCheckTool.Output.supporting (FactCheckTool.Output.evidence r)
     = [true; false] /\
     map FactCheckTool.Output.credibility (FactCheckTool.Output.evidence r)
     = [0.8%float; 0.8%float]) /\
  (exists r w',
     FactCheckTool.execute (Sample.factCheckContext "rates will hold")
       (Sample.world Sample.key [Sample.completion Sample.loudSources])
     = (Return r, w') /\
     map FactCheckTool.Output.supporting (FactCheckTool.Output.evidence r)
     = [true; true; false] /\
     map FactCheckTool.Output.quote (FactCheckTool.Output.evidence r)
     = ["CONFIRMS the claim"; "Strongly Supported by the record";
        "denies involvement"]).
Proof.
  split.
  - assert (A : Completion.answers "analysisText"
                  (Sample.world Sample.key
                     [Sample.completion Sample.twoSources])
                  Sample.twoSources).
    { do 3 eexists. repeat split. }
    destruct (factCheck_evidence
                (Sample.factCheckContext "rates will hold")
                (Sample.world Sample.key
                   [Sample.completion Sample.twoSources])
                "pplx-test" Sample.twoSources eq_refl eq_refl A)
      as (r & w' & ms & E & _ & _ & _ & _ & _ & _ & T & _).
    exists r, w'. split; [exact E|]. rewrite (T eq_refl). split; reflexivity.
  - assert (A : Completion.answers "analysisText"
                  (Sample.world Sample.key
                     [Sample.completion Sample.loudSources])
                  Sample.loudSources).
    { do 3 eexists. repeat split. }
    destruct (factCheck_evidence
                (Sample.factCheckContext "rates will hold")
                (Sample.world Sample.key
                   [Sample.completion Sample.loudSources])
                "pplx-test" Sample.loudSources eq_refl eq_refl A)
      as (r & w' & ms & E & _ & _ & _ & _ & _ & _ & _ & T).
    exists r, w'. split; [exact E|]. rewrite (T eq_refl). split; reflexivity.
Defined.

(** C6, with its example made exact.  On a successful response text the
    trend direction is "rising" when the lower-cased text contains
    "rising"; else "declining" when it contains "declining"; else
    "volatile" when it contains "volatile"; else "stable".  So a text
    that contains "declining" and not "rising" gives "declining", and a
    text with none of the three words gives "stable". *)
Theorem trend_direction
  (context : TrendTool.Input.t) (w : World) (key text : string) :
  Str.isBlank (TrendTool.Input.topic context) = false ->
  Completion.credential w = Some key ->
  Completion.answers "analysisText" w text ->
  exists r w',
    TrendTool.execute context w = (Return r, w') /\
    (Str.contains (Str.toLowerCase text) "rising" ->
     TrendTool.Output.trendDirection r = "rising") /\
    (~ Str.contains (Str.toLowerCase text) "rising" ->
     Str.contains (Str.toLowerCase text) "declining" ->
     TrendTool.Output.trendDirection r = "declining") /\
    (~ Str.contains (Str.toLowerCase text) "rising" ->
     ~ Str.contains (Str.toLowerCase text) "declining" ->
     Str.contains (Str.toLowerCase text) "volatile" ->
     TrendTool.Output.trendDirection r = "volatile") /\
    (~ Str.contains (Str.toLowerCase text) "rising" ->
     ~ Str.contains (Str.toLowerCase text) "declining" ->
     ~ Str.contains (Str.toLowerCase text) "volatile" ->
     TrendTool.Output.trendDirection r = "stable").
Proof.
  intros B K A.
  destruct (ToolFacts.trend_answers context w key text B K A)
    as (r & w' & E & D & _).
  exists r, w'. split; [exact E|]. rewrite D.
  unfold TrendTool.trendDirectionOf.
  repeat split; intros;
    repeat match goal with
    | H : Str.contains _ _ |- _ => apply includes_iff in H; rewrite H
    | H : ~ Str.contains _ _ |- _ => apply includes_false_iff in H; rewrite H
    end; reflexivity.
Qed.

Lemma trend_direction_witness :
  exists r w',
    TrendTool.execute (Sample.trendContext "rates")
      (Sample.world Sample.key
         [Sample.completion "Interest has been Declining since May."])
    = (Return r, w') /\
    TrendTool.Output.trendDirection r = "declining".
Proof.
  assert (A : Completion.answers "analysisText"
                (Sample.world Sample.key
                   [Sample.completion "Interest has been Declining since May."])
                "Interest has been Declining since May.").
  { do 3 eexists. repeat split. }
  destruct (trend_direction (Sample.trendContext "rates")
              (Sample.world Sample.key
                 [Sample.completion "Interest has been Declining since May."])
              "pplx-test" "Interest has been Declining since May."
              eq_refl eq_refl A)
    as (r & w' & E & _ & D & _).
  exists r, w'. split; [exact E|]. apply D.
  - apply includes_false_iff. reflexivity.
  - apply includes_iff. reflexivity.
Defined.

(** C6 as it is worded fails on a text with both words: "rising" is
    looked for first. *)
Lemma trend_rising_before_declining :
  Str.includes (Str.toLowerCase "Rising fast, after declining for a year.")
    "declining" = true /\
  exists r w',
    TrendTool.execute (Sample.trendContext "rates")
      (Sample.world Sample.key
         [Sample.completion "Rising fast, after declining for a year."])
    = (Return r, w') /\
    TrendTool.Output.trendDirection r = "rising" /\
    TrendTool.Output.trendDirection r <> "declining".
Proof.
  split; [reflexivity|].
  do 2 eexists. split; [vm_compute; reflexivity|].
  split; [reflexivity | discriminate].
Qed.

(** C7, with the guard on blank input made explicit.  With the
    credential absent, each tool returns its fallback record with a text
    that names PERPLEXITY_API_KEY, and sends no request: the news tool
    for every topic, the other three for every text, claim or topic that
    is not blank (not empty and not made of white space only). *)
Theorem tools_without_credential (w : World) :
  PERPLEXITY_API_KEY w = None ->
  (forall context,
     exists r w',
       NewsTool.execute context w = (Return r, w') /\
       NewsTool.Output.sources r = ["Error - No sources available"] /\
       NewsTool.Output.articleCount r = 0%float /\
       Str.includes (NewsTool.Output.summary r) "PERPLEXITY_API_KEY" = true /\
       requests w' = requests w /\ network w' = network w) /\
  (forall context,
     Str.isBlank (SentimentTool.Input.text context) = false ->
     exists v summary,
       SentimentTool.execute context w = (Return v, w) /\
       v = SentimentTool.fallbackResult Completion.keyError /\
       get "confidence" v = inr (Num 0) /\
       get "summary" v = inr (Text summary) /\
       Str.includes summary "PERPLEXITY_API_KEY" = true) /\
  (forall context,
     Str.isBlank (FactCheckTool.Input.claim context) = false ->
     exists r w',
       FactCheckTool.execute context w = (Return r, w') /\
       FactCheckTool.Output.claim r = FactCheckTool.Input.claim context /\
       FactCheckTool.Output.verdict r = "unverifiable" /\
       FactCheckTool.Output.confidence r = 0%float /\
       FactCheckTool.Output.evidence r = [] /\
       FactCheckTool.Output.relatedClaims r = [] /\
       Str.includes (FactCheckTool.Output.explanation r)
         "PERPLEXITY_API_KEY" = true /\
       requests w' = requests w /\ network w' = network w) /\
  (forall context,
     Str.isBlank (TrendTool.Input.topic context) = false ->
     exists r,
       TrendTool.execute context w = (Return r, w) /\
       TrendTool.Output.trendDirection r = "stable" /\
       TrendTool.Output.momentum r = 0%float /\
       TrendTool.Output.keyDrivers r = [] /\
       TrendTool.Output.predictions r = [] /\
       TrendTool.Output.relatedTopics r = [] /\
       TrendTool.Output.timeline r = [] /\
       Str.includes (TrendTool.Output.analysis r) "PERPLEXITY_API_KEY"
       = true).
Proof.
  intros K.
  assert (C : Completion.credential w = None)
    by (unfold Completion.credential; now rewrite K).
  split; [|split; [|split]].
  - intros context.
    destruct (ToolFacts.news_noKey context w C)
      as (r & E & S & N & f & n & l & Q).
    exists r. eexists. split; [exact E|]. split; [exact S|].
    split; [exact N|]. split; [|split; reflexivity].
    rewrite Q. apply includes_iff.
    eapply contains_trans;
      [apply FallbackFacts.fallbackSummary_quotes
      | apply FallbackFacts.keyError_names_key].
  - intros context B. do 2 eexists.
    split; [exact (ToolFacts.sentiment_noKey context w B C)|].
    split; [reflexivity|]. split; [reflexivity|]. split; reflexivity.
  - intros context B. rewrite (ToolFacts.factCheck_noKey context w B C).
    do 2 eexists. split; [reflexivity|]. cbn. repeat split.
  - intros context B. rewrite (ToolFacts.trend_noKey context w B C).
    eexists. split; [reflexivity|]. cbn -[Str.includes]. repeat split.
Qed.

Lemma tools_without_credential_witness :
  PERPLEXITY_API_KEY (Sample.world None [Sample.completion "Digest."]) = None /\
  exists r,
    TrendTool.execute (Sample.trendContext "rates")
      (Sample.world None [Sample.completion "Digest."])
    = (Return r, Sample.world None [Sample.completion "Digest."]) /\
    TrendTool.Output.trendDirection r = "stable" /\
    Str.includes (TrendTool.Output.analysis r) "PERPLEXITY_API_KEY" = true.
Proof.
  split; [reflexivity|].
  destruct (proj2 (proj2 (proj2
              (tools_without_credential
                 (Sample.world None [Sample.completion "Digest."]) eq_refl)))
              (Sample.trendContext "rates") eq_refl)
    as (r & E & D & _ & _ & _ & _ & _ & I).
  exists r. auto.
Defined.

(** C7 as it is worded fails for a field that is not empty but blank:
    the guard on the input comes first, and the text of the fallback
    names the input, not the credential. *)
Lemma blank_text_not_credential :
  SentimentTool.Input.text (Sample.sentimentContext " ") <> "" /\
  PERPLEXITY_API_KEY (Sample.world None []) = None /\
  exists v summary,
    SentimentTool.execute (Sample.sentimentContext " ") (Sample.world None [])
    = (Return v, Sample.world None []) /\
    get "summary" v = inr (Text summary) /\
    summary
    = "Sentiment analysis failed: Text input is empty or invalid. Using neutral fallback values." /\
    Str.includes summary "PERPLEXITY_API_KEY" = false.
Proof.
  split; [discriminate|]. split; [reflexivity|].
  do 2 eexists. split; [reflexivity|]. split; [reflexivity|].
  split; reflexivity.
Qed.

(** C8, for content that is not blank.  When the response is a success
    and its content is not blank and [JSON.parse] rejects it, the
    sentiment tool returns the neutral-leaning default: overall
    sentiment "neutral", score 0, joy and trust 0.5, the four other
    emotions 0.1, subjectivity 0.5, confidence 0.7, no key phrase.  That
    is not the record of the outer catch, whatever its error. *)
Theorem sentiment_unparseable
  (context : SentimentTool.Input.t) (w : World) (key content : string) :
  Str.isBlank (SentimentTool.Input.text context) = false ->
  Completion.credential w = Some key ->
  Completion.answers "content" w content ->
  JSON_parse (host w) content = None ->
  exists v w',
    SentimentTool.execute context w = (Return v, w') /\
    v = Obj [ ("overallSentiment", Text "neutral");
              ("sentimentScore", Num 0);
              ("emotions",
                Obj [ ("joy", Num 0.5); ("anger", Num 0.1);
                      ("fear", Num 0.1); ("sadness", Num 0.1);
                      ("surprise", Num 0.1); ("trust", Num 0.5) ]);
              ("subjectivity", Num 0.5);
              ("confidence", Num 0.7);
              ("keyPhrases", Arr []);
              ("summary",
                Text "Sentiment analysis completed with fallback values due to parsing error.") ] /\
    (forall error, v <> SentimentTool.fallbackResult error).
Proof.
  intros B K A P.
  rewrite (ToolFacts.sentiment_answers context w key content B K A).
  unfold SentimentTool.parse. rewrite P.
  do 2 eexists. split; [reflexivity|]. split; [reflexivity|].
  intros error. discriminate.
Qed.

Lemma sentiment_unparseable_witness :
  JSON_parse (host (Sample.world Sample.key
                      [Sample.completion "The mood is calm."]))
    "The mood is calm." = None /\
  exists v w',
    SentimentTool.execute (Sample.sentimentContext "Rates held.")
      (Sample.world Sample.key [Sample.completion "The mood is calm."])
    = (Return v, w') /\
    get "confidence" v = inr (Num 0.7).
Proof.
  split; [reflexivity|].
  assert (A : Completion.answers "content"
                (Sample.world Sample.key
                   [Sample.completion "The mood is calm."])
                "The mood is calm.").
  { do 3 eexists. repeat split. }
  destruct (sentiment_unparseable (Sample.sentimentContext "Rates held.")
              (Sample.world Sample.key [Sample.completion "The mood is calm."])
              "pplx-test" "The mood is calm." eq_refl eq_refl A eq_refl)
    as (v & w' & E & -> & _).
  do 2 eexists. split; [exact E | reflexivity].
Defined.

(** C8 as it is worded fails for content that is not empty but blank:
    the success response with the one-space content is refused as an
    empty response, and the record of the outer catch comes back. *)
Lemma sentiment_blank_content_hard_fallback :
  Sample.completion " "
  = Responds {| status := 200; bodyText := "";
                bodyJson :=
                  Some (Obj [ ("choices",
                               Arr [ Obj [ ("message",
                                            Obj [ ("role", Text "assistant");
                                                  ("content", Text " ") ]) ] ]) ])
             |} /\
  " " <> "" /\
  JSON_parse Sample.mockHost " " = None /\
  exists v w',
    SentimentTool.execute (Sample.sentimentContext "Rates held.")
      (Sample.world Sample.key [Sample.completion " "])
    = (Return v, w') /\
    v = SentimentTool.fallbackResult Completion.emptyResponse /\
    get "confidence" v = inr (Num 0) /\
    v <> SentimentTool.parseFallback.
Proof.
  split; [reflexivity|]. split; [discriminate|]. split; [reflexivity|].
  do 2 eexists. split; [vm_compute; reflexivity|].
  split; [reflexivity|]. split; [reflexivity | discriminate].
Qed.

(* ================================================================== *)
(** * Further properties of the tools *)
(* ================================================================== *)

Module RunFacts.
Import Completion CompletionFacts ToolFacts.

(** A call that returns a text had a credential and an answer. *)
Lemma complete_return (label name : string) (q : string -> request)
  (w w' : World) (text : string) :
  complete label name q w = (Return text, w') ->
  exists key,
    credential w = Some key /\ answers name w text /\
    w' = posted (q key) w.
Proof.
  intros H. destruct (credential w) as [key|] eqn:K.
  - exists key. split; [reflexivity|].
    unfold complete, bind in H. rewrite (requireKey_some _ _ K) in H.
    unfold fetch in H. destruct (network w) as [|[reason|r] rest] eqn:N;
      try discriminate.
    unfold checkStatus in H. destruct (ok r) eqn:O.
    + unfold ret, json in H. destruct (bodyJson r) as [data|] eqn:J;
        [|discriminate].
      unfold ret, lift in H.
      destruct (readContent name data) as [e|t] eqn:C; [discriminate|].
      injection H as <- <-. split; [|reflexivity].
      exists r, data, rest. auto.
    + destruct (status r =? 401)%Z; [discriminate|].
      destruct (status r =? 429)%Z; [discriminate|].
      destruct (500 <=? status r)%Z; discriminate.
  - rewrite (complete_none _ _ _ _ K) in H. discriminate.
Qed.

(** With a credential and an input that passes the guard, the other
    three tools post one request and return, whatever comes back. *)
Lemma sentiment_some (context : SentimentTool.Input.t) (w : World)
  (key : string) :
  Str.isBlank (SentimentTool.Input.text context) = false ->
  credential w = Some key ->
  exists v,
    SentimentTool.execute context w
    = (Return v,
       posted (SentimentTool.sentimentRequest
                 (SentimentTool.Input.text context)
                 (SentimentTool.Input.context context) key) w) /\
    (v = SentimentTool.parseFallback
     \/ (exists e, v = SentimentTool.fallbackResult e)
     \/ (exists content,
           answers "content" w content /\
           JSON_parse (host w) content = Some v /\
           SentimentTool.validate v = inr v)).
Proof.
  intros B K. unfold SentimentTool.execute, tryCatch, bind, ask.
  rewrite B. cbn -[SentimentTool.parseFallback].
  match goal with
  | |- context [complete ?l ?n ?q ?w0] =>
      destruct (complete_some l n q w0 key K) as (o & E & D)
  end.
  rewrite E. destruct o as [content|e|]; [| |congruence].
  - apply complete_return in E. destruct E as (k & _ & A & _).
    unfold lift, SentimentTool.parse.
    destruct (JSON_parse (host w) content) as [v|] eqn:P.
    + destruct (SentimentTool.validate v) as [e|v'] eqn:V.
      * eexists. split; [reflexivity|]. right. left. eauto.
      * assert (v' = v).
        { unfold SentimentTool.validate in V.
          destruct (get "overallSentiment" v); [discriminate|].
          destruct (negb (truthy v0)); [discriminate|].
          destruct (get "emotions" v); [discriminate|].
          destruct (negb (truthy v1)); [discriminate|]. congruence. }
        subst v'. eexists. split; [reflexivity|]. right. right.
        exists content. auto.
    + eexists. split; [reflexivity|]. left. reflexivity.
  - eexists. split; [reflexivity|]. right. left. eauto.
Qed.

Lemma factCheck_some (context : FactCheckTool.Input.t) (w : World)
  (key : string) :
  Str.isBlank (FactCheckTool.Input.claim context) = false ->
  credential w = Some key ->
  exists r,
    FactCheckTool.execute context w
    = (Return r,
       ticked (posted (FactCheckTool.factCheckRequest
                         (FactCheckTool.Input.claim context)
                         (FactCheckTool.Input.context context)
                         (NewsTool.orDefault
                            (FactCheckTool.Input.sources context) [])
                         key) w)) /\
    ((exists e stamp,
        r = FactCheckTool.fallbackResult
              (FactCheckTool.Input.claim context) e stamp)
     \/ (exists text ss rs stamp,
           answers "analysisText" w text /\
           successive FactCheckTool.sourcePattern text ss /\
           successive FactCheckTool.relatedPattern text rs /\
           r = {| FactCheckTool.Output.claim :=
                    FactCheckTool.Input.claim context;
                  FactCheckTool.Output.verdict :=
                    FactCheckTool.extractVerdict text;
                  FactCheckTool.Output.confidence :=
                    FactCheckTool.extractConfidence text;
                  FactCheckTool.Output.evidence :=
                    firstn 5 (map FactCheckTool.evidenceOf ss);
                  FactCheckTool.Output.explanation := text;
                  FactCheckTool.Output.relatedClaims :=
                    firstn 3 (map FactCheckTool.relatedOf rs);
                  FactCheckTool.Output.checkDate := stamp |})).
Proof.
  intros B K. unfold FactCheckTool.execute, tryCatch, bind, ask.
  rewrite B.
  cbn -[FactCheckTool.sourcePattern FactCheckTool.relatedPattern
        FactCheckTool.extractVerdict FactCheckTool.extractConfidence].
  match goal with
  | |- context [complete ?l ?n ?q ?w0] =>
      destruct (complete_some l n q w0 key K) as (o & E & D)
  end.
  rewrite E. destruct o as [text|e|]; [| |congruence].
  - apply complete_return in E. destruct E as (k & _ & A & _).
    match goal with
    | |- context [FactCheckTool.collect FactCheckTool.sourcePattern ?f ?s ?w0] =>
        destruct (collect_total FactCheckTool.sourcePattern f s w0
                    sourcePattern_consuming) as (ms1 & S1 & ->)
    end.
    match goal with
    | |- context [FactCheckTool.collect FactCheckTool.relatedPattern ?f ?s ?w0] =>
        destruct (collect_total FactCheckTool.relatedPattern f s w0
                    relatedPattern_consuming) as (ms2 & S2 & ->)
    end.
    eexists. split; [reflexivity|]. right.
    exists text, ms1, ms2. eexists. repeat split; assumption.
  - eexists. split; [reflexivity|]. left. eauto.
Qed.

Lemma trend_some (context : TrendTool.Input.t) (w : World) (key : string) :
  Str.isBlank (TrendTool.Input.topic context) = false ->
  credential w = Some key ->
  exists r w',
    TrendTool.execute context w = (Return r, w') /\
    requests w'
    = (requests w
       ++ [TrendTool.trendRequest (TrendTool.Input.topic context)
             (NewsTool.orDefault (TrendTool.Input.timeframe context)
                TrendTool.week)
             (TrendTool.Input.region context) key])%list /\
    network w' = tl (network w) /\
    ((exists e,
        r = TrendTool.fallbackResult (TrendTool.Input.topic context)
              (TrendTool.showTimeframe
                 (NewsTool.orDefault (TrendTool.Input.timeframe context)
                    TrendTool.week)) e /\
        clockReads w' = clockReads w /\ randomDraws w' = randomDraws w)
     \/ (exists text,
           answers "analysisText" w text /\
           TrendTool.Output.trendDirection r
           = TrendTool.trendDirectionOf text /\
           TrendTool.Output.analysis r = text /\
           TrendTool.Output.topic r = TrendTool.Input.topic context /\
           TrendTool.Output.keyDrivers r
           = ["Public interest surge"; "Media coverage increase";
              "Policy changes"] /\
           TrendTool.Output.predictions r = TrendTool.predictions /\
           TrendTool.Output.relatedTopics r = TrendTool.relatedTopics /\
           map TrendTool.Output.keyEvent (TrendTool.Output.timeline r)
           = [None; None; None; Some "Major development";
              None; None; None] /\
           clockReads w' = S (clockReads w) /\
           randomDraws w' = (8 + randomDraws w)%nat)).
Proof.
  intros B K. unfold TrendTool.execute, tryCatch, bind, ask.
  rewrite B. cbn -[TrendTool.trendDirectionOf].
  match goal with
  | |- context [complete ?l ?n ?q ?w0] =>
      destruct (complete_some l n q w0 key K) as (o & E & D)
  end.
  rewrite E. destruct o as [text|e|]; [| |congruence].
  - apply complete_return in E. destruct E as (k & _ & A & _).
    cbn -[TrendTool.trendDirectionOf].
    do 2 eexists. split; [reflexivity|].
    split; [reflexivity|]. split; [reflexivity|]. right.
    exists text. cbn -[TrendTool.trendDirectionOf]. repeat split. exact A.
  - do 2 eexists. split; [reflexivity|].
    split; [reflexivity|]. split; [reflexivity|]. left.
    exists e. repeat split.
Qed.
End RunFacts.

Module NewsRunFacts.
Import Completion CompletionFacts ToolFacts RunFacts.

(** The news tool, whatever its call did. *)
Lemma news_run (context : NewsTool.Input.t) (w : World) :
  exists r w',
    NewsTool.execute context w = (Return r, w') /\
    NewsTool.Output.topic r = NewsTool.Input.topic context /\
    NewsTool.Output.language r
    = NewsTool.orDefault (NewsTool.Input.language context) "en" /\
    ((exists key text,
        credential w = Some key /\ answers "summary" w text /\
        NewsTool.Output.summary r = text /\
        NewsTool.Output.sources r = ["Perplexity AI Analysis"] /\
        NewsTool.Output.articleCount r
        = NewsTool.orDefault (NewsTool.Input.count context) 5%float)
     \/ (exists fromDay nowDay reason,
           (forall key text,
              credential w = Some key -> ~ answers "summary" w text) /\
           NewsTool.Output.summary r
           = NewsTool.fallbackSummary (NewsTool.Input.topic context)
               fromDay nowDay
               (NewsTool.orDefault (NewsTool.Input.language context) "en")
               reason /\
           NewsTool.Output.sources r = ["Error - No sources available"] /\
           NewsTool.Output.articleCount r = 0%float)) /\
    ((requests w' = requests w /\ network w' = network w /\
      credential w = None)
     \/ (exists key,
           credential w = Some key /\
           network w' = tl (network w) /\
           requests w'
           = (requests w
              ++ [NewsTool.newsRequest (NewsTool.Input.topic context)
                    (NewsTool.orDefault (NewsTool.Input.count context)
                       5%float)
                    (NewsTool.orDefault (NewsTool.Input.language context)
                       "en")
                    (NewsTool.orDefault (NewsTool.Input.sortBy context)
                       NewsTool.publishedAt)
                    (NewsTool.orDefault (NewsTool.Input.timeRange context)
                       NewsTool.week)
                    key])%list)).
Proof.
  unfold NewsTool.execute, bind, tryCatch, ask, newDate.
  destruct (credential w) as [key|] eqn:K.
  - match goal with
    | |- context [complete ?l ?n ?q ?w0] =>
        destruct (complete_some l n q w0 key K) as (o & E & D)
    end.
    rewrite E. destruct o as [text|e|]; [| |congruence].
    + apply complete_return in E. destruct E as (k & _ & A & _).
      do 2 eexists. split; [reflexivity|].
      cbn -[NewsTool.fallbackSummary message].
      split; [reflexivity|]. split; [reflexivity|]. split.
      * left. exists key, text. repeat split. exact A.
      * right. exists key. repeat split.
    + do 2 eexists. split; [reflexivity|].
      cbn -[NewsTool.fallbackSummary message].
      split; [reflexivity|]. split; [reflexivity|]. split.
      * right. do 3 eexists. split; [|repeat split].
        intros key' text _ A.
        assert (A' : answers "summary" (ticked (ticked w)) text) by exact A.
        rewrite (complete_answers _ _ _ (ticked (ticked w)) key text K A') in E.
        discriminate.
      * right. exists key. repeat split.
  - rewrite complete_none by exact K.
    do 2 eexists. split; [reflexivity|].
      cbn -[NewsTool.fallbackSummary message].
    split; [reflexivity|]. split; [reflexivity|]. split.
    + right. do 3 eexists. split; [|repeat split].
      intros key text K'. discriminate K'.
    + left. repeat split.
Qed.
End NewsRunFacts.

Import Completion CompletionFacts ToolFacts RunFacts NewsRunFacts.

(** X1.  No tool throws and none loops: for every input and in every
    world, each of the four [execute] returns a record. *)
Theorem tools_always_return (w : World) :
  (forall context, exists r w',
     NewsTool.execute context w = (Return r, w')) /\
  (forall context, exists v w',
     SentimentTool.execute context w = (Return v, w')) /\
  (forall context, exists r w',
     FactCheckTool.execute context w = (Return r, w')) /\
  (forall context, exists r w',
     TrendTool.execute context w = (Return r, w')).
Proof.
  split; [|split; [|split]]; intros context.
  - destruct (news_run context w) as (r & w' & E & _). eauto.
  - destruct (Str.isBlank (SentimentTool.Input.text context)) eqn:B.
    + rewrite (sentiment_blank context w B). eauto.
    + destruct (credential w) as [key|] eqn:K.
      * destruct (sentiment_some context w key B K) as (v & E & _). eauto.
      * rewrite (sentiment_noKey context w B K). eauto.
  - destruct (Str.isBlank (FactCheckTool.Input.claim context)) eqn:B.
    + rewrite (factCheck_blank context w B). eauto.
    + destruct (credential w) as [key|] eqn:K.
      * destruct (factCheck_some context w key B K) as (v & E & _). eauto.
      * rewrite (factCheck_noKey context w B K). eauto.
  - destruct (Str.isBlank (TrendTool.Input.topic context)) eqn:B.
    + rewrite (trend_blank context w B). eauto.
    + destruct (credential w) as [key|] eqn:K.
      * destruct (trend_some context w key B K) as (v & w' & E & _). eauto.
      * rewrite (trend_noKey context w B K). eauto.
Qed.


Lemma credential_some (w : World) (key : string) :
  credential w = Some key ->
  PERPLEXITY_API_KEY w = Some key /\ key <> "".
Proof.
  unfold credential. destruct (PERPLEXITY_API_KEY w) as [k|]; [|discriminate].
  destruct k; simpl; [discriminate|]. intros [= <-]. split; [reflexivity|].
  discriminate.
Qed.

(** X2.  A call of any tool leaves the traffic as it was or adds one
    request, addressed to the completion endpoint and authorised with
    the key of the environment; without a key it adds none. *)
Theorem tools_post_at_most_once (w : World) :
  (forall context,
     atMostOnePost w (snd (NewsTool.execute context w))) /\
  (forall context,
     atMostOnePost w (snd (SentimentTool.execute context w))) /\
  (forall context,
     atMostOnePost w (snd (FactCheckTool.execute context w))) /\
  (forall context,
     atMostOnePost w (snd (TrendTool.execute context w))).
Proof.
  split; [|split; [|split]]; intros context.
  - destruct (news_run context w) as (r & w' & E & _ & _ & _ & T).
    rewrite E. cbn [snd]. destruct T as [(Q & N & _)|(key & K & N & Q)].
    + left. auto.
    + right. destruct (credential_some _ _ K).
      exists key. eexists. repeat split; eassumption || reflexivity.
  - destruct (Str.isBlank (SentimentTool.Input.text context)) eqn:B.
    + rewrite (sentiment_blank context w B). left. auto.
    + destruct (credential w) as [key|] eqn:K.
      * destruct (sentiment_some context w key B K) as (v & -> & _).
        right. destruct (credential_some _ _ K).
        exists key. eexists. repeat split; eassumption || reflexivity.
      * rewrite (sentiment_noKey context w B K). left. auto.
  - destruct (Str.isBlank (FactCheckTool.Input.claim context)) eqn:B.
    + rewrite (factCheck_blank context w B). left. auto.
    + destruct (credential w) as [key|] eqn:K.
      * destruct (factCheck_some context w key B K) as (v & -> & _).
        right. destruct (credential_some _ _ K).
        exists key. eexists. repeat split; eassumption || reflexivity.
      * rewrite (factCheck_noKey context w B K). left. auto.
  - destruct (Str.isBlank (TrendTool.Input.topic context)) eqn:B.
    + rewrite (trend_blank context w B). left. auto.
    + destruct (credential w) as [key|] eqn:K.
      * destruct (trend_some context w key B K) as (v & w' & -> & Q & N & _).
        right. destruct (credential_some _ _ K).
        exists key. eexists. repeat split; eassumption || reflexivity.
      * rewrite (trend_noKey context w B K). left. auto.
Qed.

(** A response outside 2xx is refused with a message chosen by its
    status; the body is quoted only for the statuses that have no
    message of their own. *)
Lemma complete_refused (label name : string) (q : string -> request)
  (w : World) (key : string) (r : response) (rest : list exchange) :
  credential w = Some key ->
  network w = Responds r :: rest ->
  ok r = false ->
  exists reason,
    complete label name q w = (Throw (Error reason), posted (q key) w) /\
    (status r = 401%Z ->
     reason = "Invalid Perplexity API key. Please check your PERPLEXITY_API_KEY environment variable.") /\
    (status r = 429%Z ->
     reason = "Rate limit exceeded. Please wait a moment and try again.") /\
    ((500 <= status r)%Z ->
     reason = "Perplexity API server error. Please try again later.") /\
    (status r <> 401%Z -> status r <> 429%Z -> (status r < 500)%Z ->
     reason = label ++ ": " ++ showStatus (status r) ++ " - " ++ bodyText r).
Proof.
  intros K N O. unfold complete, bind. rewrite (requireKey_some _ _ K).
  unfold fetch. rewrite N. unfold checkStatus. rewrite O.
  destruct (Z.eqb_spec (status r) 401) as [A|A];
    [|destruct (Z.eqb_spec (status r) 429) as [B|B];
      [|destruct (Z.leb_spec 500 (status r)) as [C|C]]];
    (eexists; split; [reflexivity|]);
    repeat split; intros; try reflexivity; try (exfalso; lia).
Qed.

(** X3.  When the exchange is a response outside 2xx, each tool (given
    a credential and an input that passes its guard) returns its
    fallback record built on one and the same reason: the fixed text for
    401, for 429 and for 500 and above, and otherwise the tool's label
    with the status and the body. *)
Theorem tools_on_refusal
  (w : World) (key : string) (r : response) (rest : list exchange) :
  credential w = Some key ->
  network w = Responds r :: rest ->
  ok r = false ->
  exists generic,
    (status r = 401%Z ->
     generic = Some "Invalid Perplexity API key. Please check your PERPLEXITY_API_KEY environment variable.") /\
    (status r = 429%Z ->
     generic = Some "Rate limit exceeded. Please wait a moment and try again.") /\
    ((500 <= status r)%Z ->
     generic = Some "Perplexity API server error. Please try again later.") /\
    (status r <> 401%Z -> status r <> 429%Z -> (status r < 500)%Z ->
     generic = None) /\
    let reason label :=
      match generic with
      | Some text => text
      | None => label ++ ": " ++ showStatus (status r) ++ " - " ++ bodyText r
      end in
    (forall context, exists n w' fromDay nowDay,
       NewsTool.execute context w = (Return n, w') /\
       NewsTool.Output.articleCount n = 0%float /\
       NewsTool.Output.sources n = ["Error - No sources available"] /\
       NewsTool.Output.summary n
       = NewsTool.fallbackSummary (NewsTool.Input.topic context)
           fromDay nowDay
           (NewsTool.orDefault (NewsTool.Input.language context) "en")
           (reason "Perplexity API error")) /\
    (forall context,
       Str.isBlank (SentimentTool.Input.text context) = false ->
       exists w',
         SentimentTool.execute context w
         = (Return (SentimentTool.fallbackResult
                      (Error (reason "Sentiment analysis API error"))), w')) /\
    (forall context,
       Str.isBlank (FactCheckTool.Input.claim context) = false ->
       exists stamp w',
         FactCheckTool.execute context w
         = (Return (FactCheckTool.fallbackResult
                      (FactCheckTool.Input.claim context)
                      (Error (reason "Fact-check API error")) stamp), w')) /\
    (forall context,
       Str.isBlank (TrendTool.Input.topic context) = false ->
       exists w',
         TrendTool.execute context w
         = (Return (TrendTool.fallbackResult
                      (TrendTool.Input.topic context)
                      (TrendTool.showTimeframe
                         (NewsTool.orDefault
                            (TrendTool.Input.timeframe context)
                            TrendTool.week))
                      (Error (reason "Trend analysis API error"))), w')).
Proof.
  intros K N O.
  set (generic :=
         if (status r =? 401)%Z then
           Some "Invalid Perplexity API key. Please check your PERPLEXITY_API_KEY environment variable."
         else if (status r =? 429)%Z then
           Some "Rate limit exceeded. Please wait a moment and try again."
         else if (500 <=? status r)%Z then
           Some "Perplexity API server error. Please try again later."
         else None).
  exists generic.
  assert (R : forall label name q w0,
             credential w0 = Some key -> network w0 = Responds r :: rest ->
             complete label name q w0
             = (Throw (Error match generic with
                             | Some text => text
                             | None => label ++ ": " ++ showStatus (status r)
                                       ++ " - " ++ bodyText r
                             end), posted (q key) w0)).
  { intros label name q w0 K0 N0.
    destruct (complete_refused label name q w0 key r rest K0 N0 O)
      as (reason & -> & R1 & R2 & R3 & R4).
    do 2 f_equal. f_equal. subst generic.
    destruct (status r =? 401)%Z eqn:A.
    - apply Z.eqb_eq in A. auto.
    - apply Z.eqb_neq in A. destruct (status r =? 429)%Z eqn:B.
      + apply Z.eqb_eq in B. auto.
      + apply Z.eqb_neq in B. destruct (500 <=? status r)%Z eqn:C.
        * apply Z.leb_le in C. auto.
        * apply Z.leb_gt in C. auto. }
  split; [|split; [|split; [|split]]].
  - intros A. subst generic. apply Z.eqb_eq in A. now rewrite A.
  - intros A. subst generic. rewrite A. reflexivity.
  - intros A. subst generic.
    destruct (status r =? 401)%Z eqn:X; [apply Z.eqb_eq in X; lia|].
    destruct (status r =? 429)%Z eqn:Y; [apply Z.eqb_eq in Y; lia|].
    apply Z.leb_le in A. now rewrite A.
  - intros A B C. subst generic.
    apply Z.eqb_neq in A. apply Z.eqb_neq in B. apply Z.leb_gt in C.
    now rewrite A, B, C.
  - cbv zeta. clearbody generic. split; [|split; [|split]].
    + intros context.
      unfold NewsTool.execute, bind, tryCatch, ask, newDate.
      rewrite R by assumption.
      do 4 eexists. split; [reflexivity|].
      cbn -[NewsTool.fallbackSummary]. repeat split.
    + intros context B.
      unfold SentimentTool.execute, tryCatch, bind, ask. rewrite B.
      cbn -[SentimentTool.fallbackResult]. rewrite R by assumption.
      eexists. reflexivity.
    + intros context B.
      unfold FactCheckTool.execute, tryCatch, bind, ask. rewrite B.
      cbn -[FactCheckTool.fallbackResult]. rewrite R by assumption.
      do 2 eexists. reflexivity.
    + intros context B.
      unfold TrendTool.execute, tryCatch, bind, ask. rewrite B.
      cbn -[TrendTool.fallbackResult]. rewrite R by assumption.
      eexists. reflexivity.
Qed.

Lemma tools_on_refusal_witness :
  exists w',
    TrendTool.execute (Sample.trendContext "rates")
      (Sample.world Sample.key [Sample.rateLimited])
    = (Return (TrendTool.fallbackResult "rates" "week"
                 (Error "Rate limit exceeded. Please wait a moment and try again.")),
       w').
Proof.
  destruct (tools_on_refusal (Sample.world Sample.key [Sample.rateLimited])
              "pplx-test"
              {| status := 429; bodyText := "slow down"; bodyJson := None |}
              [] eq_refl eq_refl eq_refl)
    as (generic & _ & G & _ & _ & _ & _ & _ & T).
  rewrite (G eq_refl) in T.
  exact (T (Sample.trendContext "rates") eq_refl).
Defined.

Module AnswerFacts.

Lemma complete_unusable (label name : string) (q : string -> request)
  (w : World) (key : string) (r : response) (rest : list exchange)
  (data : value) (e : exn) :
  credential w = Some key ->
  network w = Responds r :: rest ->
  ok r = true ->
  bodyJson r = Some data ->
  readContent name data = inl e ->
  complete label name q w = (Throw e, posted (q key) w).
Proof.
  intros K N O J C. unfold complete, bind. rewrite (requireKey_some _ _ K).
  unfold fetch. rewrite N, (checkStatus_ok _ _ _ O).
  unfold json. rewrite J. unfold ret. rewrite C. reflexivity.
Qed.

Lemma readContent_no_message (name : string) (data : value) (e : exn) :
  readMessage data = inl e -> readContent name data = inl e.
Proof. intros H. unfold readContent. now rewrite H. Qed.

Lemma readContent_blank (name : string) (data message : value) (s : string) :
  readMessage data = inr message ->
  get "content" message = inr (Text s) ->
  Str.isBlank s = true ->
  readContent name data = inl emptyResponse.
Proof.
  intros M G B. unfold readContent. rewrite M, G. unfold nonBlank.
  cbn [truthy]. unfold Str.isBlank in B.
  destruct (Str.isEmpty s); [reflexivity|]. cbn in B |- *.
  now rewrite B.
Qed.
End AnswerFacts.

Import AnswerFacts.

(** X4.  A success response that cannot be used is turned into the
    fallback record by every tool, after the one request.  When the
    body has no truthy [choices], [choices[0]] or [message], the reason
    is "Invalid response format from Perplexity API"; when the content
    is a blank text, it is "Empty response from Perplexity API". *)
Theorem tools_on_unusable_answer
  (w : World) (key : string) (r : response) (rest : list exchange)
  (data : value) :
  credential w = Some key ->
  network w = Responds r :: rest ->
  ok r = true ->
  bodyJson r = Some data ->
  forall e,
    ((exists fields,
        data = Obj fields /\
        (truthy (lookup "choices" fields) = false
         \/ truthy (first (lookup "choices" fields)) = false) /\
        e = invalidFormat)
     \/ (exists message s,
           readMessage data = inr message /\
           get "content" message = inr (Text s) /\
           Str.isBlank s = true /\ e = emptyResponse)) ->
    (forall context, exists n w' fromDay nowDay,
       NewsTool.execute context w = (Return n, w') /\
       NewsTool.Output.articleCount n = 0%float /\
       NewsTool.Output.summary n
       = NewsTool.fallbackSummary (NewsTool.Input.topic context)
           fromDay nowDay
           (NewsTool.orDefault (NewsTool.Input.language context) "en")
           (message e)) /\
    (forall context,
       Str.isBlank (SentimentTool.Input.text context) = false ->
       exists w',
         SentimentTool.execute context w
         = (Return (SentimentTool.fallbackResult e), w')) /\
    (forall context,
       Str.isBlank (FactCheckTool.Input.claim context) = false ->
       exists stamp w',
         FactCheckTool.execute context w
         = (Return (FactCheckTool.fallbackResult
                      (FactCheckTool.Input.claim context) e stamp), w')) /\
    (forall context,
       Str.isBlank (TrendTool.Input.topic context) = false ->
       exists w',
         TrendTool.execute context w
         = (Return (TrendTool.fallbackResult
                      (TrendTool.Input.topic context)
                      (TrendTool.showTimeframe
                         (NewsTool.orDefault
                            (TrendTool.Input.timeframe context)
                            TrendTool.week)) e), w')).
Proof.
  intros K N O J e H.
  assert (C : forall name, readContent name data = inl e).
  { intros name. destruct H as [(fields & -> & T & ->)
                               |(message & s & M & G & B & ->)].
    - apply readContent_no_message. unfold readMessage. cbn [get].
      destruct T as [T|T].
      + now rewrite T.
      + destruct (truthy (lookup "choices" fields)); [|reflexivity].
        now rewrite T.
    - eapply readContent_blank; eassumption. }
  assert (R : forall label name q w0,
             credential w0 = Some key -> network w0 = Responds r :: rest ->
             complete label name q w0 = (Throw e, posted (q key) w0)).
  { intros label name q w0 K0 N0.
    exact (complete_unusable label name q w0 key r rest data e K0 N0 O J
             (C name)). }
  split; [|split; [|split]].
  - intros context.
    unfold NewsTool.execute, bind, tryCatch, ask, newDate.
    rewrite R by assumption.
    do 4 eexists. split; [reflexivity|].
    cbn -[NewsTool.fallbackSummary message]. split; reflexivity.
  - intros context B.
    unfold SentimentTool.execute, tryCatch, bind, ask. rewrite B.
    cbn -[SentimentTool.fallbackResult]. rewrite R by assumption.
    eexists. reflexivity.
  - intros context B.
    unfold FactCheckTool.execute, tryCatch, bind, ask. rewrite B.
    cbn -[FactCheckTool.fallbackResult]. rewrite R by assumption.
    do 2 eexists. reflexivity.
  - intros context B.
    unfold TrendTool.execute, tryCatch, bind, ask. rewrite B.
    cbn -[TrendTool.fallbackResult]. rewrite R by assumption.
    eexists. reflexivity.
Qed.

Lemma tools_on_unusable_answer_witness :
  exists stamp w',
    FactCheckTool.execute (Sample.factCheckContext "rates will hold")
      (Sample.world Sample.key [Sample.noChoices])
    = (Return (FactCheckTool.fallbackResult "rates will hold"
                 (Error "Invalid response format from Perplexity API")
                 stamp), w').
Proof.
  destruct (tools_on_unusable_answer (Sample.world Sample.key [Sample.noChoices])
              "pplx-test"
              {| status := 200; bodyText := "";
                 bodyJson := Some (Obj [("error", Text "overloaded")]) |}
              [] (Obj [("error", Text "overloaded")])
              eq_refl eq_refl eq_refl eq_refl invalidFormat)
    as (_ & _ & F & _).
  - left. exists [("error", Text "overloaded")]. auto.
  - exact (F (Sample.factCheckContext "rates will hold") eq_refl).
Defined.


(** X5.  On a successful response text, the related claims are the
    trimmed first groups of the successive matches of the related-claim
    pattern, in their order and cut after the third; the explanation is
    the response text itself and the claim is the one that was asked. *)
Theorem factCheck_related_claims
  (context : FactCheckTool.Input.t) (w : World) (key text : string) :
  Str.isBlank (FactCheckTool.Input.claim context) = false ->
  credential w = Some key ->
  answers "analysisText" w text ->
  exists r w' ms,
    FactCheckTool.execute context w = (Return r, w') /\
    successive FactCheckTool.relatedPattern text ms /\
    FactCheckTool.Output.relatedClaims r
    = firstn 3 (map (fun m => Str.trim (group 1 m)) ms) /\
    List.length (FactCheckTool.Output.relatedClaims r)
    = Nat.min 3 (List.length ms) /\
    FactCheckTool.Output.explanation r = text /\
    FactCheckTool.Output.claim r = FactCheckTool.Input.claim context.
Proof.
  intros B K A.
  destruct (factCheck_answers context w key text B K A)
    as (ss & rs & stamp & w' & _ & S & _ & E).
  eexists. exists w', rs. split; [exact E|]. split; [exact S|].
  cbn [FactCheckTool.Output.relatedClaims FactCheckTool.Output.explanation
       FactCheckTool.Output.claim].
  split; [reflexivity|]. split; [|split; reflexivity].
  now rewrite length_firstn, length_map.
Qed.

Lemma factCheck_related_claims_witness :
  exists r w',
    FactCheckTool.execute (Sample.factCheckContext "rates will hold")
      (Sample.world Sample.key [Sample.completion Sample.relatedText])
    = (Return r, w') /\
    FactCheckTool.Output.relatedClaims r
    = ["Rates fell in 2020"; "Inflation peaked in 2022"; "a"].
Proof.
  assert (A : answers "analysisText"
                (Sample.world Sample.key [Sample.completion Sample.relatedText])
                Sample.relatedText).
  { do 3 eexists. repeat split. }
  destruct (factCheck_related_claims
              (Sample.factCheckContext "rates will hold")
              (Sample.world Sample.key [Sample.completion Sample.relatedText])
              "pplx-test" Sample.relatedText eq_refl eq_refl A)
    as (r & w' & ms & E & S & R & _).
  exists r, w'. split; [exact E|]. rewrite R.
  pose proof (successive_execAll _ _ _ relatedPattern_consuming S) as X.
  vm_compute in X. injection X as <-. vm_compute. reflexivity.
Defined.

(** X6.  Whatever the input and the world, the fact-check record echoes
    the claim, has one of the six verdicts, at most five evidence items,
    each of credibility 0.8, and at most three related claims. *)
Theorem factCheck_record_bounds
  (context : FactCheckTool.Input.t) (w : World) :
  exists r w',
    FactCheckTool.execute context w = (Return r, w') /\
    FactCheckTool.Output.claim r = FactCheckTool.Input.claim context /\
    In (FactCheckTool.Output.verdict r) FactCheckTool.verdicts /\
    (List.length (FactCheckTool.Output.evidence r) <= 5)%nat /\
    Forall (fun e => FactCheckTool.Output.credibility e = 0.8%float)
      (FactCheckTool.Output.evidence r) /\
    (List.length (FactCheckTool.Output.relatedClaims r) <= 3)%nat.
Proof.
  assert (F : forall e stamp,
             let r := FactCheckTool.fallbackResult
                        (FactCheckTool.Input.claim context) e stamp in
             FactCheckTool.Output.claim r = FactCheckTool.Input.claim context /\
             In (FactCheckTool.Output.verdict r) FactCheckTool.verdicts /\
             (List.length (FactCheckTool.Output.evidence r) <= 5)%nat /\
             Forall (fun e => FactCheckTool.Output.credibility e = 0.8%float)
               (FactCheckTool.Output.evidence r) /\
             (List.length (FactCheckTool.Output.relatedClaims r) <= 3)%nat).
  { intros e stamp. cbn. repeat split; try lia; [tauto | constructor]. }
  destruct (Str.isBlank (FactCheckTool.Input.claim context)) eqn:B.
  - rewrite (factCheck_blank context w B). do 2 eexists.
    split; [reflexivity | apply F].
  - destruct (credential w) as [key|] eqn:K.
    + destruct (factCheck_some context w key B K)
        as (r & E & [(e & stamp & ->)|(text & ss & rs & stamp & _ & _ & _ & ->)]).
      * do 2 eexists. split; [exact E | apply F].
      * do 2 eexists. split; [exact E|].
        cbn [FactCheckTool.Output.relatedClaims FactCheckTool.Output.evidence
             FactCheckTool.Output.verdict FactCheckTool.Output.claim].
        split; [reflexivity|]. split; [apply PatternFacts.extractVerdict_in|].
        split; [rewrite length_firstn; lia|]. split; [|rewrite length_firstn; lia].
        apply Forall_forall. intros e I. apply firstn_incl in I.
        apply in_map_iff in I. destruct I as (m & <- & _). reflexivity.
    + rewrite (factCheck_noKey context w B K). do 2 eexists.
      split; [reflexivity | apply F].
Qed.

(** X7.  Every trend record has one of the four directions.  A record
    built on a response text carries that text as its analysis and,
    whatever the text says, the same three drivers, three predictions
    and three related topics, and seven timeline points of which the
    fourth alone is marked; making it costs one reading of the clock and
    eight random draws.  A fallback record costs neither. *)
Theorem trend_record_shape (context : TrendTool.Input.t) (w : World) :
  exists r w',
    TrendTool.execute context w = (Return r, w') /\
    In (TrendTool.Output.trendDirection r)
      ["rising"; "stable"; "declining"; "volatile"] /\
    TrendTool.Output.topic r = TrendTool.Input.topic context /\
    ((TrendTool.Output.trendDirection r = "stable" /\
      TrendTool.Output.momentum r = 0%float /\
      TrendTool.Output.keyDrivers r = [] /\
      TrendTool.Output.predictions r = [] /\
      TrendTool.Output.relatedTopics r = [] /\
      TrendTool.Output.timeline r = [] /\
      clockReads w' = clockReads w /\ randomDraws w' = randomDraws w)
     \/ (exists key text,
           credential w = Some key /\ answers "analysisText" w text /\
           TrendTool.Output.analysis r = text /\
           TrendTool.Output.keyDrivers r
           = ["Public interest surge"; "Media coverage increase";
              "Policy changes"] /\
           map TrendTool.Output.scenario (TrendTool.Output.predictions r)
           = ["Continued growth in public interest";
              "Stabilization of current trends";
              "Potential policy response"] /\
           map TrendTool.Output.r_topic (TrendTool.Output.relatedTopics r)
           = ["Economic impact"; "Policy developments"; "Public opinion"] /\
           map TrendTool.Output.keyEvent (TrendTool.Output.timeline r)
           = [None; None; None; Some "Major development";
              None; None; None] /\
           clockReads w' = S (clockReads w) /\
           randomDraws w' = (8 + randomDraws w)%nat)).
Proof.
  assert (D : forall text,
             In (TrendTool.trendDirectionOf text)
               ["rising"; "stable"; "declining"; "volatile"]).
  { intros text. unfold TrendTool.trendDirectionOf.
    destruct (Str.includes _ "rising"); [cbn; tauto|].
    destruct (Str.includes _ "declining"); [cbn; tauto|].
    destruct (Str.includes _ "volatile"); cbn; tauto. }
  destruct (Str.isBlank (TrendTool.Input.topic context)) eqn:B.
  - rewrite (trend_blank context w B). do 2 eexists.
    split; [reflexivity|]. cbn. split; [tauto|]. split; [reflexivity|].
    left. repeat split.
  - destruct (credential w) as [key|] eqn:K.
    + destruct (trend_some context w key B K)
        as (r & w' & E & _ & _ & [(e & -> & C & R)
                                 |(text & A & Dr & An & T & KD & P & RT & KE & C & R)]).
      * do 2 eexists. split; [exact E|]. cbn. split; [tauto|].
        split; [reflexivity|]. left. repeat split; assumption.
      * do 2 eexists. split; [exact E|]. rewrite Dr. split; [apply D|].
        split; [exact T|]. right. exists key, text.
        rewrite P, RT. repeat split; assumption.
    + rewrite (trend_noKey context w B K). do 2 eexists.
      split; [reflexivity|]. cbn. split; [tauto|]. split; [reflexivity|].
      left. repeat split.
Qed.

(** X8.  The digest tells which path was taken.  The news record has
    the topic and language that were asked; its sources are the one
    entry "Perplexity AI Analysis" exactly when there was a credential
    and a usable answer, and then the summary is the answer's text and
    the article count the requested one (5 by default); otherwise the
    sources are the one error entry, the count is 0 and the summary is
    the fallback digest. *)
Theorem news_record_paths (context : NewsTool.Input.t) (w : World) :
  exists r w',
    NewsTool.execute context w = (Return r, w') /\
    NewsTool.Output.topic r = NewsTool.Input.topic context /\
    NewsTool.Output.language r
    = NewsTool.orDefault (NewsTool.Input.language context) "en" /\
    (NewsTool.Output.sources r = ["Perplexity AI Analysis"]
     <-> exists key text,
           credential w = Some key /\ answers "summary" w text) /\
    (forall key text,
       credential w = Some key -> answers "summary" w text ->
       NewsTool.Output.summary r = text /\
       NewsTool.Output.articleCount r
       = NewsTool.orDefault (NewsTool.Input.count context) 5%float) /\
    (NewsTool.Output.sources r <> ["Perplexity AI Analysis"] ->
     NewsTool.Output.sources r = ["Error - No sources available"] /\
     NewsTool.Output.articleCount r = 0%float /\
     exists fromDay nowDay reason,
       NewsTool.Output.summary r
       = NewsTool.fallbackSummary (NewsTool.Input.topic context)
           fromDay nowDay
           (NewsTool.orDefault (NewsTool.Input.language context) "en")
           reason).
Proof.
  destruct (news_run context w)
    as (r & w' & E & T & L & [(key & text & K & A & S & So & C)
                             |(f & n & reason & N & S & So & C)] & _).
  - exists r, w'. split; [exact E|]. split; [exact T|]. split; [exact L|].
    split; [|split].
    + split; [intros _; eauto | intros _; exact So].
    + intros key' text' K' A'. split; [|exact C].
      destruct A as (r1 & d1 & rest1 & N1 & _ & J1 & C1).
      destruct A' as (r2 & d2 & rest2 & N2 & _ & J2 & C2).
      rewrite N1 in N2. injection N2 as <- _. rewrite J1 in J2.
      injection J2 as <-. rewrite C1 in C2. injection C2 as <-. exact S.
    + intros X. contradiction.
  - exists r, w'. split; [exact E|]. split; [exact T|]. split; [exact L|].
    split; [|split].
    + split; [rewrite So; discriminate|].
      intros (key & text & K & A). destruct (N key text K A).
    + intros key text K A. destruct (N key text K A).
    + intros _. split; [exact So|]. split; [exact C|]. eauto.
Qed.

(** X9.  Whatever the input and the world, the value the sentiment
    tool returns has a truthy [overallSentiment] and truthy [emotions]:
    a parsed answer without them is replaced by the fallback object. *)
Theorem sentiment_result_validated
  (context : SentimentTool.Input.t) (w : World) :
  exists v w' overall emotions,
    SentimentTool.execute context w = (Return v, w') /\
    get "overallSentiment" v = inr overall /\ truthy overall = true /\
    get "emotions" v = inr emotions /\ truthy emotions = true /\
    (v = SentimentTool.parseFallback
     \/ (exists e, v = SentimentTool.fallbackResult e)
     \/ (exists content,
           answers "content" w content /\
           JSON_parse (host w) content = Some v)).
Proof.
  assert (F : forall e,
             exists overall emotions,
               get "overallSentiment" (SentimentTool.fallbackResult e)
               = inr overall /\ truthy overall = true /\
               get "emotions" (SentimentTool.fallbackResult e)
               = inr emotions /\ truthy emotions = true).
  { intros e. do 2 eexists. repeat split. }
  destruct (Str.isBlank (SentimentTool.Input.text context)) eqn:B.
  - rewrite (sentiment_blank context w B).
    destruct (F (Error "Text input is empty or invalid"))
      as (o & e & H1 & H2 & H3 & H4).
    exists (SentimentTool.fallbackResult (Error "Text input is empty or invalid")),
      w, o, e.
    split; [reflexivity|]. repeat (split; [assumption|]). right. left. eauto.
  - destruct (credential w) as [key|] eqn:K.
    + destruct (sentiment_some context w key B K)
        as (v & E & [->|[(e & ->)|(content & A & P & V)]]).
      * do 4 eexists. split; [exact E|]. repeat split. left. reflexivity.
      * destruct (F e) as (o & em & H1 & H2 & H3 & H4).
        do 2 eexists. exists o, em. split; [exact E|].
        repeat (split; [assumption|]). right. left. eauto.
      * unfold SentimentTool.validate in V.
        destruct (get "overallSentiment" v) as [|o] eqn:G1; [discriminate|].
        destruct (truthy o) eqn:T1; [|discriminate]. cbn in V.
        destruct (get "emotions" v) as [|em] eqn:G2; [discriminate|].
        destruct (truthy em) eqn:T2; [|discriminate].
        do 2 eexists. exists o, em. split; [exact E|].
        repeat (split; [assumption || reflexivity|]). right. right. eauto.
    + rewrite (sentiment_noKey context w B K).
      destruct (F keyError) as (o & e & H1 & H2 & H3 & H4).
      exists (SentimentTool.fallbackResult keyError), w, o, e.
      split; [reflexivity|]. repeat (split; [assumption|]). right. left. eauto.
Qed.

(* ================================================================== *)
(** * Further properties of the workflow *)
(* ================================================================== *)

Module SettleFacts.
Import EffFacts.

Lemma allReturn_length {A B} (f : A -> M B) l w bs w' :
  allReturn f l w bs w' -> List.length bs = List.length l.
Proof. induction 1; simpl; congruence. Qed.

Lemma forEach_started_halts {A B} (f : A -> M B) :
  halts f ->
  forall l w, exists ps w',
    forEach started (map f l) w = (Return ps, w') /\
    (firstRejected ps = None ->
     exists bs, allFulfilled ps = Some bs /\ allReturn f l w bs w').
Proof.
  intros H l. induction l as [|a l IH]; intros w.
  - exists [], w. split; [reflexivity|]. intros _.
    exists []. split; [reflexivity | constructor].
  - cbn [map forEach]. unfold bind. unfold started at 1.
    specialize (H a w). destruct (f a w) as [[b|e|] w1] eqn:E; simpl in H;
      [| |congruence].
    + destruct (IH w1) as (ps & w2 & -> & R).
      exists (Fulfilled b :: ps), w2. split; [reflexivity|].
      cbn [firstRejected allFulfilled]. intros N.
      destruct (R N) as (bs & -> & X).
      exists (b :: bs). split; [reflexivity|].
      econstructor; [exact E | exact X].
    + destruct (IH w1) as (ps & w2 & -> & _).
      exists (Rejected e :: ps), w2. split; [reflexivity|]. discriminate.
Qed.

(** [Promise.all] over calls that halt: it rejects, or every call
    returned and the results come in the order of the calls. *)
Lemma promiseAll_halts {A B} (f : A -> M B) (l : list A) (w : World) :
  halts f ->
  exists w',
    (exists e, promiseAll (map f l) w = (Throw e, w'))
    \/ (exists bs,
          promiseAll (map f l) w = (Return bs, w') /\
          allReturn f l w bs w').
Proof.
  intros H. destruct (forEach_started_halts f H l w) as (ps & w' & E & R).
  exists w'. unfold promiseAll, bind. rewrite E.
  destruct (firstRejected ps) as [e|] eqn:F.
  - left. exists e. reflexivity.
  - right. destruct (R eq_refl) as (bs & -> & X).
    exists bs. split; [reflexivity | exact X].
Qed.

Lemma allFulfilled_allReturn {A B} (f : A -> M B) (l : list A) :
  forall w ps w' bs,
    forEach started (map f l) w = (Return ps, w') ->
    allFulfilled ps = Some bs -> allReturn f l w bs w'.
Proof.
  induction l as [|a l IH]; intros w ps w' bs E F.
  - cbn in E. injection E as <- <-. injection F as <-. constructor.
  - cbn [map forEach] in E. unfold bind in E. unfold started at 1 in E.
    destruct (f a w) as [[b|e|] w2] eqn:Ea;
      destruct (forEach started (map f l) w2) as [[ps'| |] w3] eqn:E';
      try discriminate; injection E as <- <-; cbn [allFulfilled] in F;
      try discriminate.
    destruct (allFulfilled ps') as [bs'|] eqn:F'; [|discriminate].
    injection F as <-. econstructor; [exact Ea|]. eapply IH; eassumption.
Qed.

(** One rejection is enough, also when another call never comes back. *)
Lemma promiseAll_rejected {A} (ms : list (M A)) (w w' : World)
  (ps : list (promise A)) (e0 : exn) :
  forEach started ms w = (Return ps, w') ->
  In (Rejected e0) ps ->
  exists e, promiseAll ms w = (Throw e, w').
Proof.
  intros E I. unfold promiseAll, bind. rewrite E.
  assert (F : exists e, firstRejected ps = Some e).
  { clear E. induction ps as [|p ps IH]; [contradiction|].
    destruct p as [a|e|]; cbn [firstRejected].
    - destruct I as [I|I]; [discriminate | auto].
    - eauto.
    - destruct I as [I|I]; [discriminate | auto]. }
  destruct F as (e & ->). exists e. reflexivity.
Qed.

Lemma promiseAll_return {A B} (f : A -> M B) (l : list A) (w w' : World)
  (bs : list B) :
  promiseAll (map f l) w = (Return bs, w') -> allReturn f l w bs w'.
Proof.
  unfold promiseAll, bind.
  destruct (forEach started (map f l) w) as [[ps| |] w1] eqn:E;
    try discriminate.
  destruct (firstRejected ps); [discriminate|].
  destruct (allFulfilled ps) as [bs'|] eqn:F; [|discriminate].
  intros [= <- <-]. eapply allFulfilled_allReturn; eassumption.
Qed.
End SettleFacts.

Module ClaimFacts.
Import Workflow WorkflowFacts EffFacts SettleFacts.

Lemma backtrack_sound {A} (p : ascii -> bool) (s : string) :
  forall cs (k : cont A) x,
    backtrack p s cs k = Some x ->
    exists c s', s = c ++ s' /\ Str.all p c = true /\ k c s' cs = Some x.
Proof.
  induction s as [|a s IH]; intros cs k x H; cbn [backtrack] in H.
  - exists "", "". auto.
  - destruct (p a) eqn:P.
    + unfold orElse in H.
      destruct (backtrack p s cs _) as [y|] eqn:E.
      * injection H as ->. apply IH in E.
        destruct E as (c & s' & -> & C & E).
        exists (String a c), s'. cbn. rewrite P, C. auto.
      * exists "", (String a s). auto.
    + exists "", (String a s). auto.
Qed.

Lemma all_append (p : ascii -> bool) (a b : string) :
  Str.all p (a ++ b) = Str.all p a && Str.all p b.
Proof.
  induction a as [|c a IH]; cbn; [reflexivity|].
  now rewrite IH, andb_assoc.
Qed.

Lemma stripQuotes_unquoted (s : string) :
  Str.all unquoted s = true -> stripQuotes s = s.
Proof.
  induction s as [|c s IH]; cbn; [reflexivity|].
  unfold unquoted at 1. intros H. apply andb_true_iff in H.
  destruct H as [C H]. apply negb_true_iff in C. rewrite C.
  now rewrite IH.
Qed.

Lemma stripQuotes_append (a b : string) :
  stripQuotes (a ++ b) = stripQuotes a ++ stripQuotes b.
Proof.
  induction a as [|c a IH]; cbn; [reflexivity|].
  destruct (isQuote c); [exact IH | cbn; now rewrite IH].
Qed.

Lemma stripQuotes_all (s : string) : Str.all unquoted (stripQuotes s) = true.
Proof.
  induction s as [|c s IH]; cbn; [reflexivity|].
  destruct (isQuote c) eqn:Q; [exact IH|].
  cbn. unfold unquoted at 1. now rewrite Q.
Qed.

(** A match of the claim pattern: a quote, a run of one or more
    characters that are no quotes, a quote; the run is group 1. *)
Lemma claim_match (s : string) (m : found) :
  matchAt claimPattern s = Some m ->
  exists q1 g q2,
    matched m = String q1 (g ++ String q2 "") /\
    isQuote q1 = true /\ isQuote q2 = true /\
    Str.all unquoted g = true /\ g <> "" /\
    group 1 m = g.
Proof.
  unfold matchAt, claimPattern. cbn [cat]. unfold quote, Regex.plus, notQuote.
  rewrite rmatch_Cat. destruct s as [|q1 s]; [discriminate|].
  rewrite rmatch_Chr. destruct (isQuote q1) eqn:Q1; [|discriminate].
  rewrite rmatch_Cat, rmatch_Grp, rmatch_Cat.
  destruct s as [|c s]; [discriminate|].
  rewrite rmatch_Chr. destruct (negb (isQuote c)) eqn:C; [|discriminate].
  rewrite rmatch_star_class. intros H. apply backtrack_sound in H.
  destruct H as (g & s' & -> & G & H).
  destruct s' as [|q2 s']; [discriminate|].
  rewrite rmatch_Chr in H. destruct (isQuote q2) eqn:Q2; [|discriminate].
  injection H as <-. exists q1, (String c g), q2. cbn.
  repeat split; auto.
  - unfold unquoted at 1. rewrite C. exact G.
  - discriminate.
Qed.

Lemma claim_stripped (s : string) (m : found) :
  matchAt claimPattern s = Some m ->
  stripQuotes (matched m) = group 1 m /\
  group 1 m <> "" /\ Str.all unquoted (group 1 m) = true.
Proof.
  intros H. destruct (claim_match s m H) as (q1 & g & q2 & -> & Q1 & Q2 & G & N & ->).
  split; [|auto]. cbn [stripQuotes]. rewrite Q1, stripQuotes_append.
  cbn [stripQuotes]. rewrite Q2, (stripQuotes_unquoted g G).
  apply append_nil_r.
Qed.

Lemma successive_each (r : regex) (P : found -> Prop) :
  (forall s m, matchAt r s = Some m ->
     P (Found "" (matched m) (groups m) (after m))) ->
  (forall m b, P (Found "" (matched m) (groups m) (after m)) ->
     P (Found b (matched m) (groups m) (after m))) ->
  forall s ms, successive r s ms -> Forall P ms.
Proof.
  intros H Hb s ms S. induction S as [s E|s m ms E _ IH]; constructor; auto.
  apply search_sound in E. destruct E as (_ & _ & _ & E).
  apply H in E. cbn in E. specialize (Hb m (before m) E). now destruct m.
Qed.

Lemma unquoted_nowhere (s : string) :
  Str.all unquoted s = true -> search claimPattern s = None.
Proof.
  intros H. apply search_nowhere. intros pre rest ->.
  rewrite all_append in H. apply andb_true_iff in H. destruct H as [_ H].
  unfold matchAt, claimPattern. cbn [cat]. unfold quote.
  rewrite rmatch_Cat. destruct rest as [|c rest]; [reflexivity|].
  rewrite rmatch_Chr. cbn in H. apply andb_true_iff in H.
  destruct H as [C _]. unfold unquoted in C. apply negb_true_iff in C.
  now rewrite C.
Qed.

Lemma successive_length (r : regex) (s : string) (ms : list found) :
  consuming r = true -> successive r s ms ->
  (List.length ms <= String.length s)%nat.
Proof.
  intros C S. induction S as [s E|s m ms E _ IH]; simpl; [lia|].
  pose proof (search_shorter _ _ _ C E). lia.
Qed.

(** Step 3 in full, for a fact-check tool that halts. *)
Lemma checkClaims_cases (tools : Tools) (topic summary : string) (w : World) :
  halts (factCheckTool tools) ->
  exists ms f w',
    successive claimPattern summary ms /\
    checkClaims tools topic summary w = (Return f, w') /\
    (f = []
     \/ allReturn (fun claim => factCheckTool tools
                                  (factCheckContext topic claim))
          (firstn 3 (map matched ms)) w f w').
Proof.
  intros H. unfold checkClaims, tryCatch, bind.
  destruct (matchAll_claims summary w) as (ms & S & ->). exists ms.
  destruct (0 <? List.length (map matched ms))%nat.
  - assert (H' : halts (fun claim => factCheckTool tools
                                       (factCheckContext topic claim)))
      by (intros a w0; apply H).
    destruct (promiseAll_halts _ (firstn 3 (map matched ms)) w H')
      as (w' & [(e & ->)|(bs & -> & R)]).
    + exists [], w'. auto.
    + exists bs, w'. auto.
  - exists [], w. auto.
Qed.

Lemma checkClaims_return (tools : Tools) (topic summary : string)
  (w w' : World) (f : list FactCheckTool.Output.t) :
  checkClaims tools topic summary w = (Return f, w') ->
  exists ms,
    successive claimPattern summary ms /\
    (f = []
     \/ allReturn (fun claim => factCheckTool tools
                                  (factCheckContext topic claim))
          (firstn 3 (map matched ms)) w f w').
Proof.
  unfold checkClaims, tryCatch, bind.
  destruct (matchAll_claims summary w) as (ms & S & ->). exists ms.
  split; [exact S|].
  destruct (0 <? List.length (map matched ms))%nat.
  - destruct (promiseAll _ w) as [[bs|e|] w1] eqn:P.
    + injection H as <- <-. right. now apply promiseAll_return.
    + injection H as <- _. now left.
    + discriminate.
  - injection H as <- _. now left.
Qed.
End ClaimFacts.

Module StageFacts.
Import Workflow WorkflowFacts EffFacts SettleFacts ClaimFacts.

Lemma allReturn_map {A B C} (f : B -> M C) (g : A -> B) (l : list A)
  w bs w' :
  allReturn f (map g l) w bs w' -> allReturn (fun a => f (g a)) l w bs w'.
Proof.
  revert w bs. induction l as [|a l IH]; intros w bs H; inversion H; subst.
  - constructor.
  - econstructor; [eassumption | now apply IH].
Qed.

Lemma allReturn_ext {A B} (f g : A -> M B) (l : list A) w bs w' :
  Forall (fun a => f a = g a) l ->
  allReturn f l w bs w' -> allReturn g l w bs w'.
Proof.
  intros F H. induction H as [|a l w b w1 bs w2 E _ IH]; [constructor|].
  inversion F as [|? ? Fa Fl]; subst.
  econstructor; [rewrite <- Fa; exact E | now apply IH].
Qed.

Lemma firstn_map {A B} (g : A -> B) (n : nat) (l : list A) :
  firstn n (map g l) = map g (firstn n l).
Proof.
  revert l. induction n as [|n IH]; intros [|a l]; cbn; try reflexivity.
  now rewrite IH.
Qed.

Lemma Forall_firstn {A} (P : A -> Prop) (n : nat) (l : list A) :
  Forall P l -> Forall P (firstn n l).
Proof.
  intros H. apply Forall_forall. intros x I. apply firstn_incl in I.
  rewrite Forall_forall in H. now apply H.
Qed.

(** What each match of the claim pattern hands to the fact-check tool. *)
Lemma claims_between_quotes (summary : string) (ms : list found) :
  successive claimPattern summary ms ->
  Forall (fun m =>
            stripQuotes (matched m) = group 1 m /\
            group 1 m <> "" /\ Str.all unquoted (group 1 m) = true) ms.
Proof.
  apply successive_each.
  - intros s m H. apply claim_stripped in H. exact H.
  - intros m b H. exact H.
Qed.

Lemma verified_disputed (f : list FactCheckTool.Output.t) :
  (List.length (filter isVerified f) + List.length (filter isDisputed f)
   <= List.length f)%nat.
Proof.
  induction f as [|r f IH]; cbn [filter List.length]; [lia|].
  assert (X : isVerified r && isDisputed r = false).
  { unfold isVerified, isDisputed.
    destruct (String.eqb_spec (FactCheckTool.Output.verdict r) "true") as [->|];
      [reflexivity|].
    destruct (String.eqb_spec (FactCheckTool.Output.verdict r) "mostly_true")
      as [->|]; [reflexivity|]. reflexivity. }
  destruct (isVerified r), (isDisputed r); cbn [List.length];
    try discriminate; lia.
Qed.

Lemma step_halts {A} (label : string) (call : M A) (w : World) :
  fst (call w) <> Diverge -> fst (step label call w) <> Diverge.
Proof.
  unfold step, tryCatch, throw.
  destruct (call w) as [[a|e|] w1]; cbn; congruence.
Qed.

Lemma gather_halts (tools : Tools) (i : Input.t) (w : World) :
  halts (newsTool tools) -> halts (sentimentTool tools) ->
  halts (factCheckTool tools) -> halts (trendTool tools) ->
  fst (gather tools i w) <> Diverge.
Proof.
  intros HN HS HF HT. unfold gather, bind.
  pose proof (step_halts "News fetch failed" _ w (HN (newsContext i) w)) as X.
  destruct (step "News fetch failed" _ w) as [[n|e|] w1]; cbn in *;
    [|discriminate|congruence].
  pose proof (step_halts "Sentiment analysis failed" _ w1
                (HS (sentimentContext i n) w1)) as Y.
  destruct (step "Sentiment analysis failed" _ w1) as [[s|e|] w2]; cbn in *;
    [|discriminate|congruence].
  destruct (checkClaims_cases tools (Input.topic i)
              (NewsTool.Output.summary n) w2 HF) as (ms & f & w3 & _ & -> & _).
  pose proof (step_halts "Trend analysis failed" _ w3
                (HT (trendContext i) w3)) as Z.
  destruct (step "Trend analysis failed" _ w3) as [[t|e|] w4]; cbn in *;
    [discriminate|discriminate|congruence].
Qed.
End StageFacts.

Import Workflow WorkflowFacts EffFacts SettleFacts ClaimFacts StageFacts.

(** X10.  The workflow never throws.  With tools that halt, [execute]
    returns a briefing for every input, present or not.  The briefing
    is the fallback one, with confidence 0 and data quality "limited",
    or a structured one with confidence 0.85 and a data quality other
    than "limited"; its risk level is never "critical" and its
    misinformation risk never "medium". *)
Theorem workflow_always_returns
  (tools : Tools) (inputData : option Input.t) (w : World) :
  halts (newsTool tools) -> halts (sentimentTool tools) ->
  halts (factCheckTool tools) -> halts (trendTool tools) ->
  exists out w',
    execute tools inputData w = (Return out, w') /\
    In (Output.riskLevel (Output.executiveSummary out))
      ["low"; "medium"; "high"] /\
    In (Output.misinformationRisk (Output.factChecking out))
      ["low"; "high"] /\
    ((exists stamp,
        out = fallback inputData stamp /\
        Output.confidence (Output.metadata out) = 0%float /\
        Output.dataQuality (Output.metadata out) = "limited")
     \/ (exists i,
           inputData = Some i /\
           Output.topic out = Input.topic i /\
           Output.confidence (Output.metadata out) = 0.85%float /\
           In (Output.dataQuality (Output.metadata out))
             ["excellent"; "good"; "fair"])).
Proof.
  intros HN HS HF HT.
  destruct (analyse tools inputData w) as [[out|e|] w1] eqn:A.
  - rewrite (execute_return _ _ _ _ _ A). exists out, w1.
    split; [reflexivity|].
    destruct inputData as [i|]; [|discriminate].
    destruct (analyse_return _ _ _ _ _ A) as (r & w2 & G & -> & _).
    destruct r as [[[n s] f] t]. cbn -[PrimFloat.ltb].
    split; [|split].
    + unfold riskLevelOf. destruct (PrimFloat.ltb 0.6 _); [cbn; tauto|].
      destruct (PrimFloat.ltb 0.5 _); cbn; tauto.
    + destruct (existsb isFalse f); cbn; tauto.
    + right. exists i. repeat split. unfold dataQualityOf.
      destruct (5 <? _)%nat; [cbn; tauto|].
      destruct (2 <? _)%nat; cbn; tauto.
  - rewrite (execute_throw _ _ _ _ _ A). do 2 eexists.
    split; [reflexivity|]. cbn. split; [tauto|]. split; [tauto|].
    left. eexists. repeat split.
  - exfalso. destruct inputData as [i|]; [|discriminate].
    unfold analyse, bind, ask in A.
    pose proof (gather_halts tools i w HN HS HF HT) as G.
    destruct (gather tools i w) as [[r|e'|] w2]; cbn in G;
      try discriminate. congruence.
Qed.

Lemma workflow_always_returns_witness :
  exists out w',
    execute Sample.factCheckDown None (Sample.world None [])
    = (Return out, w') /\
    Output.topic out = "unknown".
Proof.
  assert (H : forall A B (b : B), halts (Sample.always (A := A) b))
    by (intros A B b a w; discriminate).
  assert (F : halts (factCheckTool Sample.factCheckDown))
    by (intros a w; discriminate).
  destruct (workflow_always_returns Sample.factCheckDown None
              (Sample.world None []) (H _ _ _) (H _ _ _) F (H _ _ _))
    as (out & w' & E & _ & _ & [(stamp & -> & _)|(i & X & _)]).
  - exists (fallback None stamp), w'. split; [exact E | reflexivity].
  - discriminate X.
Defined.


(** X11.  The sentiment step and the trend step stop the workflow.  If
    the sentiment tool throws on the digest, or the trend tool throws
    after the first three steps came back, [execute] returns the
    fallback briefing; what the earlier steps found is dropped, and
    nothing happens after the failing call but one reading of the
    clock. *)
Theorem workflow_hard_stops
  (tools : Tools) (i : Input.t) (w w1 : World) (n : NewsTool.Output.t) :
  newsTool tools (newsContext i) w = (Return n, w1) ->
  (forall e w2,
     sentimentTool tools (sentimentContext i n) w1 = (Throw e, w2) ->
     execute tools (Some i) w
     = (Return (fallback (Some i)
                  (toISOString (host w2) (Date_now (host w2) (clockReads w2)))),
        ticked w2)) /\
  (forall s w2 f w3 e w4,
     sentimentTool tools (sentimentContext i n) w1 = (Return s, w2) ->
     checkClaims tools (Input.topic i) (NewsTool.Output.summary n) w2
     = (Return f, w3) ->
     trendTool tools (trendContext i) w3 = (Throw e, w4) ->
     execute tools (Some i) w
     = (Return (fallback (Some i)
                  (toISOString (host w4) (Date_now (host w4) (clockReads w4)))),
        ticked w4)).
Proof.
  intros EN. split.
  - intros e w2 ES.
    assert (A : analyse tools (Some i) w
                = (Throw (Error ("Sentiment analysis failed: " ++ message e)),
                   w2)).
    { unfold analyse, gather, bind, ask.
      rewrite (step_return _ _ _ _ _ EN), (step_throw _ _ _ _ _ ES).
      reflexivity. }
    exact (execute_throw _ _ _ _ _ A).
  - intros s w2 f w3 e w4 ES EF ET.
    assert (A : analyse tools (Some i) w
                = (Throw (Error ("Trend analysis failed: " ++ message e)), w4)).
    { unfold analyse, gather, bind, ask.
      rewrite (step_return _ _ _ _ _ EN), (step_return _ _ _ _ _ ES), EF.
      rewrite (step_throw _ _ _ _ _ ET). reflexivity. }
    exact (execute_throw _ _ _ _ _ A).
Qed.

Lemma workflow_hard_stops_witness :
  exists out w',
    execute Sample.sentimentDown (Some (Sample.input "rates"))
      (Sample.world Sample.key [])
    = (Return out, w') /\
    Output.summary (Output.newsAnalysis out)
    = "Unable to fetch news due to technical issues" /\
    Output.confidence (Output.metadata out) = 0%float.
Proof.
  pose proof (proj1 (workflow_hard_stops Sample.sentimentDown (Sample.input "rates")
                       (Sample.world Sample.key [])
                       (Sample.world Sample.key []) Sample.newsResult eq_refl)
                (Error "scorer down") (Sample.world Sample.key []) eq_refl)
    as E.
  do 2 eexists. split; [exact E|]. split; reflexivity.
Defined.

(** X12.  The fact-check stage is all or nothing over at most three
    claims.  With a tool that halts, the stage returns; its results are
    at most three; and they are either none, or one result for each of
    the first three quoted texts of the digest, in their order, every
    call having returned.  The claim handed to the tool is the text
    between the quotes: not empty, and free of quotes. *)
Theorem factcheck_stage_all_or_nothing
  (tools : Tools) (topic summary : string) (w : World) :
  halts (factCheckTool tools) ->
  exists ms f w',
    successive claimPattern summary ms /\
    checkClaims tools topic summary w = (Return f, w') /\
    (List.length f <= 3)%nat /\
    Forall (fun m => group 1 m <> "" /\ Str.all unquoted (group 1 m) = true)
      ms /\
    (f = []
     \/ (List.length f = Nat.min 3 (List.length ms) /\
         allReturn
           (fun m => factCheckTool tools
                       {| FactCheckTool.Input.claim := group 1 m;
                          FactCheckTool.Input.sources := None;
                          FactCheckTool.Input.context := Some topic |})
           (firstn 3 ms) w f w')).
Proof.
  intros H.
  destruct (checkClaims_cases tools topic summary w H)
    as (ms & f & w' & S & E & C).
  exists ms, f, w'. split; [exact S|]. split; [exact E|].
  pose proof (claims_between_quotes summary ms S) as Q.
  assert (R : f = [] \/
              allReturn
                (fun m => factCheckTool tools
                            {| FactCheckTool.Input.claim := group 1 m;
                               FactCheckTool.Input.sources := None;
                               FactCheckTool.Input.context := Some topic |})
                (firstn 3 ms) w f w').
  { destruct C as [->|C]; [now left | right].
    rewrite firstn_map in C. apply allReturn_map in C.
    eapply allReturn_ext; [|exact C].
    apply Forall_firstn. eapply Forall_impl; [|exact Q].
    intros m (X & _). cbn beta. unfold factCheckContext. now rewrite X. }
  split; [|split].
  - destruct R as [->|R]; [simpl; lia|].
    apply allReturn_length in R. rewrite R, length_firstn. lia.
  - eapply Forall_impl; [|exact Q]. intros m (_ & X). exact X.
  - destruct R as [->|R]; [now left | right]. split; [|exact R].
    apply allReturn_length in R. now rewrite R, length_firstn.
Qed.

Lemma factcheck_stage_all_or_nothing_witness :
  exists f w',
    checkClaims Sample.tools "rates" Sample.fourQuotes (Sample.world Sample.key [])
    = (Return f, w') /\
    map FactCheckTool.Output.claim f = ["one"; "two"; "three"].
Proof.
  assert (H : halts (factCheckTool Sample.tools))
    by (intros a w; discriminate).
  destruct (factcheck_stage_all_or_nothing Sample.tools "rates" Sample.fourQuotes
              (Sample.world Sample.key []) H)
    as (ms & f & w' & S & E & _).
  exists f, w'. split; [exact E|].
  vm_compute in E. injection E as <- _. reflexivity.
Defined.

(** X13.  A digest with no quote character in it costs no fact-check
    call: the stage returns no result and leaves the world as it was,
    whatever the tool is. *)
Theorem quote_free_digest_skips_factcheck
  (tools : Tools) (topic summary : string) (w : World) :
  Str.all unquoted summary = true ->
  checkClaims tools topic summary w = (Return [], w).
Proof.
  intros Q. unfold checkClaims, tryCatch, bind, matchAll, execAll.
  cbn [execLoop]. rewrite (unquoted_nowhere summary Q). reflexivity.
Qed.

Lemma quote_free_digest_skips_factcheck_witness :
  checkClaims Sample.factCheckDown "rates" "Rates held on Monday."
    (Sample.world Sample.key [])
  = (Return [], Sample.world Sample.key []).
Proof.
  apply (quote_free_digest_skips_factcheck Sample.factCheckDown "rates"
           "Rates held on Monday." (Sample.world Sample.key [])).
  reflexivity.
Defined.

(** X14.  In a briefing that went through the structuring stage, the
    verified and the disputed claims together are at most three and are
    never empty strings (a result with an empty claim is listed as
    "Unknown claim"); a "high" misinformation risk comes with at least
    one disputed claim; and the emotional drivers are keys of the
    emotions object the sentiment step returned, each with a value above
    0.5, whatever those keys are. *)
Theorem workflow_rollup_consistent
  (tools : Tools) (i : Input.t) (w w' : World) (out : Output.t) :
  analyse tools (Some i) w = (Return out, w') ->
  (List.length (Output.verifiedClaims (Output.factChecking out))
   + List.length (Output.disputedClaims (Output.factChecking out)) <= 3)%nat /\
  Forall (fun c => c <> "")
    (Output.verifiedClaims (Output.factChecking out)
     ++ Output.disputedClaims (Output.factChecking out))%list /\
  (Output.misinformationRisk (Output.factChecking out) = "high" ->
   Output.disputedClaims (Output.factChecking out) <> []) /\
  exists n s w1 w2,
    newsTool tools (newsContext i) w = (Return n, w1) /\
    sentimentTool tools (sentimentContext i n) w1 = (Return s, w2) /\
    (forall d,
       In d (Output.emotionalDrivers (Output.sentimentAnalysis out))
       <-> exists v,
             In (d, v) (SentimentTool.Output.emotions s) /\
             (0.5 <? v)%float = true) /\
    (List.length (Output.emotionalDrivers (Output.sentimentAnalysis out))
     <= List.length (SentimentTool.Output.emotions s))%nat.
Proof.
  intros A.
  destruct (analyse_return _ _ _ _ _ A) as (r & w1 & G & -> & _).
  destruct (gather_return _ _ _ _ _ G)
    as (n & s & f & t & wa & wb & wc & -> & EN & ES & EF & _).
  cbn [assemble structure Output.factChecking Output.verifiedClaims
       Output.disputedClaims Output.misinformationRisk
       Output.sentimentAnalysis Output.emotionalDrivers].
  assert (L : (List.length f <= 3)%nat).
  { destruct (checkClaims_return _ _ _ _ _ _ EF) as (ms & _ & [->|R]);
      [simpl; lia|].
    apply allReturn_length in R. rewrite R, length_firstn. lia. }
  split; [|split; [|split]].
  - rewrite !length_map. pose proof (verified_disputed f). lia.
  - apply Forall_app. split; apply Forall_forall; intros c I;
      apply in_map_iff in I; destruct I as (r & <- & _);
      unfold claimOf; destruct (FactCheckTool.Output.claim r);
      cbn; discriminate.
  - destruct (existsb isFalse f) eqn:X; [|discriminate]. intros _.
    apply existsb_exists in X. destruct X as (r & I & V).
    assert (D : In r (filter isDisputed f)).
    { apply filter_In. split; [exact I|]. unfold isDisputed.
      unfold isFalse in V. now rewrite V. }
    intros N. apply (in_map claimOf) in D. rewrite N in D. exact D.
  - exists n, s, wa, wb. split; [exact EN|]. split; [exact ES|]. split.
    + intros d. rewrite in_map_iff. split.
      * intros ((k & v) & <- & I). apply filter_In in I.
        destruct I as (I & V). exists v. split; [exact I | exact V].
      * intros (v & I & V). exists (d, v). split; [reflexivity|].
        apply filter_In. split; [exact I | exact V].
    + rewrite length_map. apply filter_length_le.
Qed.

Lemma workflow_rollup_consistent_witness :
  exists out w',
    analyse Sample.hopefulTools (Some (Sample.input "rates"))
      (Sample.world Sample.key [])
    = (Return out, w') /\
    Output.disputedClaims (Output.factChecking out) = ["rates will hold"] /\
    Output.emotionalDrivers (Output.sentimentAnalysis out)
    = ["trust"; "hope"; "fear"] /\
    (In "hope" (Output.emotionalDrivers (Output.sentimentAnalysis out))
     <-> exists v,
           In ("hope", v) (SentimentTool.Output.emotions Sample.hopeful) /\
           (0.5 <? v)%float = true).
Proof.
  destruct (analyse Sample.hopefulTools (Some (Sample.input "rates"))
              (Sample.world Sample.key [])) as [o w'] eqn:A.
  assert (O : exists out, o = Return out).
  { vm_compute in A. injection A as <- _. eexists. reflexivity. }
  destruct O as (out & ->).
  destruct (workflow_rollup_consistent _ _ _ _ _ A)
    as (_ & _ & _ & n & s & w1 & w2 & _ & ES & D & _).
  injection ES as <- _.
  exists out, w'. split; [reflexivity|]. split; [|split; [|exact (D "hope")]].
  - vm_compute in A. injection A as <- _. reflexivity.
  - vm_compute in A. injection A as <- _. reflexivity.
Defined.

(** X15.  With the program's own news tool the workflow does not fall
    back on account of the news: the news step returns in every world,
    so with sentiment and trend tools that return and a fact-check tool
    that halts, every present input gets a structured briefing, with
    confidence 0.85 and data quality "fair", also when the digest
    itself is the news tool's fallback digest. *)
Theorem workflow_with_news_tool_structured
  (tools : Tools) (i : Input.t) (w : World) :
  newsTool tools = NewsTool.execute ->
  returns (sentimentTool tools) ->
  returns (trendTool tools) ->
  halts (factCheckTool tools) ->
  exists n w1 out w',
    NewsTool.execute (newsContext i) w = (Return n, w1) /\
    execute tools (Some i) w = (Return out, w') /\
    Output.topic out = Input.topic i /\
    Output.summary (Output.newsAnalysis out) = NewsTool.Output.summary n /\
    Output.sourceCount (Output.newsAnalysis out)
    = NewsTool.Output.articleCount n /\
    Output.confidence (Output.metadata out) = 0.85%float /\
    Output.dataQuality (Output.metadata out) = "fair".
Proof.
  intros N RS RT HF.
  destruct (news_returns (newsContext i) w) as (n & w1 & EN & L).
  destruct (RS (sentimentContext i n) w1) as (s & w2 & ES).
  destruct (checkClaims_cases tools (Input.topic i)
              (NewsTool.Output.summary n) w2 HF)
    as (ms & f & w3 & _ & EF & _).
  destruct (RT (trendContext i) w3) as (t & w4 & ET).
  assert (G : gather tools i w = (Return (n, s, f, t), w4)).
  { unfold gather, bind. rewrite N.
    rewrite (step_return _ _ _ _ _ EN), (step_return _ _ _ _ _ ES), EF.
    rewrite (step_return _ _ _ _ _ ET). reflexivity. }
  assert (A : analyse tools (Some i) w
              = (Return (assemble (host w) i (n, s, f, t)
                           (Date_now (host w4) (clockReads w4))), ticked w4)).
  { unfold analyse, bind, ask. rewrite G. reflexivity. }
  exists n, w1. do 2 eexists. split; [exact EN|].
  split; [exact (execute_return _ _ _ _ _ A)|].
  cbn. unfold dataQualityOf. rewrite L. repeat split.
Qed.

Lemma workflow_with_news_tool_structured_witness :
  exists out w',
    execute Sample.realNews (Some (Sample.input "rates"))
      (Sample.world None [])
    = (Return out, w') /\
    Output.sourceCount (Output.newsAnalysis out) = 0%float /\
    Output.confidence (Output.metadata out) = 0.85%float /\
    Output.dataQuality (Output.metadata out) = "fair".
Proof.
  assert (RS : returns (sentimentTool Sample.realNews))
    by (intros a w; do 2 eexists; reflexivity).
  assert (RT : returns (trendTool Sample.realNews))
    by (intros a w; do 2 eexists; reflexivity).
  assert (HF : halts (factCheckTool Sample.realNews))
    by (intros a w; discriminate).
  destruct (workflow_with_news_tool_structured Sample.realNews
              (Sample.input "rates") (Sample.world None [])
              eq_refl RS RT HF)
    as (n & w1 & out & w' & EN & E & _ & _ & C & F & Q).
  exists out, w'. split; [exact E|]. split; [|auto].
  rewrite C. vm_compute in EN. injection EN as <- _. reflexivity.
Defined.
